(** * sanctions_watch: a shallow embedding of the crawl pipeline

    The development follows the layout of the Python package:

    - [Py], [PyFloat]  the operations of Python's [str] and [float] the
                    package calls,
    - [Exceptions]  core/exceptions.py and the exception classes of the
                    libraries the package catches or raises,
    - [Models]      core/models.py,
    - [Base]        core/base.py ([BaseCrawler]), with the retry loop of
                    [tenacity] that decorates [_make_request],
    - [Processors]  processors/deduplicator.py and processors/enricher.py,
    - [Strptime]    [datetime.strptime] for the directives the crawlers use,
    - [ET]          the part of [xml.etree.ElementTree] the crawlers use,
    - [EU], [OFAC], [UN], [UK]  the four crawlers under crawlers/,
    - [Tests]       the crawler and the configuration of tests/,
    - [Fetch]       the [_fetch_data] methods of the four crawlers, over
                    the calls they make to the standard library,
    - [Normalizer]  processors/normalizer.py,
    - [Cli]         cli.py: the registry, [_run_crawl], the summary, the
                    exports and the [health] command.

    The properties follow the definitions, one module per component.

    Text is modelled as ASCII: a [str] is a [string] whose characters are
    code points below 128.  An [exn] is an instance of Python's
    [Exception]; what is raised outside [Exception]
    ([asyncio.CancelledError], [KeyboardInterrupt], [SystemExit]) is a
    [signal], which reaches the crawler where it awaits the network;
    the sleeps of the rate limiter and of the retry loop run to their
    end.  Time is a clock of doubles, in seconds, that advances by sleeping
    only; the arithmetic on it is that of binary64, infinities and NaN
    included. *)

From Stdlib Require Import ZArith String Ascii List Bool Floats Lia.
From Stdlib Require Import DecimalString.
From stdpp Require Import gmap strings list.
Import ListNotations.

Set Warnings "-inexact-float,-register-all".
Local Open Scope string_scope.

(* ===================================================================== *)
(** ** Python's [str] *)
(* ===================================================================== *)

Module Py.

(** [c.isspace()] on ASCII: TAB, LF, VT, FF, CR, FS, GS, RS, US, SPACE. *)
Definition isspace (c : ascii) : bool :=
  let n := nat_of_ascii c in
  ((9 <=? n) && (n <=? 13) || (28 <=? n) && (n <=? 32))%nat.

(** [c.isdigit()] on ASCII. *)
Definition isdigit (c : ascii) : bool :=
  let n := nat_of_ascii c in ((48 <=? n) && (n <=? 57))%nat.

Definition lower_char (c : ascii) : ascii :=
  let n := nat_of_ascii c in
  if ((65 <=? n) && (n <=? 90))%nat then ascii_of_nat (n + 32) else c.

Definition upper_char (c : ascii) : ascii :=
  let n := nat_of_ascii c in
  if ((97 <=? n) && (n <=? 122))%nat then ascii_of_nat (n - 32) else c.

Fixpoint smap (f : ascii -> ascii) (s : string) : string :=
  match s with
  | EmptyString => EmptyString
  | String c r => String (f c) (smap f r)
  end.

(** [s.lower()] and [s.upper()]. *)
Definition lower (s : string) : string := smap lower_char s.
Definition upper (s : string) : string := smap upper_char s.

(** Truth value of a [str]: the empty string is falsy. *)
Definition truthy (s : string) : bool :=
  match s with EmptyString => false | String _ _ => true end.

(** Truth value of an [Optional[str]]. *)
Definition otruthy (o : option string) : bool :=
  match o with Some s => truthy s | None => false end.

Fixpoint lstrip (s : string) : string :=
  match s with
  | EmptyString => EmptyString
  | String c r => if isspace c then lstrip r else s
  end.

Fixpoint rstrip (s : string) : string :=
  match s with
  | EmptyString => EmptyString
  | String c r =>
      let r' := rstrip r in
      if isspace c && negb (truthy r') then EmptyString else String c r'
  end.

(** [s.strip()]: leading and trailing whitespace removed. *)
Definition strip (s : string) : string := rstrip (lstrip s).

(** [needle in hay]. *)
Fixpoint contains (needle hay : string) : bool :=
  String.prefix needle hay ||
  match hay with
  | EmptyString => false
  | String _ r => contains needle r
  end.

(** [sep.join(parts)]. *)
Fixpoint join (sep : string) (parts : list string) : string :=
  match parts with
  | [] => EmptyString
  | [p] => p
  | p :: rest => p ++ sep ++ join sep rest
  end.

(** [filter(None, parts)] on a list of [Optional[str]]: the [None]s and
    the empty strings are dropped. *)
Fixpoint filter_none (parts : list (option string)) : list string :=
  match parts with
  | [] => []
  | Some s :: rest => if truthy s then s :: filter_none rest else filter_none rest
  | None :: rest => filter_none rest
  end.

(** [s.replace(old, new)] for a non-empty [old]: the occurrences are
    replaced from left to right, without overlap.  [skip] counts the
    characters of a matched occurrence that are still to be dropped. *)
Fixpoint replace_from (old new : string) (skip : nat) (s : string) : string :=
  match s with
  | EmptyString => EmptyString
  | String c r =>
      match skip with
      | S k => replace_from old new k r
      | O =>
          if String.prefix old s
          then new ++ replace_from old new (String.length old - 1) r
          else String c (replace_from old new 0 r)
      end
  end.

Definition replace (old new s : string) : string := replace_from old new 0 s.

(** [s.split()]: the maximal runs of characters that are not whitespace.
    [cur] is the token being read, reversed. *)
Fixpoint split_from (cur : list ascii) (s : string) : list string :=
  let flush (k : list string) : list string :=
    match cur with
    | [] => k
    | _ => string_of_list_ascii (rev cur) :: k
    end in
  match s with
  | EmptyString => flush []
  | String c r =>
      if isspace c then flush (split_from [] r) else split_from (c :: cur) r
  end.

Definition split (s : string) : list string := split_from [] s.

(** [any(p(c) for c in s)]. *)
Fixpoint any_char (p : ascii -> bool) (s : string) : bool :=
  match s with
  | EmptyString => false
  | String c r => p c || any_char p r
  end.

(** [x in xs] on a list of strings. *)
Definition in_list (x : string) (xs : list string) : bool :=
  existsb (String.eqb x) xs.

(** [str(x)] of an [Optional[str]] inside an f-string. *)
Definition fmt_opt (o : option string) : string :=
  match o with Some s => s | None => "None" end.

End Py.

(* ===================================================================== *)
(** ** core/exceptions.py *)
(* ===================================================================== *)

Module Exceptions.

(** The classes of the package, and those of [aiohttp], [tenacity] and the
    interpreter that the package names in an [except] clause, raises, or
    receives from a call it makes.  All of them are subclasses of
    [Exception]; the classes outside [Exception] are the [signal]s
    below. *)
Inductive exn_class : Type :=
  | ExceptionC
  | ValueErrorC
  | AttributeErrorC
  | SanctionsWatchError
  | CrawlerError
  | DataValidationError
  | RateLimitError
  | ConfigurationError
  | DatabaseError
  | ExportError
  | ClientError            (* aiohttp.ClientError *)
  | ClientResponseError    (* aiohttp.ClientResponseError *)
  | ClientConnectionError  (* aiohttp.ClientConnectionError *)
  | RetryErrorC            (* tenacity.RetryError *)
  | ParseErrorC.           (* xml.etree.ElementTree.ParseError *)

(** The nearest base class among these. *)
Definition base (c : exn_class) : option exn_class :=
  match c with
  | ExceptionC => None
  | ValueErrorC | AttributeErrorC | SanctionsWatchError | ClientError
  | RetryErrorC | ParseErrorC => Some ExceptionC
  | CrawlerError | DataValidationError | ConfigurationError | DatabaseError
  | ExportError => Some SanctionsWatchError
  | RateLimitError => Some CrawlerError
  | ClientResponseError | ClientConnectionError => Some ClientError
  end.

Definition class_eqb (a b : exn_class) : bool :=
  match a, b with
  | ExceptionC, ExceptionC | ValueErrorC, ValueErrorC
  | AttributeErrorC, AttributeErrorC
  | SanctionsWatchError, SanctionsWatchError | CrawlerError, CrawlerError
  | DataValidationError, DataValidationError
  | RateLimitError, RateLimitError | ConfigurationError, ConfigurationError
  | DatabaseError, DatabaseError | ExportError, ExportError
  | ClientError, ClientError | ClientResponseError, ClientResponseError
  | ClientConnectionError, ClientConnectionError
  | RetryErrorC, RetryErrorC | ParseErrorC, ParseErrorC => true
  | _, _ => false
  end.

(** [issubclass(c, d)]; the hierarchy is three levels deep. *)
Fixpoint issubclass_fuel (fuel : nat) (c d : exn_class) : bool :=
  class_eqb c d ||
  match fuel, base c with
  | S k, Some b => issubclass_fuel k b d
  | _, _ => false
  end.

Definition issubclass (c d : exn_class) : bool := issubclass_fuel 4 c d.

(** An exception object: its class and [str(e)].  A [tenacity.RetryError]
    carries the exception of the last attempt. *)
Inductive exn : Type :=
  | Exn (cls : exn_class) (msg : string)
  | RetryError (last_attempt : exn).

Definition class_of (e : exn) : exn_class :=
  match e with
  | Exn c _ => c
  | RetryError _ => RetryErrorC
  end.

Definition isinstance (e : exn) (c : exn_class) : bool :=
  issubclass (class_of e) c.

(** [str(e)]; [tenacity] prints a [RetryError] as [RetryError[<future>]],
    the future's address is left out here. *)
Fixpoint str (e : exn) : string :=
  match e with
  | Exn _ m => m
  | RetryError l => "RetryError[" ++ str l ++ "]"
  end.

(** What the interpreter raises that is no instance of [Exception]:
    the classes directly under [BaseException].  An [except Exception]
    clause lets them pass. *)
Inductive signal : Type :=
  | CancelledError         (* asyncio.CancelledError *)
  | KeyboardInterrupt
  | SystemExit.

(** What a call can raise at a point where the crawler waits: an
    exception, or one of these signals, delivered to the waiting task. *)
Inductive raised : Type :=
  | Error (e : exn)
  | Signal (s : signal).

Coercion Error : exn >-> raised.

(** The result of a call: a value, or what it raised. *)
Inductive result (E A : Type) : Type :=
  | Return (a : A)
  | Raise (e : E).
Arguments Return {E A} & a.
Arguments Raise {E A} & e.

(** The outcome of a call of synchronous code: a value, or a raised
    exception.  The synchronous code of the package (the parsers, the
    validator, the processors) raises instances of [Exception] only. *)
Definition outcome : Type -> Type := result exn.

(** The outcome of an awaited call: a signal may arrive while the task
    waits for the network. *)
Definition awaited : Type -> Type := result raised.

(** An outcome of synchronous code where an awaited one is expected. *)
Definition lift {A : Type} (o : outcome A) : awaited A :=
  match o with
  | Return a => Return a
  | Raise e => Raise e
  end.

(** The type of a pair is known before its components are read, so that
    an exception stands for what is raised in an awaited outcome too. *)
Arguments pair {A B} & a b.

Definition obind {A B} (m : outcome A) (k : A -> outcome B) : outcome B :=
  match m with
  | Return a => k a
  | Raise e => Raise e
  end.

(** [try: m  except Exception as e: h e]. *)
Definition try_except {A} (m : outcome A) (h : exn -> outcome A) : outcome A :=
  match m with
  | Return a => Return a
  | Raise e => h e
  end.

Definition returns {E A} (m : result E A) : bool :=
  match m with Return _ => true | Raise _ => false end.

End Exceptions.


(* ===================================================================== *)
(** ** [datetime] values *)
(* ===================================================================== *)

Module Datetime.

(** A [datetime] as [strptime] builds it from a date-only format: the
    time of day is midnight. *)
Record datetime : Type := mk_datetime {
  year : Z;
  month : Z;
  day : Z
}.

End Datetime.

(* ===================================================================== *)
(** ** core/models.py *)
(* ===================================================================== *)

Module EntityType.
Inductive t : Type := PERSON | ENTITY | VESSEL | AIRCRAFT | ORGANIZATION | UNKNOWN.
End EntityType.

Module IdentifierType.
Inductive t : Type :=
  | PASSPORT | NATIONAL_ID | TAX_ID | REGISTRATION_NUMBER
  | IMO_NUMBER | CALL_SIGN | SWIFT_BIC | OTHER.
End IdentifierType.

Module AddressType.
Inductive t : Type := RESIDENCE | BUSINESS | BIRTH_PLACE | REGISTRATION | OTHER.
End AddressType.

Module SanctionStatus.
Inductive t : Type := ACTIVE | INACTIVE | DELISTED | PENDING.
End SanctionStatus.

Module Models.

Record Address : Type := {
  address_type : AddressType.t;
  street : option string;
  city : option string;
  state_province : option string;
  postal_code : option string;
  country : option string;
  full_address : option string
}.

Record Identifier : Type := {
  identifier_type : IdentifierType.t;
  value : string;
  issuing_country : option string;
  issuing_authority : option string;
  issue_date : option Datetime.datetime;
  expiry_date : option Datetime.datetime
}.

Record EntityDates : Type := {
  birth_date : option Datetime.datetime;
  death_date : option Datetime.datetime;
  incorporation_date : option Datetime.datetime;
  dissolution_date : option Datetime.datetime
}.

Record Reference : Type := {
  source_url : option string;
  reference_number : option string;
  publication_date : option Datetime.datetime;
  legal_basis : option string;
  additional_info : option string
}.

Record SanctionProgram : Type := {
  program_name : string;      (* SanctionProgram.name *)
  authority : string;
  program_type : string;
  description : option string;
  program_legal_basis : option string   (* SanctionProgram.legal_basis *)
}.

(** [SanctionEntity].  The two timestamps [created_at] and [last_updated]
    and the free-form [additional_data], which no modelled operation
    reads, are left out. *)
Record SanctionEntity : Type := {
  id : string;
  name : string;
  alternative_names : list string;
  entity_type : EntityType.t;
  source : string;
  source_id : option string;
  sanction_status : SanctionStatus.t;
  sanctions_programs : list SanctionProgram;
  sanctions_reasons : list string;
  addresses : list Address;
  identifiers : list Identifier;
  dates : option EntityDates;
  nationality : option string;
  citizenship : list string;
  occupation : option string;
  position : option string;
  references : list Reference;
  data_quality_score : option float
}.

(** [SanctionEntity(id=..., name=..., alternative_names=..., entity_type=...,
    source=..., source_id=..., sanction_status=...)]: the other fields take
    their defaults. *)
Definition new_entity (id name : string) (alternative_names : list string)
    (entity_type : EntityType.t) (source : string) (source_id : option string)
    (sanction_status : SanctionStatus.t) : SanctionEntity :=
  {| id := id; name := name; alternative_names := alternative_names;
     entity_type := entity_type; source := source; source_id := source_id;
     sanction_status := sanction_status;
     sanctions_programs := []; sanctions_reasons := [];
     addresses := []; identifiers := []; dates := None;
     nationality := None; citizenship := []; occupation := None;
     position := None; references := []; data_quality_score := None |}.

(** Field updates ([e.field = v] and [e.field.append(v)]). *)
Definition set_sanctions_programs (v : list SanctionProgram) (e : SanctionEntity) :=
  {| id := id e; name := name e; alternative_names := alternative_names e;
     entity_type := entity_type e; source := source e; source_id := source_id e;
     sanction_status := sanction_status e;
     sanctions_programs := v; sanctions_reasons := sanctions_reasons e;
     addresses := addresses e; identifiers := identifiers e; dates := dates e;
     nationality := nationality e; citizenship := citizenship e;
     occupation := occupation e; position := position e;
     references := references e; data_quality_score := data_quality_score e |}.

Definition set_addresses (v : list Address) (e : SanctionEntity) :=
  {| id := id e; name := name e; alternative_names := alternative_names e;
     entity_type := entity_type e; source := source e; source_id := source_id e;
     sanction_status := sanction_status e;
     sanctions_programs := sanctions_programs e;
     sanctions_reasons := sanctions_reasons e;
     addresses := v; identifiers := identifiers e; dates := dates e;
     nationality := nationality e; citizenship := citizenship e;
     occupation := occupation e; position := position e;
     references := references e; data_quality_score := data_quality_score e |}.

Definition set_identifiers (v : list Identifier) (e : SanctionEntity) :=
  {| id := id e; name := name e; alternative_names := alternative_names e;
     entity_type := entity_type e; source := source e; source_id := source_id e;
     sanction_status := sanction_status e;
     sanctions_programs := sanctions_programs e;
     sanctions_reasons := sanctions_reasons e;
     addresses := addresses e; identifiers := v; dates := dates e;
     nationality := nationality e; citizenship := citizenship e;
     occupation := occupation e; position := position e;
     references := references e; data_quality_score := data_quality_score e |}.

Definition set_dates (v : option EntityDates) (e : SanctionEntity) :=
  {| id := id e; name := name e; alternative_names := alternative_names e;
     entity_type := entity_type e; source := source e; source_id := source_id e;
     sanction_status := sanction_status e;
     sanctions_programs := sanctions_programs e;
     sanctions_reasons := sanctions_reasons e;
     addresses := addresses e; identifiers := identifiers e; dates := v;
     nationality := nationality e; citizenship := citizenship e;
     occupation := occupation e; position := position e;
     references := references e; data_quality_score := data_quality_score e |}.

Definition set_nationality (v : option string) (e : SanctionEntity) :=
  {| id := id e; name := name e; alternative_names := alternative_names e;
     entity_type := entity_type e; source := source e; source_id := source_id e;
     sanction_status := sanction_status e;
     sanctions_programs := sanctions_programs e;
     sanctions_reasons := sanctions_reasons e;
     addresses := addresses e; identifiers := identifiers e; dates := dates e;
     nationality := v; citizenship := citizenship e;
     occupation := occupation e; position := position e;
     references := references e; data_quality_score := data_quality_score e |}.

Definition set_citizenship (v : list string) (e : SanctionEntity) :=
  {| id := id e; name := name e; alternative_names := alternative_names e;
     entity_type := entity_type e; source := source e; source_id := source_id e;
     sanction_status := sanction_status e;
     sanctions_programs := sanctions_programs e;
     sanctions_reasons := sanctions_reasons e;
     addresses := addresses e; identifiers := identifiers e; dates := dates e;
     nationality := nationality e; citizenship := v;
     occupation := occupation e; position := position e;
     references := references e; data_quality_score := data_quality_score e |}.

Definition set_position (v : option string) (e : SanctionEntity) :=
  {| id := id e; name := name e; alternative_names := alternative_names e;
     entity_type := entity_type e; source := source e; source_id := source_id e;
     sanction_status := sanction_status e;
     sanctions_programs := sanctions_programs e;
     sanctions_reasons := sanctions_reasons e;
     addresses := addresses e; identifiers := identifiers e; dates := dates e;
     nationality := nationality e; citizenship := citizenship e;
     occupation := occupation e; position := v;
     references := references e; data_quality_score := data_quality_score e |}.

Definition set_references (v : list Reference) (e : SanctionEntity) :=
  {| id := id e; name := name e; alternative_names := alternative_names e;
     entity_type := entity_type e; source := source e; source_id := source_id e;
     sanction_status := sanction_status e;
     sanctions_programs := sanctions_programs e;
     sanctions_reasons := sanctions_reasons e;
     addresses := addresses e; identifiers := identifiers e; dates := dates e;
     nationality := nationality e; citizenship := citizenship e;
     occupation := occupation e; position := position e;
     references := v; data_quality_score := data_quality_score e |}.

Definition set_data_quality_score (v : option float) (e : SanctionEntity) :=
  {| id := id e; name := name e; alternative_names := alternative_names e;
     entity_type := entity_type e; source := source e; source_id := source_id e;
     sanction_status := sanction_status e;
     sanctions_programs := sanctions_programs e;
     sanctions_reasons := sanctions_reasons e;
     addresses := addresses e; identifiers := identifiers e; dates := dates e;
     nationality := nationality e; citizenship := citizenship e;
     occupation := occupation e; position := position e;
     references := references e; data_quality_score := v |}.

(** [SanctionEntity.add_sanction_program]. *)
Definition add_sanction_program (name authority program_type : string)
    (e : SanctionEntity) : SanctionEntity :=
  let program :=
    {| program_name := name; authority := authority;
       program_type := program_type; description := None;
       program_legal_basis := None |} in
  set_sanctions_programs (sanctions_programs e ++ [program]) e.

(** The [metadata] mapping of a [CrawlResult], with the three keys
    [crawl] fills in. *)
Record Metadata : Type := {
  crawl_duration_seconds : float;
  start_time : float;
  end_time : float
}.

Record CrawlResult : Type := {
  result_source : string;         (* CrawlResult.source *)
  entities : list SanctionEntity;
  crawl_timestamp : float;
  total_entities : Z;
  success_count : Z;
  error_count : Z;
  errors : list string;
  metadata : Metadata
}.

Record CrawlerConfig : Type := {
  config_source : string;         (* CrawlerConfig.source *)
  base_url : string;
  rate_limit_seconds : float;
  max_retries : Z;
  timeout_seconds : Z;
  user_agent : string;
  headers : gmap string string;
  verify_ssl : bool;
  custom_settings : gmap string string
}.

End Models.

(* ===================================================================== *)
(** ** Python's [float] *)
(* ===================================================================== *)

Module PyFloat.

(** [float(z)] for an integer of moderate size. *)
Definition of_Z (z : Z) : float :=
  if (z <? 0)%Z
  then PrimFloat.opp (PrimFloat.of_uint63 (Uint63.of_Z (- z)))
  else PrimFloat.of_uint63 (Uint63.of_Z z).

(** [min(a, b)]: [b] only when [b < a]. *)
Definition min (a b : float) : float :=
  if PrimFloat.ltb b a then b else a.

(** The integer nearest to [num / den], ties to the even one
    ([0 <= num], [0 < den]). *)
Definition round_half_even (num den : Z) : Z :=
  let q := (num / den)%Z in
  let r := (num mod den)%Z in
  if (2 * r <? den)%Z then q
  else if (den <? 2 * r)%Z then (q + 1)%Z
  else if Z.even q then q else (q + 1)%Z.

(** [round(x, ndigits)] for [0 <= ndigits]: the exact value of [x] is
    rounded to [ndigits] decimals, ties to even, and the double nearest
    to that decimal is returned (what CPython's [float.__round__] computes
    through its decimal conversion).  Zeros, infinities and NaN are
    returned as they are. *)
Definition round (x : float) (ndigits : Z) : float :=
  match Prim2SF x with
  | S754_finite s m e =>
      let p := (10 ^ ndigits)%Z in
      let n :=
        if (0 <=? e)%Z then (Zpos m * 2 ^ e * p)%Z
        else round_half_even (Zpos m * p) (2 ^ (- e)) in
      let r := PrimFloat.div (of_Z n) (of_Z p) in
      if s then PrimFloat.opp r else r
  | _ => x
  end.

End PyFloat.

(* ===================================================================== *)
(** ** core/base.py *)
(* ===================================================================== *)

Module Base.
Import Exceptions.

(** An [aiohttp.ClientSession] with the settings [_create_session] gives it. *)
Record Session : Type := {
  session_timeout : Z;
  session_verify_ssl : bool;
  session_headers : gmap string string
}.

(** An [aiohttp.ClientResponse]. *)
Record Response : Type := {
  status : Z;
  reason : string;
  text : string
}.

Inductive level : Type := DEBUG | INFO | WARNING | ERROR.

(** What a crawler does to the outside world, in order. *)
Inductive event : Type :=
  | Log (l : level) (message : string)
  | Sleep (seconds : float)                  (* await asyncio.sleep(seconds) *)
  | SessionCreated (s : Session)
  | SessionClosed (s : Session)
  | Get (url : string).                  (* await self.session.get(url) *)

(** The fields of a [BaseCrawler] instance that change, the clock it
    reads, and the events so far.  The clock advances by sleeping only. *)
Record crawler_state : Type := {
  session : option Session;
  last_request_time : float;
  clock : float;
  trace : list event
}.

(** The network, as the crawler meets it: whether the [k]-th
    [aiohttp.ClientSession(...)] call raises, and what the [k]-th
    [session.get] call gives. *)
Record Transport : Type := {
  client_session : nat -> option exn;
  session_get : nat -> string -> awaited Response
}.

(** What [_fetch_data] may return: a list, whose items are parsed one by
    one, or any other value, parsed as a whole. *)
Inductive raw_data (Raw : Type) : Type :=
  | RawList (items : list Raw)
  | RawValue (item : Raw).
Arguments RawList {Raw} items.
Arguments RawValue {Raw} item.

(** A concrete crawler: its configuration and the two abstract methods. *)
Record Crawler (Raw : Type) : Type := {
  config : Models.CrawlerConfig;
  _fetch_data : crawler_state -> awaited (raw_data Raw) * crawler_state;
  _parse_entity : Raw -> outcome Models.SanctionEntity
}.
Arguments config {Raw} c.
Arguments _fetch_data {Raw} c st.
Arguments _parse_entity {Raw} c raw.

Definition emit (ev : event) (st : crawler_state) : crawler_state :=
  {| session := session st; last_request_time := last_request_time st;
     clock := clock st; trace := trace st ++ [ev] |}.

Definition log (l : level) (message : string) : crawler_state -> crawler_state :=
  emit (Log l message).

Definition set_session (s : option Session) (st : crawler_state) : crawler_state :=
  {| session := s; last_request_time := last_request_time st;
     clock := clock st; trace := trace st |}.

Definition set_last_request_time (t : float) (st : crawler_state) : crawler_state :=
  {| session := session st; last_request_time := t;
     clock := clock st; trace := trace st |}.

(** [await asyncio.sleep(seconds)]. *)
Definition sleep (seconds : float) (st : crawler_state) : crawler_state :=
  emit (Sleep seconds)
    {| session := session st; last_request_time := last_request_time st;
       clock := (clock st + seconds)%float; trace := trace st |}.

Definition count_created (tr : list event) : nat :=
  length (List.filter (fun ev => match ev with SessionCreated _ => true | _ => false end) tr).

Definition count_gets (tr : list event) : nat :=
  length (List.filter (fun ev => match ev with Get _ => true | _ => false end) tr).

(** [BaseCrawler.__init__]. *)
Definition init (now : float) : crawler_state :=
  {| session := None; last_request_time := 0%float; clock := now; trace := [] |}.

(** The methods that need the configuration only. *)
Section Requests.

Variable net : Transport.
Variable cfg : Models.CrawlerConfig.

Definition _create_session (st : crawler_state) : outcome unit * crawler_state :=
  let headers :=
    Models.headers cfg ∪ {[ "User-Agent" := Models.user_agent cfg ]} in
  match client_session net (count_created (trace st)) with
  | Some e => (Raise e, st)
  | None =>
      let s := {| session_timeout := Models.timeout_seconds cfg;
                  session_verify_ssl := Models.verify_ssl cfg;
                  session_headers := headers |} in
      (Return tt, set_session (Some s) (emit (SessionCreated s) st))
  end.

Definition _close_session (st : crawler_state) : crawler_state :=
  match session st with
  | Some s => set_session None (emit (SessionClosed s) st)
  | None => st
  end.

Definition __aenter__ (st : crawler_state) : outcome unit * crawler_state :=
  _create_session st.

Definition __aexit__ (st : crawler_state) : crawler_state :=
  _close_session st.

(** [async with self: body]. *)
Definition async_with {A : Type}
    (body : crawler_state -> outcome A * crawler_state)
    (st : crawler_state) : outcome A * crawler_state :=
  match __aenter__ st with
  | (Raise e, st1) => (Raise e, st1)
  | (Return _, st1) =>
      let '(r, st2) := body st1 in
      (r, __aexit__ st2)
  end.

Definition _rate_limit (st : crawler_state) : crawler_state :=
  let current_time := clock st in
  let time_since_last_request := (current_time - last_request_time st)%float in
  let limit := Models.rate_limit_seconds cfg in
  let st1 :=
    if PrimFloat.ltb time_since_last_request limit
    then sleep (limit - time_since_last_request)%float (log DEBUG "Rate limiting" st)
    else st in
  set_last_request_time (clock st1) st1.

Definition string_of_Z (z : Z) : string :=
  DecimalString.NilZero.string_of_int (Z.to_int z).

(** [response.raise_for_status()]: raises for a status of 400 and above. *)
Definition raise_for_status (url : string) (r : Response) : outcome unit :=
  if (400 <=? status r)%Z
  then Raise (Exn ClientResponseError
                (string_of_Z (status r) ++ ", message='" ++ reason r
                   ++ "', url='" ++ url ++ "'"))
  else Return tt.

(** The body of [_make_request]: one attempt. *)
Definition _make_request_attempt (url : string) (st : crawler_state)
    : awaited Response * crawler_state :=
  match session st with
  | None =>
      (Raise (Exn CrawlerError "Session not initialized. Use async context manager."), st)
  | Some _ =>
      let st1 := _rate_limit st in
      let st2 := log INFO "Making request" st1 in
      let k := count_gets (trace st2) in
      let st3 := emit (Get url) st2 in
      let attempt : awaited Response :=
        match session_get net k url with
        | Raise e => Raise e
        | Return response =>
            if (status response =? 429)%Z
            then Raise (Exn RateLimitError ("Rate limit exceeded for " ++ url))
            else if (400 <=? status response)%Z
            then match raise_for_status url response with
                 | Raise e => Raise e
                 | Return _ => Return response
                 end
            else Return response
        end in
      match attempt with
      | Return response => (Return response, st3)
      | Raise (Error e) =>
          if isinstance e ClientError
          then (Raise e, log ERROR "Request failed" st3)
          else (Raise e, st3)
      | Raise (Signal s) => (Raise (Signal s), st3)
      end
  end.

(** [tenacity.retry_if_exception_type(classes)]. *)
Definition retry_if_exception_type (classes : list exn_class) (e : exn) : bool :=
  existsb (isinstance e) classes.

(** [tenacity.wait_exponential(multiplier, min, max)] after the
    [attempt_number]-th attempt. *)
Definition wait_exponential (multiplier min max : Z) (attempt_number : nat) : Z :=
  let exp := (2 ^ (Z.of_nat attempt_number - 1))%Z in
  let result := (multiplier * exp)%Z in
  Z.max (Z.max 0 min) (Z.min result max).

(** The loop of [tenacity.retry]: [left] attempts remain after this one.
    Without [reraise=True] an exhausted loop raises [RetryError].  What
    the filter does not accept, a signal included, is raised again. *)
Fixpoint retry_call {A : Type} (retry : exn -> bool) (wait : nat -> Z)
    (left : nat) (attempt_number : nat)
    (f : crawler_state -> awaited A * crawler_state)
    (st : crawler_state) : awaited A * crawler_state :=
  match f st with
  | (Return a, st1) => (Return a, st1)
  | (Raise (Error e), st1) =>
      if retry e
      then match left with
           | O => (Raise (RetryError e), st1)
           | S left' =>
               retry_call retry wait left' (S attempt_number) f
                 (sleep (PyFloat.of_Z (wait attempt_number)) st1)
           end
      else (Raise e, st1)
  | (Raise (Signal s), st1) => (Raise (Signal s), st1)
  end.

(** [@retry(stop=stop_after_attempt(n), wait=..., retry=...)]. *)
Definition retry {A : Type} (stop_after_attempt : nat) (wait : nat -> Z)
    (retry_on : exn -> bool)
    (f : crawler_state -> awaited A * crawler_state)
    : crawler_state -> awaited A * crawler_state :=
  retry_call retry_on wait (stop_after_attempt - 1) 1 f.

Definition _make_request (url : string)
    : crawler_state -> awaited Response * crawler_state :=
  retry 3 (wait_exponential 1 4 10)
    (retry_if_exception_type [ClientError; RateLimitError])
    (_make_request_attempt url).

End Requests.

(** The methods that need the two abstract methods as well. *)
Section BaseCrawler.

Variable net : Transport.
Variable Raw : Type.
Variable self : Crawler Raw.

(** The checks of [_validate_entity], inside its [try]. *)
Definition validate_checks (entity : Models.SanctionEntity) : outcome bool :=
  if negb (Py.truthy (Models.name entity))
     || negb (Py.truthy (Py.strip (Models.name entity)))
  then Raise (Exn DataValidationError "Entity name is required")
  else if negb (Py.truthy (Models.id entity))
          || negb (Py.truthy (Py.strip (Models.id entity)))
  then Raise (Exn DataValidationError "Entity ID is required")
  else if negb (Py.truthy (Models.source entity))
  then Raise (Exn DataValidationError "Entity source is required")
  else Return true.

Definition _validate_entity (entity : Models.SanctionEntity)
    (st : crawler_state) : outcome bool * crawler_state :=
  match validate_checks entity with
  | Return b => (Return b, st)
  | Raise e => (Return false, log WARNING "Entity validation failed" st)
  end.

(** One step of the generator [_process_data]: an entity is yielded, or
    the record is given up with a warning. *)
Inductive step : Type :=
  | Yield (entity : Models.SanctionEntity)
  | Warn (message : string).

Definition parse_step (message : string) (item : Raw) : step :=
  match _parse_entity self item with
  | Return entity => Yield entity
  | Raise e => Warn message
  end.

Definition _process_data (raw : raw_data Raw) : list step :=
  match raw with
  | RawList items => map (parse_step "Failed to parse entity") items
  | RawValue item => [parse_step "Failed to parse data" item]
  end.

(** The [async for] loop of [crawl] over the steps of the generator. *)
Fixpoint crawl_loop (steps : list step)
    (entities : list Models.SanctionEntity) (errors : list string)
    (st : crawler_state)
    : list Models.SanctionEntity * list string * crawler_state :=
  match steps with
  | [] => (entities, errors, st)
  | Warn message :: rest =>
      crawl_loop rest entities errors (log WARNING message st)
  | Yield entity :: rest =>
      match _validate_entity entity st with
      | (Return true, st1) => crawl_loop rest (entities ++ [entity]) errors st1
      | (_, st1) =>
          crawl_loop rest entities
            (errors ++ ["Validation failed for entity: " ++ Models.id entity]) st1
      end
  end.

(** [if not self.session: await self._create_session()]. *)
Definition ensure_session (st : crawler_state) : outcome unit * crawler_state :=
  match session st with
  | None => _create_session net (config self) st
  | Some _ => (Return tt, st)
  end.

(** The [try] block of [crawl]: the two lists as the block leaves them,
    and the exception that ended it, if one did.  A signal that ends it
    is no [Exception]: the [except] clause lets it pass, and the
    [return] of the [finally] block drops it. *)
Definition crawl_try (st : crawler_state)
    : list Models.SanctionEntity * list string * option exn * crawler_state :=
  let '(created, st1) := ensure_session st in
  match created with
  | Raise e => ([], [], Some e, st1)
  | Return _ =>
      match _fetch_data self st1 with
      | (Raise (Error e), st2) => ([], [], Some e, st2)
      | (Raise (Signal _), st2) => ([], [], None, st2)
      | (Return raw, st2) =>
          let '(entities, errors, st3) := crawl_loop (_process_data raw) [] [] st2 in
          (entities, errors, None, st3)
      end
  end.

Definition crawl (st : crawler_state) : outcome Models.CrawlResult * crawler_state :=
  let start_time := clock st in
  let st0 := log INFO "Starting crawl" st in
  let '(entities, errors, exc, st1) := crawl_try st0 in
  (* except Exception as e *)
  let '(errors, st2) :=
    match exc with
    | Some e =>
        let error_msg :=
          "Crawl failed for " ++ Models.config_source (config self) ++ ": " ++ str e in
        ((errors ++ [error_msg])%list, log ERROR "Crawl failed" st1)
    | None => (errors, st1)
    end in
  (* finally *)
  let end_time := clock st2 in
  let duration := (end_time - start_time)%float in
  let result :=
    {| Models.result_source := Models.config_source (config self);
       Models.entities := entities;
       Models.crawl_timestamp := start_time;
       Models.total_entities := Z.of_nat (length entities);
       Models.success_count := Z.of_nat (length entities);
       Models.error_count := Z.of_nat (length errors);
       Models.errors := errors;
       Models.metadata :=
         {| Models.crawl_duration_seconds := duration;
            Models.start_time := start_time;
            Models.end_time := end_time |} |} in
  (Return result, log INFO "Crawl completed" st2).

(** [get_health_status()['status']]. *)
Definition health_status (st : crawler_state) : string :=
  match session st with Some _ => "ready" | None => "not_initialized" end.

End BaseCrawler.

Arguments ensure_session net {Raw} self st.
Arguments parse_step {Raw} self message item.
Arguments _process_data {Raw} self raw.
Arguments crawl_try net {Raw} self st.
Arguments crawl net {Raw} self st.

End Base.

(* ===================================================================== *)
(** ** processors/deduplicator.py and processors/enricher.py *)
(* ===================================================================== *)

Module Processors.

(** The key of [deduplicate_entities]: [f"{e.source}:{e.name.lower()}"]. *)
Definition key (e : Models.SanctionEntity) : string :=
  Models.source e ++ ":" ++ Py.lower (Models.name e).

(** The loop of [deduplicate_entities], with its two accumulators. *)
Fixpoint dedup_loop (entities : list Models.SanctionEntity)
    (seen : gmap string Models.SanctionEntity)
    (result : list Models.SanctionEntity) : list Models.SanctionEntity :=
  match entities with
  | [] => result
  | e :: rest =>
      match seen !! key e with
      | None => dedup_loop rest (<[key e := e]> seen) (result ++ [e])
      | Some _ => dedup_loop rest seen result
      end
  end.

Definition deduplicate_entities (entities : list Models.SanctionEntity)
    : list Models.SanctionEntity :=
  dedup_loop entities ∅ [].

(** The program [enrich_entities] attaches to an entity that has none. *)
Definition placeholder_program (e : Models.SanctionEntity) : Models.SanctionProgram :=
  {| Models.program_name := "Unknown Program";
     Models.authority := Py.upper (Models.source e);
     Models.program_type := "general";
     Models.description := None;
     Models.program_legal_basis := None |}.

Definition nonempty {A : Type} (l : list A) : bool :=
  match l with [] => false | _ :: _ => true end.

(** The naive quality score of [enrich_entities]. *)
Definition quality_score (e : Models.SanctionEntity) : float :=
  let score := 0.0%float in
  let score := (score + (if nonempty (Models.addresses e) then 0.4 else 0.0))%float in
  let score := (score + (if nonempty (Models.identifiers e) then 0.4 else 0.0))%float in
  let score := (score + (if nonempty (Models.alternative_names e) then 0.2 else 0.0))%float in
  PyFloat.round (PyFloat.min score 1.0%float) 2.

(** The body of the loop of [enrich_entities]. *)
Definition enrich_entity (e : Models.SanctionEntity) : Models.SanctionEntity :=
  let e1 :=
    if nonempty (Models.sanctions_programs e) then e
    else Models.add_sanction_program "Unknown Program"
           (Py.upper (Models.source e)) "general" e in
  Models.set_data_quality_score (Some (quality_score e1)) e1.

(** [enrich_entities]: every entity is updated and appended in turn. *)
Definition enrich_entities (entities : list Models.SanctionEntity)
    : list Models.SanctionEntity :=
  map enrich_entity entities.

End Processors.

(* ===================================================================== *)
(** ** [datetime.strptime] *)
(* ===================================================================== *)

Module Strptime.
Import Exceptions.

(** The pieces of a compiled format: the four directives the crawlers
    use, a run of whitespace, or a literal character. *)
Inductive directive : Type :=
  | Dd                    (* %d *)
  | Dm                    (* %m *)
  | DY                    (* %Y *)
  | Db                    (* %b *)
  | Dspace                (* \s+ *)
  | Dlit (c : ascii).

(** A format string is read from left to right; a run of whitespace
    becomes one [\s+], an unknown directive is a bad format. *)
Fixpoint compile_from (in_space : bool) (fmt : string) : option (list directive) :=
  match fmt with
  | EmptyString => Some []
  | String "%" (String c rest) =>
      let d :=
        match c with
        | "d"%char => Some Dd
        | "m"%char => Some Dm
        | "Y"%char => Some DY
        | "b"%char => Some Db
        | _ => None
        end in
      match d, compile_from false rest with
      | Some d, Some ds => Some (d :: ds)
      | _, _ => None
      end
  | String c rest =>
      if Py.isspace c
      then if in_space then compile_from true rest
           else option_map (cons Dspace) (compile_from true rest)
      else option_map (cons (Dlit c)) (compile_from false rest)
  end.

Definition compile (fmt : string) : option (list directive) :=
  compile_from false fmt.

Definition digit (c : ascii) : option Z :=
  if Py.isdigit c then Some (Z.of_nat (nat_of_ascii c) - 48)%Z else None.

(** The fields [strptime] collects, with its defaults. *)
Record fields : Type := { f_year : Z; f_month : Z; f_day : Z }.

Definition defaults : fields := {| f_year := 1900; f_month := 1; f_day := 1 |}.

Definition month_abbreviations : list string :=
  ["jan"; "feb"; "mar"; "apr"; "may"; "jun";
   "jul"; "aug"; "sep"; "oct"; "nov"; "dec"].

Fixpoint index_of (x : string) (xs : list string) (i : Z) : option Z :=
  match xs with
  | [] => None
  | y :: r => if String.eqb x y then Some i else index_of x r (i + 1)%Z
  end.

(** The ways [%d] can match at the start of [s], in the order of the
    pattern [3[0-1]|[1-2]\d|0[1-9]|[1-9]| [1-9]]. *)
Definition alts_d (s : string) : list (Z * string) :=
  match s with
  | EmptyString => []
  | String c1 r1 =>
      let two :=
        match r1 with
        | EmptyString => []
        | String c2 r2 =>
            match digit c1, digit c2 with
            | Some a, Some b =>
                if (a =? 3)%Z && (b <=? 1)%Z then [((30 + b)%Z, r2)]
                else if (1 <=? a)%Z && (a <=? 2)%Z then [((10 * a + b)%Z, r2)]
                else if (a =? 0)%Z && (1 <=? b)%Z then [(b, r2)]
                else []
            | None, Some b =>
                if Ascii.eqb c1 " " && (1 <=? b)%Z then [(b, r2)] else []
            | _, _ => []
            end
        end in
      let one :=
        match digit c1 with
        | Some a => if (1 <=? a)%Z then [(a, r1)] else []
        | None => []
        end in
      match digit c1 with
      | Some _ => two ++ one
      | None => two
      end
  end.

(** The ways [%m] can match: [1[0-2]|0[1-9]|[1-9]]. *)
Definition alts_m (s : string) : list (Z * string) :=
  match s with
  | EmptyString => []
  | String c1 r1 =>
      match digit c1 with
      | None => []
      | Some a =>
          let two :=
            match r1 with
            | String c2 r2 =>
                match digit c2 with
                | Some b =>
                    if (a =? 1)%Z && (b <=? 2)%Z then [((10 + b)%Z, r2)]
                    else if (a =? 0)%Z && (1 <=? b)%Z then [(b, r2)]
                    else []
                | None => []
                end
            | EmptyString => []
            end in
          two ++ (if (1 <=? a)%Z then [(a, r1)] else [])
      end
  end.

(** [%Y]: four digits. *)
Definition alts_Y (s : string) : list (Z * string) :=
  match s with
  | String c1 (String c2 (String c3 (String c4 r))) =>
      match digit c1, digit c2, digit c3, digit c4 with
      | Some a, Some b, Some c, Some d =>
          [((1000 * a + 100 * b + 10 * c + d)%Z, r)]
      | _, _, _, _ => []
      end
  | _ => []
  end.

(** [%b]: an abbreviated month name, in any case. *)
Definition alts_b (s : string) : list (Z * string) :=
  match s with
  | String c1 (String c2 (String c3 r)) =>
      let abbr := Py.lower (String c1 (String c2 (String c3 EmptyString))) in
      match index_of abbr month_abbreviations 1 with
      | Some m => [(m, r)]
      | None => []
      end
  | _ => []
  end.

(** [\s+]: one or more whitespace characters, the longest run first. *)
Fixpoint alts_space (s : string) : list string :=
  match s with
  | String c r => if Py.isspace c then alts_space r ++ [r] else []
  | EmptyString => []
  end.

Fixpoint first_some {A B : Type} (f : A -> option B) (l : list A) : option B :=
  match l with
  | [] => None
  | a :: r => match f a with Some b => Some b | None => first_some f r end
  end.

(** The first match of the compiled format at the start of [s], with
    backtracking, and what is left of [s] after it. *)
Fixpoint match_prefix (ds : list directive) (s : string) (f : fields)
    : option (fields * string) :=
  match ds with
  | [] => Some (f, s)
  | Dd :: ds' =>
      first_some (fun '(v, r) =>
        match_prefix ds' r {| f_year := f_year f; f_month := f_month f; f_day := v |})
        (alts_d s)
  | Dm :: ds' =>
      first_some (fun '(v, r) =>
        match_prefix ds' r {| f_year := f_year f; f_month := v; f_day := f_day f |})
        (alts_m s)
  | DY :: ds' =>
      first_some (fun '(v, r) =>
        match_prefix ds' r {| f_year := v; f_month := f_month f; f_day := f_day f |})
        (alts_Y s)
  | Db :: ds' =>
      first_some (fun '(v, r) =>
        match_prefix ds' r {| f_year := f_year f; f_month := v; f_day := f_day f |})
        (alts_b s)
  | Dspace :: ds' =>
      first_some (fun r => match_prefix ds' r f) (alts_space s)
  | Dlit c :: ds' =>
      match s with
      | String c' r =>
          if Ascii.eqb (Py.lower_char c) (Py.lower_char c')
          then match_prefix ds' r f else None
      | EmptyString => None
      end
  end.

Definition is_leap (y : Z) : bool :=
  ((y mod 4 =? 0) && (negb (y mod 100 =? 0) || (y mod 400 =? 0)))%Z.

Definition days_in_month (y m : Z) : Z :=
  if (m =? 2)%Z then (if is_leap y then 29 else 28)%Z
  else if ((m =? 4) || (m =? 6) || (m =? 9) || (m =? 11))%Z then 30%Z
  else 31%Z.

(** [datetime.strptime(data_string, format)]: the format must match at
    the start of the string and use it up, and the fields must make a
    date; anything else is a [ValueError]. *)
Definition strptime (data_string format : string) : outcome Datetime.datetime :=
  match compile format with
  | None => Raise (Exn ValueErrorC "bad directive in format")
  | Some ds =>
      match match_prefix ds data_string defaults with
      | None => Raise (Exn ValueErrorC "time data does not match format")
      | Some (f, EmptyString) =>
          if ((1 <=? f_year f) && (1 <=? f_month f) && (f_month f <=? 12)
              && (1 <=? f_day f)
              && (f_day f <=? days_in_month (f_year f) (f_month f)))%Z
          then Return (Datetime.mk_datetime (f_year f) (f_month f) (f_day f))
          else Raise (Exn ValueErrorC "day is out of range for month")
      | Some (_, String _ _) =>
          Raise (Exn ValueErrorC "unconverted data remains")
      end
  end.

(** The loop shared by the four [_parse_date] methods: the formats are
    tried in order, a [ValueError] moves on to the next one; [None]
    when none fits. *)
Fixpoint try_formats (date_str : string) (date_formats : list string)
    : option Datetime.datetime :=
  match date_formats with
  | [] => None
  | fmt :: rest =>
      match strptime date_str fmt with
      | Return d => Some d
      | Raise e =>
          if isinstance e ValueErrorC then try_formats date_str rest else None
      end
  end.

End Strptime.

(* ===================================================================== *)
(** ** [xml.etree.ElementTree] *)
(* ===================================================================== *)

Module ET.

(** An [Element]: tag, attributes, text and children. *)
Inductive Element : Type :=
  | mkElement (tag : string) (attrib : gmap string string)
      (text : option string) (children : list Element).

Definition tag (e : Element) : string :=
  match e with mkElement t _ _ _ => t end.
Definition attrib (e : Element) : gmap string string :=
  match e with mkElement _ a _ _ => a end.
Definition text (e : Element) : option string :=
  match e with mkElement _ _ x _ => x end.
Definition children (e : Element) : list Element :=
  match e with mkElement _ _ _ cs => cs end.

(** [element.get(key)]. *)
Definition get (e : Element) (key : string) : option string :=
  attrib e !! key.

(** [element.iter()]: the element and everything below it, in document
    order. *)
Fixpoint iter (e : Element) : list Element :=
  match e with
  | mkElement _ _ _ cs => e :: flat_map iter cs
  end.

(** [element.findall(path)] for the two forms of path the crawlers use:
    ['tag'], the children with that tag, and ['.//tag'], the elements
    below [element] with that tag, on all levels. *)
Definition findall (e : Element) (path : string) : list Element :=
  if String.prefix ".//" path
  then
    let t := String.substring 3 (String.length path - 3) path in
    List.filter (fun x => String.eqb (tag x) t) (flat_map iter (children e))
  else List.filter (fun x => String.eqb (tag x) path) (children e).

(** [element.find(path)]: the first of them, or [None]. *)
Definition find (e : Element) (path : string) : option Element :=
  head (findall e path).

End ET.

(** [let* x := m in k]: [k] runs when [m] returns, an exception of [m]
    is passed on. *)
Notation "'let*' x ':=' m 'in' k" := (Exceptions.obind m (fun x => k))
  (at level 10, x name, m at level 100, k at level 200).

(* ===================================================================== *)
(** ** Helpers shared by the four crawlers *)
(* ===================================================================== *)

Module Util.

Definition is_some {A : Type} (o : option A) : bool :=
  match o with Some _ => true | None => false end.

(** [x if x else None] on a string. *)
Definition or_none (s : string) : option string :=
  if Py.truthy s then Some s else None.

(** The first key of the mapping, in the order it is written, that
    occurs in the lower-cased type. *)
Fixpoint lookup_keyword (mapping : list (string * IdentifierType.t))
    (type_lower : string) : IdentifierType.t :=
  match mapping with
  | [] => IdentifierType.OTHER
  | (k, t) :: rest =>
      if Py.contains k type_lower then t else lookup_keyword rest type_lower
  end.

Definition new_identifier (t : IdentifierType.t) (value : string)
    (issuing_country : option string) : Models.Identifier :=
  {| Models.identifier_type := t; Models.value := value;
     Models.issuing_country := issuing_country;
     Models.issuing_authority := None; Models.issue_date := None;
     Models.expiry_date := None |}.

Definition new_dates (birth_date : option Datetime.datetime) : Models.EntityDates :=
  {| Models.birth_date := birth_date; Models.death_date := None;
     Models.incorporation_date := None; Models.dissolution_date := None |}.

End Util.

(* ===================================================================== *)
(** ** crawlers/eu_sanctions.py *)
(* ===================================================================== *)

Module EU.
Import Exceptions Util.

Definition DEFAULT_CONFIG : Models.CrawlerConfig :=
  {| Models.config_source := "eu-sanctions";
     Models.base_url :=
       "https://webgate.ec.europa.eu/fsd/fsf/public/files/xmlFullSanctionsList_1_1/content";
     Models.rate_limit_seconds := 2;
     Models.max_retries := 3;
     Models.timeout_seconds := 60;
     Models.user_agent := "SanctionsWatch/0.1.0";
     Models.headers := ∅;
     Models.verify_ssl := true;
     Models.custom_settings := ∅ |}.

Definition _get_xml_text (element : ET.Element) (xpath : string) : option string :=
  match ET.find element xpath with
  | Some found =>
      match ET.text found with
      | Some t => if Py.truthy t then Some (Py.strip t) else None
      | None => None
      end
  | None => None
  end.

Definition _parse_date (date_str : string) : option Datetime.datetime :=
  if negb (Py.truthy date_str) then None
  else Strptime.try_formats (Py.strip date_str)
         ["%Y-%m-%d"; "%d/%m/%Y"; "%d.%m.%Y"; "%Y"].

(** The body of the loop of [_extract_names]. *)
Definition names_step (names : list string) (name_elem : ET.Element) : list string :=
  let whole_name := _get_xml_text name_elem "wholeName" in
  let names1 :=
    match whole_name with
    | Some w => if Py.truthy w then (names ++ [Py.strip w])%list else names
    | None => names
    end in
  let first_name := _get_xml_text name_elem "firstName" in
  let middle_name := _get_xml_text name_elem "middleName" in
  let last_name := _get_xml_text name_elem "lastName" in
  if Py.otruthy first_name || Py.otruthy middle_name || Py.otruthy last_name
  then
    let full_name := Py.join " " (Py.filter_none [first_name; middle_name; last_name]) in
    if Py.truthy full_name && negb (Py.in_list full_name names1)
    then (names1 ++ [Py.strip full_name])%list
    else names1
  else names1.

Definition _extract_names (xml_element : ET.Element) : list string :=
  fold_left names_step (ET.findall xml_element ".//nameAlias") [].

Definition _determine_entity_type (xml_element : ET.Element) : EntityType.t :=
  let subject_type := _get_xml_text xml_element ".//subjectType" in
  let by_subject : option EntityType.t :=
    match subject_type with
    | Some st =>
        if Py.truthy st then
          let l := Py.lower st in
          if Py.contains "person" l || Py.contains "individual" l
          then Some EntityType.PERSON
          else if Py.contains "entity" l || Py.contains "enterprise" l
          then Some EntityType.ENTITY
          else if Py.contains "vessel" l || Py.contains "ship" l
          then Some EntityType.VESSEL
          else None
        else None
    | None => None
    end in
  match by_subject with
  | Some t => t
  | None =>
      if is_some (ET.find xml_element ".//birthdate") then EntityType.PERSON
      else if is_some (ET.find xml_element ".//identification") then EntityType.ENTITY
      else EntityType.UNKNOWN
  end.

Definition address_step (entity : Models.SanctionEntity) (address_elem : ET.Element)
    : Models.SanctionEntity :=
  let street := _get_xml_text address_elem "street" in
  let city := _get_xml_text address_elem "city" in
  let state := _get_xml_text address_elem "stateProvince" in
  let postal_code := _get_xml_text address_elem "zipCode" in
  let country := _get_xml_text address_elem "country" in
  let full_address :=
    Py.join ", " (Py.filter_none [street; city; state; postal_code; country]) in
  let address :=
    {| Models.address_type := AddressType.OTHER;
       Models.street := street; Models.city := city;
       Models.state_province := state; Models.postal_code := postal_code;
       Models.country := country; Models.full_address := or_none full_address |} in
  Models.set_addresses (Models.addresses entity ++ [address])%list entity.

Definition _extract_addresses (xml_element : ET.Element)
    (entity : Models.SanctionEntity) : Models.SanctionEntity :=
  fold_left address_step (ET.findall xml_element ".//address") entity.

Definition _map_identifier_type (eu_type : option string) : IdentifierType.t :=
  if negb (Py.otruthy eu_type) then IdentifierType.OTHER
  else
    lookup_keyword
      [("passport", IdentifierType.PASSPORT);
       ("national", IdentifierType.NATIONAL_ID);
       ("tax", IdentifierType.TAX_ID);
       ("registration", IdentifierType.REGISTRATION_NUMBER);
       ("id", IdentifierType.NATIONAL_ID)]
      (Py.lower (Py.fmt_opt eu_type)).

Definition identifier_step (entity : Models.SanctionEntity) (id_elem : ET.Element)
    : Models.SanctionEntity :=
  let id_type := _get_xml_text id_elem "identificationTypeCode" in
  let id_value := _get_xml_text id_elem "number" in
  let country := _get_xml_text id_elem "countryIso2Code" in
  match id_value with
  | Some v =>
      if Py.truthy v then
        Models.set_identifiers
          (Models.identifiers entity
             ++ [new_identifier (_map_identifier_type id_type) v country])%list entity
      else entity
  | None => entity
  end.

Definition _extract_identifiers (xml_element : ET.Element)
    (entity : Models.SanctionEntity) : Models.SanctionEntity :=
  fold_left identifier_step (ET.findall xml_element ".//identification") entity.

Definition _extract_dates (xml_element : ET.Element)
    (entity : Models.SanctionEntity) : Models.SanctionEntity :=
  let birth_date :=
    match ET.find xml_element ".//birthdate" with
    | Some birth_date_elem =>
        match ET.text birth_date_elem with
        | Some birth_date_str =>
            if Py.truthy birth_date_str then _parse_date birth_date_str else None
        | None => None
        end
    | None => None
    end in
  Models.set_dates (Some (new_dates birth_date)) entity.

Definition regulation_step (entity : Models.SanctionEntity)
    (regulation_elem : ET.Element) : Models.SanctionEntity :=
  let regulation_number := _get_xml_text regulation_elem "number" in
  let publication_date := _get_xml_text regulation_elem "publicationDate" in
  match regulation_number with
  | Some number =>
      if Py.truthy number then
        let program :=
          {| Models.program_name := "EU Regulation " ++ number;
             Models.authority := "European Union";
             Models.program_type := "EU Sanctions";
             Models.description := None;
             Models.program_legal_basis := Some number |} in
        let ref :=
          {| Models.source_url := None;
             Models.reference_number := Some number;
             Models.publication_date :=
               match publication_date with
               | Some d => if Py.truthy d then _parse_date d else None
               | None => None
               end;
             Models.legal_basis := Some number;
             Models.additional_info := None |} in
        Models.set_references (Models.references entity ++ [ref])%list
          (Models.set_sanctions_programs
             (Models.sanctions_programs entity ++ [program])%list entity)
      else entity
  | None => entity
  end.

Definition _extract_sanctions_info (xml_element : ET.Element)
    (entity : Models.SanctionEntity) : Models.SanctionEntity :=
  fold_left regulation_step (ET.findall xml_element ".//regulation") entity.

Definition _extract_personal_info (xml_element : ET.Element)
    (entity : Models.SanctionEntity) : Models.SanctionEntity :=
  let nationality := _get_xml_text xml_element ".//countryIso2Code" in
  let entity1 :=
    match nationality with
    | Some n =>
        if Py.truthy n
        then Models.set_citizenship [n] (Models.set_nationality (Some n) entity)
        else entity
    | None => entity
    end in
  let function := _get_xml_text xml_element ".//function" in
  if Py.otruthy function then Models.set_position function entity1 else entity1.

(** [_parse_entity]; [source] is [self.config.source].  No step of the
    body raises on an [Element], so the [except] clause stays unused. *)
Definition _parse_entity (source : string) (xml_element : ET.Element)
    : outcome Models.SanctionEntity :=
  let entity_id := _get_xml_text xml_element ".//unitId" in
  let entity_id :=
    if negb (Py.otruthy entity_id)
    then _get_xml_text xml_element ".//logicalId" else entity_id in
  let names := _extract_names xml_element in
  let primary_name := match names with n :: _ => n | [] => "Unknown" end in
  let alternative_names := match names with _ :: rest => rest | [] => [] end in
  let entity_type := _determine_entity_type xml_element in
  let entity :=
    Models.new_entity ("eu-" ++ Py.fmt_opt entity_id) primary_name
      alternative_names entity_type source entity_id SanctionStatus.ACTIVE in
  let entity := _extract_addresses xml_element entity in
  let entity := _extract_identifiers xml_element entity in
  let entity := _extract_dates xml_element entity in
  let entity := _extract_sanctions_info xml_element entity in
  let entity := _extract_personal_info xml_element entity in
  Return entity.

End EU.

(* ===================================================================== *)
(** ** crawlers/ofac.py *)
(* ===================================================================== *)

Module OFAC.
Import Exceptions Util.

Definition DEFAULT_CONFIG : Models.CrawlerConfig :=
  {| Models.config_source := "ofac";
     Models.base_url := "https://placeholder.invalid/ofac/sdn.xml";
     Models.rate_limit_seconds := 3;
     Models.max_retries := 3;
     Models.timeout_seconds := 120;
     Models.user_agent := "SanctionsWatch/0.1.0";
     Models.headers := ∅;
     Models.verify_ssl := true;
     Models.custom_settings := ∅ |}.

Definition _get_xml_text (element : ET.Element) (xpath : string) : option string :=
  match ET.find element xpath with
  | Some found =>
      match ET.text found with
      | Some t => if Py.truthy t then Some (Py.strip t) else None
      | None => None
      end
  | None => None
  end.

Definition _parse_date (date_str : string) : option Datetime.datetime :=
  if negb (Py.truthy date_str) then None
  else Strptime.try_formats (Py.strip date_str)
         ["%d %b %Y"; "%Y-%m-%d"; "%d/%m/%Y"; "%m/%d/%Y"; "%Y"].

(** [a or b] on two [Optional[str]]. *)
Definition or_else (a b : option string) : option string :=
  if Py.otruthy a then a else b.

Definition alias_step (aliases : list string) (aka_elem : ET.Element) : list string :=
  let first_name := _get_xml_text aka_elem "firstName" in
  let last_name := _get_xml_text aka_elem "lastName" in
  match first_name, last_name with
  | Some f, Some l =>
      if Py.truthy f && Py.truthy l then
        let alias := Py.strip (f ++ " " ++ l) in
        if Py.in_list alias aliases then aliases else (aliases ++ [alias])%list
      else aliases
  | _, _ => aliases
  end.

Definition _extract_aliases (xml_element : ET.Element) : list string :=
  fold_left alias_step (ET.findall xml_element ".//aka") [].

Definition _determine_entity_type (xml_element : ET.Element) : EntityType.t :=
  let sdn_type :=
    Py.lower (match ET.get xml_element "sdnType" with Some v => v | None => "" end) in
  if Py.contains "individual" sdn_type then EntityType.PERSON
  else if Py.contains "entity" sdn_type then EntityType.ENTITY
  else if Py.contains "vessel" sdn_type then EntityType.VESSEL
  else if Py.contains "aircraft" sdn_type then EntityType.AIRCRAFT
  else if is_some (ET.find xml_element ".//dateOfBirth") then EntityType.PERSON
  else EntityType.UNKNOWN.

Definition address_step (entity : Models.SanctionEntity) (address_elem : ET.Element)
    : Models.SanctionEntity :=
  let address1 := _get_xml_text address_elem "address1" in
  let address2 := _get_xml_text address_elem "address2" in
  let city := _get_xml_text address_elem "city" in
  let state := _get_xml_text address_elem "stateOrProvince" in
  let postal_code := _get_xml_text address_elem "postalCode" in
  let country := _get_xml_text address_elem "country" in
  let street := Py.join ", " (Py.filter_none [address1; address2]) in
  let full_address :=
    Py.join ", " (Py.filter_none [Some street; city; state; postal_code; country]) in
  let address :=
    {| Models.address_type := AddressType.OTHER;
       Models.street := or_none street; Models.city := city;
       Models.state_province := state; Models.postal_code := postal_code;
       Models.country := country; Models.full_address := or_none full_address |} in
  Models.set_addresses (Models.addresses entity ++ [address])%list entity.

Definition _extract_addresses (xml_element : ET.Element)
    (entity : Models.SanctionEntity) : Models.SanctionEntity :=
  fold_left address_step (ET.findall xml_element ".//address") entity.

Definition _map_identifier_type (ofac_type : option string) : IdentifierType.t :=
  if negb (Py.otruthy ofac_type) then IdentifierType.OTHER
  else
    lookup_keyword
      [("passport", IdentifierType.PASSPORT);
       ("national", IdentifierType.NATIONAL_ID);
       ("tax", IdentifierType.TAX_ID);
       ("registration", IdentifierType.REGISTRATION_NUMBER);
       ("swift", IdentifierType.SWIFT_BIC);
       ("imo", IdentifierType.IMO_NUMBER);
       ("call sign", IdentifierType.CALL_SIGN)]
      (Py.lower (Py.fmt_opt ofac_type)).

Definition identifier_step (entity : Models.SanctionEntity) (id_elem : ET.Element)
    : Models.SanctionEntity :=
  let id_type := _get_xml_text id_elem "idType" in
  let id_number := _get_xml_text id_elem "idNumber" in
  let country := _get_xml_text id_elem "idCountry" in
  match id_number with
  | Some v =>
      if Py.truthy v then
        Models.set_identifiers
          (Models.identifiers entity
             ++ [new_identifier (_map_identifier_type id_type) v country])%list entity
      else entity
  | None => entity
  end.

Definition _extract_identifiers (xml_element : ET.Element)
    (entity : Models.SanctionEntity) : Models.SanctionEntity :=
  fold_left identifier_step (ET.findall xml_element ".//id") entity.

Definition _extract_dates (xml_element : ET.Element)
    (entity : Models.SanctionEntity) : Models.SanctionEntity :=
  let birth_date :=
    match ET.find xml_element ".//dateOfBirth" with
    | Some birth_date_elem =>
        match ET.text birth_date_elem with
        | Some birth_date_str =>
            if Py.truthy birth_date_str then _parse_date birth_date_str else None
        | None => None
        end
    | None => None
    end in
  Models.set_dates (Some (new_dates birth_date)) entity.

Definition program_step (entity : Models.SanctionEntity) (program_elem : ET.Element)
    : Models.SanctionEntity :=
  match ET.text program_elem with
  | Some program_name =>
      if Py.truthy program_name then
        let program :=
          {| Models.program_name := program_name;
             Models.authority := "US Treasury OFAC";
             Models.program_type := "OFAC Sanctions";
             Models.description := Some program_name;
             Models.program_legal_basis := None |} in
        Models.set_sanctions_programs
          (Models.sanctions_programs entity ++ [program])%list entity
      else entity
  | None => entity
  end.

Definition _extract_sanctions_info (xml_element : ET.Element)
    (entity : Models.SanctionEntity) : Models.SanctionEntity :=
  fold_left program_step (ET.findall xml_element ".//program") entity.

Definition _extract_personal_info (xml_element : ET.Element)
    (entity : Models.SanctionEntity) : Models.SanctionEntity :=
  let nationality := _get_xml_text xml_element ".//nationality" in
  let entity1 :=
    match nationality with
    | Some n =>
        if Py.truthy n
        then Models.set_citizenship [n] (Models.set_nationality (Some n) entity)
        else entity
    | None => entity
    end in
  let title := _get_xml_text xml_element ".//title" in
  if Py.otruthy title then Models.set_position title entity1 else entity1.

(** [_parse_entity]; [source] is [self.config.source].  No step of the
    body raises on an [Element], so the [except] clause stays unused. *)
Definition _parse_entity (source : string) (xml_element : ET.Element)
    : outcome Models.SanctionEntity :=
  let entity_id :=
    Py.fmt_opt
      (or_else (ET.get xml_element "uid")
         (or_else (_get_xml_text xml_element ".//uid")
            (or_else (_get_xml_text xml_element ".//uidNumber")
               (Some "unknown")))) in
  let first_name := _get_xml_text xml_element ".//firstName" in
  let last_name := _get_xml_text xml_element ".//lastName" in
  let primary_name :=
    if Py.otruthy first_name || Py.otruthy last_name
    then
      let joined := Py.strip (Py.join " " (Py.filter_none [first_name; last_name])) in
      if Py.truthy joined then joined else "Unknown"
    else
      Py.fmt_opt (or_else (_get_xml_text xml_element ".//title") (Some "Unknown")) in
  let alternative_names := _extract_aliases xml_element in
  let entity_type := _determine_entity_type xml_element in
  let entity :=
    Models.new_entity ("ofac-" ++ entity_id) primary_name
      alternative_names entity_type source (Some entity_id)
      SanctionStatus.ACTIVE in
  let entity := _extract_addresses xml_element entity in
  let entity := _extract_identifiers xml_element entity in
  let entity := _extract_dates xml_element entity in
  let entity := _extract_sanctions_info xml_element entity in
  let entity := _extract_personal_info xml_element entity in
  Return entity.

End OFAC.

(* ===================================================================== *)
(** ** crawlers/un_sanctions.py *)
(* ===================================================================== *)

Module UN.
Import Exceptions Util.

Definition DEFAULT_CONFIG : Models.CrawlerConfig :=
  {| Models.config_source := "un-sanctions";
     Models.base_url := "https://placeholder.invalid/un/consolidated.xml";
     Models.rate_limit_seconds := 3;
     Models.max_retries := 3;
     Models.timeout_seconds := 90;
     Models.user_agent := "SanctionsWatch/0.1.0";
     Models.headers := ∅;
     Models.verify_ssl := true;
     Models.custom_settings := ∅ |}.

(** [_get_xml_text], with the attribute form ['@attr']. *)
Definition _get_xml_text (element : ET.Element) (xpath : string) : option string :=
  if String.prefix "@" xpath
  then
    let attr := String.substring 1 (String.length xpath - 1) xpath in
    option_map Py.strip (ET.get element attr)
  else
    match ET.find element xpath with
    | Some found =>
        match ET.text found with
        | Some t => if Py.truthy t then Some (Py.strip t) else None
        | None => None
        end
    | None => None
    end.

Definition _parse_date (date_str : string) : option Datetime.datetime :=
  if negb (Py.truthy date_str) then None
  else Strptime.try_formats (Py.strip date_str) ["%Y-%m-%d"; "%d %b %Y"; "%Y"].

Definition or_else (a b : option string) : option string :=
  if Py.otruthy a then a else b.

(** The values of the given fields that are not empty, in order. *)
Definition field_values (element : ET.Element) (fields : list string) : list string :=
  Py.filter_none (map (_get_xml_text element) fields).

Definition alias_step (names : list string) (alias_elem : ET.Element) : list string :=
  let alias_parts := field_values alias_elem ["ALIAS_NAME"; "QUALITY"] in
  match alias_parts with
  | [] => names
  | _ :: _ =>
      let alias_name := Py.strip (Py.join " " alias_parts) in
      if Py.truthy alias_name && negb (Py.in_list alias_name names)
      then (names ++ [alias_name])%list else names
  end.

Definition _extract_names (xml_element : ET.Element) : list string :=
  let name_parts :=
    field_values xml_element
      ["FIRST_NAME"; "SECOND_NAME"; "THIRD_NAME"; "FOURTH_NAME";
       "NAME_ORIGINAL_SCRIPT"; "ENTITY_NAME"] in
  let names :=
    match name_parts with
    | [] => []
    | _ :: _ =>
        let full_name := Py.strip (Py.join " " name_parts) in
        if Py.truthy full_name then [full_name] else []
    end in
  fold_left alias_step
    (ET.findall xml_element ".//INDIVIDUAL_ALIAS"
       ++ ET.findall xml_element ".//ENTITY_ALIAS")%list
    names.

Definition _determine_entity_type (xml_element : ET.Element) : EntityType.t :=
  let tag := Py.lower (ET.tag xml_element) in
  if Py.contains "individual" tag then EntityType.PERSON
  else if Py.contains "entity" tag then EntityType.ENTITY
  else if is_some (ET.find xml_element "FIRST_NAME") then EntityType.PERSON
  else if is_some (ET.find xml_element "ENTITY_NAME") then EntityType.ENTITY
  else EntityType.UNKNOWN.

Definition address_step (entity : Models.SanctionEntity) (address_elem : ET.Element)
    : Models.SanctionEntity :=
  let street := _get_xml_text address_elem "STREET" in
  let city := _get_xml_text address_elem "CITY" in
  let state := _get_xml_text address_elem "STATE_PROVINCE" in
  let country := _get_xml_text address_elem "COUNTRY" in
  let full_address := Py.join ", " (Py.filter_none [street; city; state; country]) in
  let address :=
    {| Models.address_type := AddressType.OTHER;
       Models.street := street; Models.city := city;
       Models.state_province := state; Models.postal_code := None;
       Models.country := country; Models.full_address := or_none full_address |} in
  Models.set_addresses (Models.addresses entity ++ [address])%list entity.

Definition _extract_addresses (xml_element : ET.Element)
    (entity : Models.SanctionEntity) : Models.SanctionEntity :=
  fold_left address_step
    (ET.findall xml_element ".//INDIVIDUAL_ADDRESS"
       ++ ET.findall xml_element ".//ENTITY_ADDRESS")%list
    entity.

Definition _map_identifier_type (un_type : option string) : IdentifierType.t :=
  if negb (Py.otruthy un_type) then IdentifierType.OTHER
  else
    lookup_keyword
      [("passport", IdentifierType.PASSPORT);
       ("national", IdentifierType.NATIONAL_ID);
       ("identity", IdentifierType.NATIONAL_ID);
       ("tax", IdentifierType.TAX_ID);
       ("registration", IdentifierType.REGISTRATION_NUMBER)]
      (Py.lower (Py.fmt_opt un_type)).

Definition identifier_step (entity : Models.SanctionEntity) (id_elem : ET.Element)
    : Models.SanctionEntity :=
  let doc_type := _get_xml_text id_elem "TYPE_OF_DOCUMENT" in
  let doc_number := _get_xml_text id_elem "NUMBER" in
  let country := _get_xml_text id_elem "ISSUING_COUNTRY" in
  match doc_number with
  | Some v =>
      if Py.truthy v then
        Models.set_identifiers
          (Models.identifiers entity
             ++ [new_identifier (_map_identifier_type doc_type) v country])%list entity
      else entity
  | None => entity
  end.

Definition _extract_identifiers (xml_element : ET.Element)
    (entity : Models.SanctionEntity) : Models.SanctionEntity :=
  fold_left identifier_step
    (ET.findall xml_element ".//INDIVIDUAL_DOCUMENT"
       ++ ET.findall xml_element ".//ENTITY_DOCUMENT")%list
    entity.

Definition _extract_dates (xml_element : ET.Element)
    (entity : Models.SanctionEntity) : Models.SanctionEntity :=
  let birth_date := _get_xml_text xml_element "INDIVIDUAL_DATE_OF_BIRTH" in
  let parsed :=
    match birth_date with
    | Some b => if Py.truthy b then _parse_date b else None
    | None => None
    end in
  match parsed with
  | Some _ => Models.set_dates (Some (new_dates parsed)) entity
  | None => entity
  end.

Definition _extract_sanctions_info (xml_element : ET.Element)
    (entity : Models.SanctionEntity) : Models.SanctionEntity :=
  let committee := _get_xml_text xml_element "UN_LIST_TYPE" in
  let entity1 :=
    match committee with
    | Some c =>
        if Py.truthy c then
          let program :=
            {| Models.program_name := "UN " ++ c;
               Models.authority := "United Nations Security Council";
               Models.program_type := "UN Sanctions";
               Models.description := Some c;
               Models.program_legal_basis := None |} in
          Models.set_sanctions_programs
            (Models.sanctions_programs entity ++ [program])%list entity
        else entity
    | None => entity
    end in
  let listed_on := _get_xml_text xml_element "LISTED_ON" in
  match listed_on with
  | Some l =>
      if Py.truthy l then
        let ref :=
          {| Models.source_url := None;
             Models.reference_number := None;
             Models.publication_date := _parse_date l;
             Models.legal_basis := None;
             Models.additional_info := Some ("Listed on UN sanctions list: " ++ l) |} in
        Models.set_references (Models.references entity1 ++ [ref])%list entity1
      else entity1
  | None => entity1
  end.

Definition _extract_personal_info (xml_element : ET.Element)
    (entity : Models.SanctionEntity) : Models.SanctionEntity :=
  let nationality := _get_xml_text xml_element "NATIONALITY" in
  let entity1 :=
    match nationality with
    | Some n =>
        if Py.truthy n
        then Models.set_citizenship [n] (Models.set_nationality (Some n) entity)
        else entity
    | None => entity
    end in
  let place_of_birth := _get_xml_text xml_element "PLACE_OF_BIRTH" in
  if Py.otruthy place_of_birth && negb (Py.otruthy (Models.nationality entity1))
  then Models.set_nationality place_of_birth entity1
  else entity1.

(** The names [_parse_entity] works with: those of [_extract_names],
    or, when there are none, the four name parts joined, if that is not
    empty. *)
Definition entity_names (xml_element : ET.Element) : list string :=
  let names := _extract_names xml_element in
  match names with
  | _ :: _ => names
  | [] =>
      let fallback :=
        Py.strip (Py.join " "
          (Py.filter_none
             [_get_xml_text xml_element "FIRST_NAME";
              _get_xml_text xml_element "SECOND_NAME";
              _get_xml_text xml_element "THIRD_NAME";
              _get_xml_text xml_element "FOURTH_NAME"])) in
      List.filter Py.truthy [fallback]
  end.

(** [_parse_entity]; [source] is [self.config.source].  No step of the
    body raises on an [Element], so the [except] clause stays unused. *)
Definition _parse_entity (source : string) (xml_element : ET.Element)
    : outcome Models.SanctionEntity :=
  let entity_id :=
    Py.fmt_opt
      (or_else (ET.get xml_element "dataid")
         (or_else (_get_xml_text xml_element "@dataid")
            (or_else (_get_xml_text xml_element "REFERENCE_NUMBER")
               (Some "unknown")))) in
  let names := entity_names xml_element in
  let primary_name := match names with n :: _ => n | [] => "Unknown" end in
  let alternative_names := match names with _ :: rest => rest | [] => [] end in
  let entity_type := _determine_entity_type xml_element in
  let entity :=
    Models.new_entity ("un-" ++ entity_id) primary_name
      alternative_names entity_type source (Some entity_id)
      SanctionStatus.ACTIVE in
  let entity := _extract_addresses xml_element entity in
  let entity := _extract_identifiers xml_element entity in
  let entity := _extract_dates xml_element entity in
  let entity := _extract_sanctions_info xml_element entity in
  let entity := _extract_personal_info xml_element entity in
  Return entity.

End UN.

(* ===================================================================== *)
(** ** crawlers/uk_treasury.py *)
(* ===================================================================== *)

Module UK.
Import Exceptions Util.

Definition DEFAULT_CONFIG : Models.CrawlerConfig :=
  {| Models.config_source := "uk-treasury";
     Models.base_url :=
       "https://ofsistorage.blob.core.windows.net/publishlive/2022format/ConList.csv";
     Models.rate_limit_seconds := 2;
     Models.max_retries := 3;
     Models.timeout_seconds := 60;
     Models.user_agent := "SanctionsWatch/0.1.0";
     Models.headers := ∅;
     Models.verify_ssl := true;
     Models.custom_settings := ∅ |}.

(** A row of [csv.DictReader]: a column of the header is mapped to its
    value, or to [None] when the row is shorter than the header. *)
Definition Row : Type := gmap string (option string).

(** [row_data.get(key, '')]. *)
Definition get_or_empty (row_data : Row) (key : string) : option string :=
  match row_data !! key with
  | Some v => v
  | None => Some ""
  end.

(** [row_data.get(key, '').strip()]: [None] has no [strip]. *)
Definition get_strip (row_data : Row) (key : string) : outcome string :=
  match get_or_empty row_data key with
  | Some s => Return (Py.strip s)
  | None => Raise (Exn AttributeErrorC "'NoneType' object has no attribute 'strip'")
  end.

Definition _parse_date (date_str : string) : option Datetime.datetime :=
  if negb (Py.truthy date_str) then None
  else
    let date_str := Py.replace "00/00/" "01/01/" (Py.strip date_str) in
    Strptime.try_formats date_str
      ["%d/%m/%Y"; "%d-%m-%Y"; "%Y-%m-%d"; "%d %b %Y"; "%b %Y"; "%Y"].

Definition _determine_entity_type (row_data : Row) : outcome EntityType.t :=
  match get_or_empty row_data "GroupType" with
  | None => Raise (Exn AttributeErrorC "'NoneType' object has no attribute 'lower'")
  | Some g =>
      let group_type := Py.lower g in
      if Py.contains "individual" group_type then Return EntityType.PERSON
      else if Py.contains "entity" group_type || Py.contains "organisation" group_type
      then Return EntityType.ENTITY
      else if Py.contains "ship" group_type || Py.contains "vessel" group_type
      then Return EntityType.VESSEL
      else
        match row_data !! "DOB" with
        | Some (Some dob) =>
            if Py.truthy dob then Return EntityType.PERSON
            else Return EntityType.UNKNOWN
        | _ => Return EntityType.UNKNOWN
        end
  end.

Definition _looks_like_postal_code (text : string) : bool :=
  let text := Py.strip text in
  (3 <=? String.length text)%nat && (String.length text <=? 10)%nat
  && Py.any_char Py.isdigit text.

(** A helper whose body is one [try] block that only logs: when the
    block raises, the entity stays as the block left it. *)
Definition guarded (partial : Models.SanctionEntity)
    (m : outcome Models.SanctionEntity) : Models.SanctionEntity :=
  match m with
  | Return e => e
  | Raise _ => partial
  end.

Definition _extract_addresses (row_data : Row) (entity : Models.SanctionEntity)
    : Models.SanctionEntity :=
  guarded entity (
    let* a1 := get_strip row_data "Address1" in
    let* a2 := get_strip row_data "Address2" in
    let* a3 := get_strip row_data "Address3" in
    let* a4 := get_strip row_data "Address4" in
    let* a5 := get_strip row_data "Address5" in
    let* a6 := get_strip row_data "Address6" in
    let address_parts := List.filter Py.truthy [a1; a2; a3; a4; a5; a6] in
    match address_parts with
    | [] => Return entity
    | _ :: _ =>
        let full_address := Py.join ", " address_parts in
        let potential_country := List.last address_parts "" in
        let country :=
          if (String.length potential_country <=? 50)%nat
          then Some potential_country else None in
        let postal_code := List.find _looks_like_postal_code address_parts in
        let address :=
          {| Models.address_type := AddressType.OTHER;
             Models.street := None; Models.city := None;
             Models.state_province := None; Models.postal_code := postal_code;
             Models.country := country; Models.full_address := Some full_address |} in
        Return (Models.set_addresses (Models.addresses entity ++ [address])%list entity)
    end).

Definition _extract_identifiers (row_data : Row) (entity : Models.SanctionEntity)
    : Models.SanctionEntity :=
  match get_strip row_data "PassportDetails" with
  | Raise _ => entity
  | Return passport_details =>
      let entity1 :=
        match List.find (fun part => (6 <=? String.length part)%nat)
                (Py.split passport_details) with
        | Some part =>
            Models.set_identifiers
              (Models.identifiers entity
                 ++ [new_identifier IdentifierType.PASSPORT part None])%list entity
        | None => entity
        end in
      guarded entity1 (
        let* national_id := get_strip row_data "NationalIdentificationNumber" in
        if Py.truthy national_id
        then Return
               (Models.set_identifiers
                  (Models.identifiers entity1
                     ++ [new_identifier IdentifierType.NATIONAL_ID national_id None])%list
                  entity1)
        else Return entity1)
  end.

Definition _extract_dates (row_data : Row) (entity : Models.SanctionEntity)
    : Models.SanctionEntity :=
  guarded entity (
    let* dob := get_strip row_data "DOB" in
    let birth_date := if Py.truthy dob then _parse_date dob else None in
    match birth_date with
    | Some _ => Return (Models.set_dates (Some (new_dates birth_date)) entity)
    | None => Return entity
    end).

Definition _extract_sanctions_info (row_data : Row) (entity : Models.SanctionEntity)
    : Models.SanctionEntity :=
  match get_strip row_data "Regime" with
  | Raise _ => entity
  | Return regime =>
      let entity1 :=
        if Py.truthy regime then
          let program :=
            {| Models.program_name := regime;
               Models.authority := "UK HM Treasury OFSI";
               Models.program_type := "UK Sanctions";
               Models.description := Some regime;
               Models.program_legal_basis := None |} in
          Models.set_sanctions_programs
            (Models.sanctions_programs entity ++ [program])%list entity
        else entity in
      guarded entity1 (
        let* listed_on := get_strip row_data "ListedOn" in
        if Py.truthy listed_on then
          let ref :=
            {| Models.source_url := None;
               Models.reference_number := None;
               Models.publication_date := _parse_date listed_on;
               Models.legal_basis := None;
               Models.additional_info :=
                 Some ("Listed on UK sanctions list: " ++ listed_on) |} in
          Return (Models.set_references (Models.references entity1 ++ [ref])%list entity1)
        else Return entity1)
  end.

Definition _extract_personal_info (row_data : Row) (entity : Models.SanctionEntity)
    : Models.SanctionEntity :=
  match (let* town_of_birth := get_strip row_data "TownOfBirth" in
         get_strip row_data "CountryOfBirth") with
  | Raise _ => entity
  | Return country_of_birth =>
      let entity1 :=
        if Py.truthy country_of_birth
        then Models.set_citizenship [country_of_birth]
               (Models.set_nationality (Some country_of_birth) entity)
        else entity in
      guarded entity1 (
        let* position := get_strip row_data "Position" in
        if Py.truthy position
        then Return (Models.set_position (Some position) entity1)
        else Return entity1)
  end.

(** [_parse_entity]; [source] is [self.config.source].  Whatever the
    body raises is raised again as a [DataValidationError]. *)
Definition _parse_entity (source : string) (row_data : Row)
    : outcome Models.SanctionEntity :=
  try_except (
    let* entity_id := get_strip row_data "GroupID" in
    let* name1 := get_strip row_data "Name1" in
    let* name2 := get_strip row_data "Name2" in
    let* name3 := get_strip row_data "Name3" in
    let* name4 := get_strip row_data "Name4" in
    let* name5 := get_strip row_data "Name5" in
    let* name6 := get_strip row_data "Name6" in
    let names := List.filter Py.truthy [name1; name2; name3; name4; name5; name6] in
    let primary_name := match names with n :: _ => n | [] => "Unknown" end in
    let alternative_names := match names with _ :: rest => rest | [] => [] end in
    let* entity_type := _determine_entity_type row_data in
    let entity :=
      Models.new_entity ("uk-" ++ entity_id) primary_name
        alternative_names entity_type source (Some entity_id)
        SanctionStatus.ACTIVE in
    let entity := _extract_addresses row_data entity in
    let entity := _extract_identifiers row_data entity in
    let entity := _extract_dates row_data entity in
    let entity := _extract_sanctions_info row_data entity in
    let entity := _extract_personal_info row_data entity in
    Return entity)
  (fun e => Raise (Exn DataValidationError ("Failed to parse UK entity: " ++ str e))).

End UK.

(* ===================================================================== *)
(** ** The four crawlers as instances of [BaseCrawler] *)
(* ===================================================================== *)

Module Crawlers.

(** Each class fixes [_parse_entity]; [fetch] stands for its
    [_fetch_data], which asks the network for the published list. *)
Section Instances.

Variable cfg : Models.CrawlerConfig.

Definition EUSanctionsCrawler
    (fetch : Base.crawler_state
             -> Exceptions.awaited (Base.raw_data ET.Element) * Base.crawler_state)
    : Base.Crawler ET.Element :=
  {| Base.config := cfg; Base._fetch_data := fetch;
     Base._parse_entity := EU._parse_entity (Models.config_source cfg) |}.

Definition OFACCrawler
    (fetch : Base.crawler_state
             -> Exceptions.awaited (Base.raw_data ET.Element) * Base.crawler_state)
    : Base.Crawler ET.Element :=
  {| Base.config := cfg; Base._fetch_data := fetch;
     Base._parse_entity := OFAC._parse_entity (Models.config_source cfg) |}.

Definition UNSanctionsCrawler
    (fetch : Base.crawler_state
             -> Exceptions.awaited (Base.raw_data ET.Element) * Base.crawler_state)
    : Base.Crawler ET.Element :=
  {| Base.config := cfg; Base._fetch_data := fetch;
     Base._parse_entity := UN._parse_entity (Models.config_source cfg) |}.

Definition UKTreasuryCrawler
    (fetch : Base.crawler_state
             -> Exceptions.awaited (Base.raw_data UK.Row) * Base.crawler_state)
    : Base.Crawler UK.Row :=
  {| Base.config := cfg; Base._fetch_data := fetch;
     Base._parse_entity := UK._parse_entity (Models.config_source cfg) |}.

End Instances.

End Crawlers.

(* ===================================================================== *)
(** ** tests/conftest.py and tests/test_base_crawler.py *)
(* ===================================================================== *)

Module Tests.
Import Exceptions.

Definition test_config : Models.CrawlerConfig :=
  {| Models.config_source := "test-source";
     Models.base_url := "https://example.com/test";
     Models.rate_limit_seconds := 0.1;
     Models.max_retries := 3;
     Models.timeout_seconds := 5;
     Models.user_agent := "SanctionsWatch/0.1.0";
     Models.headers := ∅;
     Models.verify_ssl := true;
     Models.custom_settings := ∅ |}.

(** [TestCrawler]: [_fetch_data] returns one value that is not a list,
    [_parse_entity] returns the same entity for any input. *)
Definition TestCrawler : Base.Crawler unit :=
  {| Base.config := test_config;
     Base._fetch_data := fun st => (Return (Base.RawValue tt), st);
     Base._parse_entity := fun _ =>
       Return (Models.new_entity "test-1" "Test Entity" [] EntityType.PERSON
                 (Models.config_source test_config) None SanctionStatus.ACTIVE) |}.

(** A network on which every session opens and every request is
    answered with the given status. *)
Definition always (status : Z) : Base.Transport :=
  {| Base.client_session := fun _ => None;
     Base.session_get := fun _ _ =>
       Return {| Base.status := status; Base.reason := ""; Base.text := "" |} |}.

(** An entity with the given three required fields. *)
Definition entity_of (id name source : string) : Models.SanctionEntity :=
  Models.new_entity id name [] EntityType.PERSON source None SanctionStatus.ACTIVE.

(** Three rows of the UK list; in the second one the row is shorter than
    the header, so [Name1] is [None]. *)
Definition uk_row (group_id name1 group_type : string) : UK.Row :=
  {[ "GroupID" := Some group_id; "Name1" := Some name1;
     "GroupType" := Some group_type ]}.

Definition uk_short_row (group_id : string) : UK.Row :=
  {[ "GroupID" := Some group_id; "Name1" := None ]}.

Definition uk_rows_before : list UK.Row := [uk_row "1" "Jane Doe" "Individual"].
Definition uk_rows_after : list UK.Row := [uk_row "3" "Acme Corp" "Entity"].

(** The UK crawler on a list whose second row is short. *)
Definition uk_crawler : Base.Crawler UK.Row :=
  Crawlers.UKTreasuryCrawler UK.DEFAULT_CONFIG
    (fun st =>
       (Return (Base.RawList (uk_rows_before ++ uk_short_row "2" :: uk_rows_after)%list),
        st)).

(** A crawler of the test configuration whose session has been opened. *)
Definition opened (net : Base.Transport) : Base.crawler_state :=
  snd (Base._create_session net test_config (Base.init 0)).

End Tests.

(* ===================================================================== *)
(** ** Observations used in the statements below *)
(* ===================================================================== *)

Module Obs.
Import Exceptions.

(** Some character of [s] is not whitespace. *)
Definition has_nonspace (s : string) : bool :=
  Py.any_char (fun c => negb (Py.isspace c)) s.

(** What one attempt of [_make_request] makes of the answer of
    [session.get]. *)
Definition attempt_outcome (url : string) (o : awaited Base.Response)
    : awaited Base.Response :=
  match o with
  | Raise e => Raise e
  | Return response =>
      if (Base.status response =? 429)%Z
      then Raise (Exn RateLimitError ("Rate limit exceeded for " ++ url))
      else match Base.raise_for_status url response with
           | Raise e => Raise e
           | Return _ => Return response
           end
  end.

(** The answers of [session.get] that [_make_request] tries again: a
    status of 400 or above, 429 among them, and a raised [ClientError]
    or [RateLimitError]. *)
Definition transient (o : awaited Base.Response) : Prop :=
  match o with
  | Return response => (400 <= Base.status response)%Z
  | Raise (Error e) =>
      isinstance e ClientError = true \/ isinstance e RateLimitError = true
  | Raise (Signal _) => False
  end.

(** The entities a list of generator steps yields. *)
Fixpoint yielded (steps : list Base.step) : list Models.SanctionEntity :=
  match steps with
  | [] => []
  | Base.Yield e :: rest => e :: yielded rest
  | Base.Warn _ :: rest => yielded rest
  end.

(** The verdict of [_validate_entity]. *)
Definition valid (e : Models.SanctionEntity) : bool :=
  match Base.validate_checks e with
  | Return b => b
  | Raise _ => false
  end.

Definition validation_error (e : Models.SanctionEntity) : string :=
  "Validation failed for entity: " ++ Models.id e.

(** The events of a trace that close a session. *)
Definition count_closed (tr : list Base.event) : nat :=
  length (List.filter (fun ev => match ev with Base.SessionClosed _ => true | _ => false end) tr).

(** The score of an entity in hundredths, as the three presence flags
    give it. *)
Definition hundredths (has_address has_identifier has_alternative_name : bool) : Z :=
  ((if has_address then 40 else 0) + (if has_identifier then 40 else 0)
   + (if has_alternative_name then 20 else 0))%Z.

(** The positions of [xs] before [i] hold no entity with the key of [e]. *)
Definition first_with_key (xs : list Models.SanctionEntity) (i : nat)
    (e : Models.SanctionEntity) : Prop :=
  xs !! i = Some e /\
  forall j e', (j < i)%nat -> xs !! j = Some e' -> Processors.key e' <> Processors.key e.

(** The entities the loop of [crawl] keeps, and the errors it records,
    for a list of generator steps. *)
Definition accepted (steps : list Base.step) : list Models.SanctionEntity :=
  List.filter valid (yielded steps).

Definition rejected (steps : list Base.step) : list string :=
  map validation_error (List.filter (fun e => negb (valid e)) (yielded steps)).

(** The error [crawl] records for an exception that ends its [try] block. *)
Definition crash_message (cfg : Models.CrawlerConfig) (e : exn) : string :=
  "Crawl failed for " ++ Models.config_source cfg ++ ": " ++ str e.

(** The retry filter of [_make_request]. *)
Definition retry_filter : exn -> bool :=
  Base.retry_if_exception_type [ClientError; RateLimitError].

(** An outcome of an attempt that the retry loop answers with another
    attempt. *)
Definition retried (o : awaited Base.Response) : bool :=
  match o with
  | Raise (Error e) => retry_filter e
  | _ => false
  end.

(** What the loop makes of the outcome of its last attempt. *)
Definition exhausted (o : awaited Base.Response) : awaited Base.Response :=
  match o with
  | Raise (Error e) => if retry_filter e then Raise (RetryError e) else o
  | _ => o
  end.

(** The three required fields of an entity. *)
Definition core (e : Models.SanctionEntity) : string * string * string :=
  (Models.id e, Models.name e, Models.source e).

(** A string that is not blank. *)
Definition named (s : string) : Prop := has_nonspace s = true.

(** The required fields of a parsed entity: a name that is not blank,
    and an id that starts with the prefix of the source. *)
Definition well_named (prefix : string) (e : Models.SanctionEntity) : Prop :=
  named (Models.name e) /\ String.prefix prefix (Models.id e) = true /\
  named (Models.id e).

End Obs.


(* ===================================================================== *)
(** ** The [_fetch_data] methods of the four crawlers *)
(* ===================================================================== *)

Module Fetch.
Import Exceptions.

(** What the crawlers ask of the standard library: [ET.fromstring],
    reading a text file, and [list(csv.DictReader(io.StringIO(content)))].
    Each may raise. *)
Record Library : Type := {
  fromstring : string -> outcome ET.Element;
  read_file : string -> outcome string;
  DictReader : string -> outcome (list UK.Row)
}.

(** The two [except] clauses of the XML crawlers: a [ParseError] and any
    other exception are raised again as a [CrawlerError].  A signal is
    no [Exception] and passes both clauses. *)
Definition reraise (parse_message fetch_message : string) (e : exn) : exn :=
  if isinstance e ParseErrorC
  then Exn CrawlerError (parse_message ++ str e)
  else Exn CrawlerError (fetch_message ++ str e).

Section Fetch.

Variable net : Base.Transport.
Variable lib : Library.
Variable cfg : Models.CrawlerConfig.

(** [self.config.custom_settings.get('mock_file')], when it is set. *)
Definition mock_file : option string :=
  match Models.custom_settings cfg !! "mock_file" with
  | Some path => if Py.truthy path then Some path else None
  | None => None
  end.

(** The text of the published list, over the network. *)
Definition request_content (st : Base.crawler_state)
    : awaited string * Base.crawler_state :=
  match Base._make_request net cfg (Models.base_url cfg) st with
  | (Return response, st1) => (Return (Base.text response), st1)
  | (Raise e, st1) => (Raise e, st1)
  end.

(** The text of the list for the crawlers that accept a local file in
    its place. *)
Definition mock_or_request_content (st : Base.crawler_state)
    : awaited string * Base.crawler_state :=
  match mock_file with
  | Some path => (lift (read_file lib path), st)
  | None => request_content st
  end.

(** The common shape of the three XML [_fetch_data]: the text is parsed,
    the root element is returned, and whatever is raised on the way is
    raised again as a [CrawlerError]. *)
Definition fetch_xml (parse_message fetch_message fetched : string)
    (content : Base.crawler_state -> awaited string * Base.crawler_state)
    (st : Base.crawler_state)
    : awaited (Base.raw_data ET.Element) * Base.crawler_state :=
  match content st with
  | (Raise (Error e), st1) => (Raise (reraise parse_message fetch_message e), st1)
  | (Raise (Signal s), st1) => (Raise (Signal s), st1)
  | (Return text, st1) =>
      match fromstring lib text with
      | Raise e => (Raise (reraise parse_message fetch_message e), st1)
      | Return root => (Return (Base.RawValue root), Base.log Base.INFO fetched st1)
      end
  end.

Definition EU_fetch_data
    : Base.crawler_state -> awaited (Base.raw_data ET.Element) * Base.crawler_state :=
  fetch_xml "Failed to parse EU sanctions XML: " "Failed to fetch EU sanctions data: "
    "Fetched EU sanctions XML" request_content.

Definition OFAC_fetch_data
    : Base.crawler_state -> awaited (Base.raw_data ET.Element) * Base.crawler_state :=
  fetch_xml "Failed to parse OFAC XML: " "Failed to fetch OFAC data: "
    "Fetched OFAC SDN XML" mock_or_request_content.

Definition UN_fetch_data
    : Base.crawler_state -> awaited (Base.raw_data ET.Element) * Base.crawler_state :=
  fetch_xml "Failed to parse UN sanctions XML: " "Failed to fetch UN sanctions data: "
    "Fetched UN sanctions XML" mock_or_request_content.

Definition UK_fetch_data (st : Base.crawler_state)
    : awaited (Base.raw_data UK.Row) * Base.crawler_state :=
  let wrap e := Exn CrawlerError ("Failed to fetch UK Treasury data: " ++ str e) in
  match request_content st with
  | (Raise (Error e), st1) => (Raise (wrap e), st1)
  | (Raise (Signal s), st1) => (Raise (Signal s), st1)
  | (Return content, st1) =>
      match DictReader lib content with
      | Raise e => (Raise (wrap e), st1)
      | Return data =>
          (Return (Base.RawList data), Base.log Base.INFO "Fetched UK Treasury CSV" st1)
      end
  end.

(** The four classes, complete. *)
Definition EUSanctionsCrawler : Base.Crawler ET.Element :=
  Crawlers.EUSanctionsCrawler cfg EU_fetch_data.
Definition OFACCrawler : Base.Crawler ET.Element :=
  Crawlers.OFACCrawler cfg OFAC_fetch_data.
Definition UNSanctionsCrawler : Base.Crawler ET.Element :=
  Crawlers.UNSanctionsCrawler cfg UN_fetch_data.
Definition UKTreasuryCrawler : Base.Crawler UK.Row :=
  Crawlers.UKTreasuryCrawler cfg UK_fetch_data.

End Fetch.

End Fetch.


(* ===================================================================== *)
(** ** processors/normalizer.py *)
(* ===================================================================== *)

Module Normalizer.

(** An entity together with its [additional_data], which the record
    [Models.SanctionEntity] leaves out.  The only values the package
    stores there are the mappings of strings the normalizer writes. *)
Record Annotated : Type := {
  entity : Models.SanctionEntity;
  additional_data : gmap string (gmap string string)
}.

(** [str(entity_type)] of a member of the enumeration. *)
Definition str_entity_type (t : EntityType.t) : string :=
  match t with
  | EntityType.PERSON => "EntityType.PERSON"
  | EntityType.ENTITY => "EntityType.ENTITY"
  | EntityType.VESSEL => "EntityType.VESSEL"
  | EntityType.AIRCRAFT => "EntityType.AIRCRAFT"
  | EntityType.ORGANIZATION => "EntityType.ORGANIZATION"
  | EntityType.UNKNOWN => "EntityType.UNKNOWN"
  end.

Definition set_names (name : string) (alternative_names : list string)
    (e : Models.SanctionEntity) : Models.SanctionEntity :=
  {| Models.id := Models.id e; Models.name := name;
     Models.alternative_names := alternative_names;
     Models.entity_type := Models.entity_type e; Models.source := Models.source e;
     Models.source_id := Models.source_id e;
     Models.sanction_status := Models.sanction_status e;
     Models.sanctions_programs := Models.sanctions_programs e;
     Models.sanctions_reasons := Models.sanctions_reasons e;
     Models.addresses := Models.addresses e; Models.identifiers := Models.identifiers e;
     Models.dates := Models.dates e; Models.nationality := Models.nationality e;
     Models.citizenship := Models.citizenship e; Models.occupation := Models.occupation e;
     Models.position := Models.position e; Models.references := Models.references e;
     Models.data_quality_score := Models.data_quality_score e |}.

(** The body of the loop of [normalize_entities]. *)
Definition normalize_entity (a : Annotated) : Annotated :=
  let e := entity a in
  let e' := set_names (Py.strip (Models.name e))
              (map Py.strip (Models.alternative_names e)) e in
  (* e.additional_data.setdefault("normalized", {})["entity_type"] = ... *)
  let normalized :=
    match additional_data a !! "normalized" with
    | Some d => d
    | None => ∅
    end in
  {| entity := e';
     additional_data :=
       <["normalized" :=
           <["entity_type" := Py.lower (str_entity_type (Models.entity_type e))]>
             normalized]>
         (additional_data a) |}.

Definition normalize_entities (entities : list Annotated) : list Annotated :=
  map normalize_entity entities.

End Normalizer.

(* ===================================================================== *)
(** ** [get_health_status] and cli.py *)
(* ===================================================================== *)

Module Cli.
Import Exceptions.

(** The dictionary [get_health_status] returns. *)
Record HealthStatus : Type := {
  health_source : string;
  health_status : string;
  health_last_request_time : float;
  health_base_url : string;
  health_rate_limit : float;
  health_timeout : Z
}.

(** [BaseCrawler.get_health_status]. *)
Definition get_health_status (cfg : Models.CrawlerConfig) (st : Base.crawler_state)
    : HealthStatus :=
  {| health_source := Models.config_source cfg;
     health_status := Base.health_status st;
     health_last_request_time := Base.last_request_time st;
     health_base_url := Models.base_url cfg;
     health_rate_limit := Models.rate_limit_seconds cfg;
     health_timeout := Models.timeout_seconds cfg |}.

(** A crawler of any of the classes, and the network it talks to. *)
Record AnyCrawler : Type := {
  Raw : Type;
  instance : Base.Crawler Raw;
  transport : Base.Transport
}.

(** A crawler class: its [DEFAULT_CONFIG] and its constructor. *)
Record CrawlerClass : Type := {
  DEFAULT_CONFIG : Models.CrawlerConfig;
  construct : Models.CrawlerConfig -> AnyCrawler
}.

(** A dictionary with string keys that keeps the order of insertion. *)
Fixpoint dict_set {V : Type} (k : string) (v : V) (d : list (string * V))
    : list (string * V) :=
  match d with
  | [] => [(k, v)]
  | (k', v') :: rest =>
      if String.eqb k k' then (k, v) :: rest else (k', v') :: dict_set k v rest
  end.

Fixpoint dict_get {V : Type} (k : string) (d : list (string * V)) : option V :=
  match d with
  | [] => None
  | (k', v') :: rest => if String.eqb k k' then Some v' else dict_get k rest
  end.

Definition keys {V : Type} (d : list (string * V)) : list string := map fst d.

Section Cli.

(** The network as each source answers, and the standard library. *)
Variable nets : string -> Base.Transport.
Variable lib : Fetch.Library.

(** The registry [CRAWLERS]. *)
Definition CRAWLERS : list (string * CrawlerClass) :=
  [("eu-sanctions",
    {| DEFAULT_CONFIG := EU.DEFAULT_CONFIG;
       construct := fun cfg =>
         {| instance := Fetch.EUSanctionsCrawler (nets "eu-sanctions") lib cfg;
            transport := nets "eu-sanctions" |} |});
   ("ofac",
    {| DEFAULT_CONFIG := OFAC.DEFAULT_CONFIG;
       construct := fun cfg =>
         {| instance := Fetch.OFACCrawler (nets "ofac") lib cfg;
            transport := nets "ofac" |} |});
   ("un-sanctions",
    {| DEFAULT_CONFIG := UN.DEFAULT_CONFIG;
       construct := fun cfg =>
         {| instance := Fetch.UNSanctionsCrawler (nets "un-sanctions") lib cfg;
            transport := nets "un-sanctions" |} |});
   ("uk-treasury",
    {| DEFAULT_CONFIG := UK.DEFAULT_CONFIG;
       construct := fun cfg =>
         {| instance := Fetch.UKTreasuryCrawler (nets "uk-treasury") lib cfg;
            transport := nets "uk-treasury" |} |})].

(** [config = DEFAULT_CONFIG.copy()] with the two settings of the user. *)
Definition user_config (default : Models.CrawlerConfig) (rate_limit : float) (timeout : Z)
    : Models.CrawlerConfig :=
  {| Models.config_source := Models.config_source default;
     Models.base_url := Models.base_url default;
     Models.rate_limit_seconds := rate_limit;
     Models.max_retries := Models.max_retries default;
     Models.timeout_seconds := timeout;
     Models.user_agent := Models.user_agent default;
     Models.headers := Models.headers default;
     Models.verify_ssl := Models.verify_ssl default;
     Models.custom_settings := Models.custom_settings default |}.

(** One round of the loop of [_run_crawl], for a source of the registry:
    a crawler is built, [crawl] runs inside [async with], and its result
    is stored; an exception, which only [__aenter__] can raise, is
    logged and the source is left without a result.  The clock goes on
    from where the round ends. *)
Definition run_source (source_name : string) (class : CrawlerClass)
    (rate_limit : float) (timeout : Z)
    (results : list (string * Models.CrawlResult)) (now : float)
    : list (string * Models.CrawlResult) * Base.crawler_state :=
  let config := user_config (DEFAULT_CONFIG class) rate_limit timeout in
  let crawler := construct class config in
  let net := transport crawler in
  match Base.async_with net config (Base.crawl net (instance crawler)) (Base.init now) with
  | (Return result, st) => (dict_set source_name result results, st)
  | (Raise e, st) => (results, st)
  end.

(** [_run_crawl]: the sources in turn; a name that is not in the
    registry is a [KeyError], which ends the function. *)
Fixpoint run_sources (sources : list string) (rate_limit : float) (timeout : Z)
    (results : list (string * Models.CrawlResult)) (now : float)
    : outcome (list (string * Models.CrawlResult)) :=
  match sources with
  | [] => Return results
  | source_name :: rest =>
      match dict_get source_name CRAWLERS with
      | None => Raise (Exn ExceptionC ("KeyError: '" ++ source_name ++ "'"))
      | Some class =>
          let '(results1, st) := run_source source_name class rate_limit timeout results now in
          run_sources rest rate_limit timeout results1 (Base.clock st)
      end
  end.

Definition _run_crawl (sources : list string) (rate_limit : float) (timeout : Z) (now : float)
    : outcome (list (string * Models.CrawlResult)) :=
  run_sources sources rate_limit timeout [] now.

(** The sources the [crawl] command works on. *)
Definition sources_to_crawl (source : list string) : list string :=
  if Py.in_list "all" source then keys CRAWLERS else source.

(** The rows of the [health] command: the source, whether its status is
    ['ready'], the base URL and the rate limit. *)
Definition health_row (source_name : string) (class : CrawlerClass)
    : string * bool * string * float :=
  let h := get_health_status (DEFAULT_CONFIG class) (Base.init 0) in
  (source_name, String.eqb (health_status h) "ready",
   health_base_url h, health_rate_limit h).

Fixpoint health_rows (sources_to_check : list string)
    : outcome (list (string * bool * string * float)) :=
  match sources_to_check with
  | [] => Return []
  | source_name :: rest =>
      match dict_get source_name CRAWLERS with
      | None => Raise (Exn ExceptionC ("KeyError: '" ++ source_name ++ "'"))
      | Some class =>
          match health_rows rest with
          | Return rows => Return (health_row source_name class :: rows)
          | Raise e => Raise e
          end
      end
  end.

(** The [health] command. *)
Definition health (source : string) : outcome (list (string * bool * string * float)) :=
  health_rows (if String.eqb source "all" then keys CRAWLERS else [source]).

End Cli.

(** A row of the summary table of [_display_results]. *)
Record SummaryRow : Type := {
  row_source : string;
  row_success : bool;               (* error_count == 0 *)
  row_entities : Z;
  row_errors : Z;
  row_duration : float
}.

Definition summary_row (item : string * Models.CrawlResult) : SummaryRow :=
  let '(source_name, result) := item in
  {| row_source := source_name;
     row_success := (Models.error_count result =? 0)%Z;
     row_entities := Models.total_entities result;
     row_errors := Models.error_count result;
     row_duration := Models.crawl_duration_seconds (Models.metadata result) |}.

(** [_display_results]: the rows, and the two totals of the last row. *)
Definition _display_results (results : list (string * Models.CrawlResult))
    : list SummaryRow * Z * Z :=
  let totals :=
    fold_left (fun '(total_entities, total_errors) '(_, result) =>
                 ((total_entities + Models.total_entities result)%Z,
                  (total_errors + Models.error_count result)%Z))
      results (0%Z, 0%Z) in
  (map summary_row results, fst totals, snd totals).

(** A record of the CSV export; [last_updated], a timestamp the entity
    record leaves out, is not among its columns here. *)
Record CsvRecord : Type := {
  csv_source : string;
  csv_id : string;
  csv_name : string;
  csv_entity_type : EntityType.t;
  csv_sanction_status : SanctionStatus.t;
  csv_nationality : option string
}.

(** What [_save_results] writes. *)
Inductive Export : Type :=
  | Json (total_entities : Z) (sources : list string)
         (entities : list Models.SanctionEntity)
  | Csv (records : list CsvRecord)
  | Nothing.

Definition csv_record (source_name : string) (entity : Models.SanctionEntity)
    : CsvRecord :=
  {| csv_source := source_name;
     csv_id := Models.id entity;
     csv_name := Models.name entity;
     csv_entity_type := Models.entity_type entity;
     csv_sanction_status := Models.sanction_status entity;
     csv_nationality := Models.nationality entity |}.

Definition _save_results (results : list (string * Models.CrawlResult))
    (format : string) : Export :=
  if String.eqb format "json" then
    let all_entities := flat_map (fun '(_, result) => Models.entities result) results in
    Json (Z.of_nat (length all_entities)) (keys results) all_entities
  else if String.eqb format "csv" then
    Csv (flat_map (fun '(source_name, result) =>
                     map (csv_record source_name) (Models.entities result))
           results)
  else Nothing.

End Cli.


(* ===================================================================== *)
(** ** Dates as the lists print them *)
(* ===================================================================== *)

Module DateText.

(** The character of a decimal digit. *)
Definition digit_char (d : Z) : ascii := ascii_of_nat (Z.to_nat (48 + d)).

(** A number below 100 on two digits, and one below 10000 on four. *)
Definition pad2 (n : Z) : string :=
  String (digit_char (n / 10)) (String (digit_char (n mod 10)) EmptyString).

Definition pad4 (n : Z) : string :=
  String (digit_char (n / 1000))
    (String (digit_char (n / 100 mod 10))
       (String (digit_char (n / 10 mod 10))
          (String (digit_char (n mod 10)) EmptyString))).

(** Two numbers and a year as the lists print a date, with slashes. *)
Definition slashed (first second year : Z) : string :=
  pad2 first ++ "/" ++ pad2 second ++ "/" ++ pad4 year.

(** A date as ISO 8601 prints it. *)
Definition iso (year month day : Z) : string :=
  pad4 year ++ "-" ++ pad2 month ++ "-" ++ pad2 day.

(** [strptime] turns the text down with a [ValueError]. *)
Definition rejects (data_string format : string) : bool :=
  match Strptime.strptime data_string format with
  | Exceptions.Raise e => Exceptions.isinstance e Exceptions.ValueErrorC
  | Exceptions.Return _ => false
  end.

(** The numbers from [lo] to [hi]. *)
Definition range (lo hi : Z) : list Z :=
  map (fun i => (lo + Z.of_nat i)%Z) (seq 0 (Z.to_nat (hi + 1 - lo))).

End DateText.


(* ===================================================================== *)
(** ** Observations used in the further statements *)
(* ===================================================================== *)

Module Effects.
Import Exceptions.

(** A step that neither opens nor closes a session, nor changes which
    session the crawler holds. *)
Definition sessions_untouched (st st' : Base.crawler_state) : Prop :=
  Base.session st' = Base.session st /\
  Base.count_created (Base.trace st') = Base.count_created (Base.trace st) /\
  Obs.count_closed (Base.trace st') = Obs.count_closed (Base.trace st).

(** A crawler that holds no session and has closed as many sessions as
    it has opened, one at most. *)
Definition balanced (st : Base.crawler_state) : Prop :=
  Base.session st = None /\
  Obs.count_closed (Base.trace st) = Base.count_created (Base.trace st) /\
  (Base.count_created (Base.trace st) <= 1)%nat.

(** The run of a crawler class inside [async with], on a fresh crawler. *)
Definition scoped_run (net : Base.Transport) {Raw : Type} (self : Base.Crawler Raw)
    (now : float) : outcome Models.CrawlResult * Base.crawler_state :=
  Base.async_with net (Base.config self) (Base.crawl net self) (Base.init now).

(** A crawl of a fresh crawler that ends with no entity and the one
    error of an exception [e], after [requests] requests. *)
Definition failed_crawl (net : Base.Transport) {Raw : Type} (self : Base.Crawler Raw)
    (now : float) (e : exn) (requests : nat) : Prop :=
  exists result st',
    Base.crawl net self (Base.init now) = (Return result, st') /\
    Models.entities result = [] /\
    Models.errors result = [Obs.crash_message (Base.config self) e] /\
    Base.count_gets (Base.trace st') = requests.

(** How the crawl of an XML crawler ends, whose [_fetch_data] takes the
    text of the list from [content] and raises its failures again with
    the messages [pm] and [fm].  When the session is there, the text
    arrives and the library parses it, the result holds one entity, the
    one [_parse_entity] makes of the root of the document, and no
    error.  When the session cannot be opened, the text cannot be had
    or cannot be parsed, the result holds no entity and the one error
    of that exception.  When a signal ends the wait for the text, the
    result holds neither. *)
Definition root_crawl (net : Base.Transport) (lib : Fetch.Library)
    (self : Base.Crawler ET.Element) (pm fm : string)
    (content : Base.crawler_state -> awaited string * Base.crawler_state)
    (st : Base.crawler_state) : Prop :=
  exists result st',
    Base.crawl net self st = (Return result, st') /\
    match Base.ensure_session net self (Base.log Base.INFO "Starting crawl" st) with
    | (Raise e, _) =>
        Models.entities result = [] /\
        Models.errors result = [Obs.crash_message (Base.config self) e]
    | (Return _, st1) =>
        match content st1 with
        | (Raise (Signal _), _) =>
            Models.entities result = [] /\ Models.errors result = []
        | (Raise (Error e), _) =>
            Models.entities result = [] /\
            Models.errors result =
              [Obs.crash_message (Base.config self) (Fetch.reraise pm fm e)]
        | (Return text, _) =>
            match Fetch.fromstring lib text with
            | Raise e =>
                Models.entities result = [] /\
                Models.errors result =
                  [Obs.crash_message (Base.config self) (Fetch.reraise pm fm e)]
            | Return root =>
                exists e,
                  Base._parse_entity self root = Return e /\
                  Models.entities result = [e] /\ Models.errors result = []
            end
        end
    end.

(** The text of the list, read from the file at [path]. *)
Definition file_content (lib : Fetch.Library) (path : string)
    (st : Base.crawler_state) : awaited string * Base.crawler_state :=
  (lift (Fetch.read_file lib path), st).

(** An entry of the results of the command line as [crawl] builds it
    for the source it is filed under. *)
Definition well_formed (item : string * Models.CrawlResult) : Prop :=
  Models.result_source (snd item) = fst item /\
  Models.total_entities (snd item) = Z.of_nat (length (Models.entities (snd item))) /\
  Models.error_count (snd item) = Z.of_nat (length (Models.errors (snd item))).

(** The records of a list that [_parse_entity] turns into an entity. *)
Definition parsed {Raw : Type} (self : Base.Crawler Raw) (items : list Raw)
    : list Models.SanctionEntity :=
  flat_map (fun item =>
              match Base._parse_entity self item with
              | Return e => [e]
              | Raise _ => []
              end)
    items.

(** The columns of a UK row that [_parse_entity] reads outside any
    guarded helper. *)
Definition uk_required_columns : list string :=
  ["GroupID"; "Name1"; "Name2"; "Name3"; "Name4"; "Name5"; "Name6"; "GroupType"].

(** A row in which none of these columns is [None]. *)
Definition uk_complete (row : UK.Row) : bool :=
  forallb (fun column =>
             match row !! column with Some None => false | _ => true end)
    uk_required_columns.

(** The primary name of an entity and its alternative names. *)
Definition all_names (e : Models.SanctionEntity) : string * list string :=
  (Models.name e, Models.alternative_names e).

(** How many addresses, identifiers, programs and references an entity
    carries. *)
Definition sizes (e : Models.SanctionEntity) : nat * nat * nat * nat :=
  (length (Models.addresses e), length (Models.identifiers e),
   length (Models.sanctions_programs e), length (Models.references e)).

(** At most [a] addresses, [i] identifiers, [p] programs and [r]
    references more in [e'] than in [e]. *)
Definition grows_by (a i p r : nat) (e e' : Models.SanctionEntity) : Prop :=
  let '(a0, i0, p0, r0) := sizes e in
  let '(a1, i1, p1, r1) := sizes e' in
  (a1 <= a0 + a)%nat /\ (i1 <= i0 + i)%nat /\ (p1 <= p0 + p)%nat /\ (r1 <= r0 + r)%nat.

(** [':' not in s]. *)
Definition colon_free (s : string) : Prop := Py.contains ":" s = false.

(** The key under which [deduplicate_entities] files an entity once
    [normalize_entities] has trimmed its name. *)
Definition normalized_key (e : Models.SanctionEntity) : string :=
  Models.source e ++ ":" ++ Py.lower (Py.strip (Models.name e)).

End Effects.

(* ===================================================================== *)
(** ** Sample surroundings *)
(* ===================================================================== *)

Module Samples.
Import Exceptions.

(** A standard library that knows one document and one file, and reads
    every CSV text as three rows, the second of them short. *)
Definition library : Fetch.Library :=
  {| Fetch.fromstring := fun text =>
       if String.eqb text "<sdnList/>"
       then Return (ET.mkElement "sdnList" ∅ None [])
       else Raise (Exn ParseErrorC "syntax error: line 1, column 0");
     Fetch.read_file := fun path =>
       if String.eqb path "mock.xml" then Return "<sdnList/>"
       else Raise (Exn ExceptionC "[Errno 2] No such file or directory");
     Fetch.DictReader := fun _ =>
       Return (Tests.uk_rows_before ++ Tests.uk_short_row "2" :: Tests.uk_rows_after)%list |}.

(** A network on which every session opens and every request is
    answered with status 200 and the given text. *)
Definition serving (text : string) : Base.Transport :=
  {| Base.client_session := fun _ => None;
     Base.session_get := fun _ _ =>
       Return {| Base.status := 200; Base.reason := "OK"; Base.text := text |} |}.

(** A network on which every session opens and the task is cancelled
    while it waits for the answer to its first request. *)
Definition cancelled : Base.Transport :=
  {| Base.client_session := fun _ => None;
     Base.session_get := fun _ _ => Raise (Signal CancelledError) |}.

(** A row of the UK list with an address, a passport, a national
    identification number, a regime and a listing date. *)
Definition uk_full_row : UK.Row :=
  {[ "GroupID" := Some "7"; "Name1" := Some "Jane"; "Name6" := Some "Doe";
     "GroupType" := Some "Individual";
     "Address1" := Some "1 High Street"; "Address2" := Some "AB1 2CD";
     "Address3" := Some "Ruritania";
     "PassportDetails" := Some "P1234567";
     "NationalIdentificationNumber" := Some "NI-99";
     "Regime" := Some "Ruritania";
     "ListedOn" := Some "01/02/2020" ]}.

(** The OFAC configuration with a [mock_file]. *)
Definition mock_config : Models.CrawlerConfig :=
  {| Models.config_source := "ofac";
     Models.base_url := "https://placeholder.invalid/ofac/sdn.xml";
     Models.rate_limit_seconds := 3;
     Models.max_retries := 3;
     Models.timeout_seconds := 120;
     Models.user_agent := "SanctionsWatch/0.1.0";
     Models.headers := ∅;
     Models.verify_ssl := true;
     Models.custom_settings := {[ "mock_file" := "mock.xml" ]} |}.

End Samples.

(* ===================================================================== *)
(** * Properties *)
(* ===================================================================== *)

Module PyProps.
Import Py Obs.

Lemma truthy_rstrip (s : string) : truthy (rstrip s) = has_nonspace s.
Proof.
  induction s as [|c r IH]; [reflexivity|].
  cbn [rstrip has_nonspace any_char]. fold (has_nonspace r). rewrite <- IH.
  destruct (isspace c), (truthy (rstrip r)); reflexivity.
Qed.

Lemma has_nonspace_rstrip (s : string) : has_nonspace (rstrip s) = has_nonspace s.
Proof.
  induction s as [|c r IH]; [reflexivity|].
  cbn [rstrip]. unfold has_nonspace in *. cbn [any_char].
  pose proof (truthy_rstrip r) as T. unfold has_nonspace in T.
  destruct (isspace c) eqn:Hc; cbn [andb negb orb].
  - destruct (truthy (rstrip r)) eqn:Ht; cbn [negb].
    + cbn [any_char]. rewrite Hc. cbn. exact IH.
    + cbn [any_char]. rewrite <- T. reflexivity.
  - cbn [any_char]. rewrite Hc. reflexivity.
Qed.

Lemma has_nonspace_lstrip (s : string) : has_nonspace (lstrip s) = has_nonspace s.
Proof.
  induction s as [|c r IH]; [reflexivity|].
  cbn [lstrip]. destruct (isspace c) eqn:Hc.
  - rewrite IH. unfold has_nonspace. cbn [any_char]. rewrite Hc. reflexivity.
  - reflexivity.
Qed.

(** A stripped string is non-empty exactly when the string has a
    character that is not whitespace. *)
Lemma truthy_strip (s : string) : truthy (strip s) = has_nonspace s.
Proof. unfold strip. rewrite truthy_rstrip. apply has_nonspace_lstrip. Qed.

Lemma has_nonspace_strip (s : string) : has_nonspace (strip s) = has_nonspace s.
Proof. unfold strip. rewrite has_nonspace_rstrip. apply has_nonspace_lstrip. Qed.

Lemma has_nonspace_truthy (s : string) : has_nonspace s = true -> truthy s = true.
Proof. destruct s; [discriminate | reflexivity]. Qed.

Lemma truthy_ne (s : string) : truthy s = true <-> s <> "".
Proof. destruct s; cbn; split; congruence. Qed.

Lemma has_nonspace_app (a b : string) :
  has_nonspace (a ++ b) = has_nonspace a || has_nonspace b.
Proof.
  unfold has_nonspace. induction a as [|c r IH]; [reflexivity|].
  simpl. rewrite IH. apply orb_assoc.
Qed.

End PyProps.

Module BaseProps.
Import Exceptions Base Obs.

(** *** The validator *)

Lemma strip_empty_of_empty (s : string) : Py.truthy s = false -> Py.truthy (Py.strip s) = false.
Proof. destruct s; [reflexivity | discriminate]. Qed.

Lemma validate_checks_valid (e : Models.SanctionEntity) :
  validate_checks e = Return true \/ exists ex, validate_checks e = Raise ex.
Proof.
  unfold validate_checks.
  repeat match goal with |- context [if ?c then _ else _] => destruct c end; eauto.
Qed.

Lemma valid_iff (e : Models.SanctionEntity) :
  valid e = true <->
  Py.strip (Models.name e) <> "" /\ Py.strip (Models.id e) <> "" /\ Models.source e <> "".
Proof.
  unfold valid, validate_checks.
  rewrite <- !PyProps.truthy_ne.
  pose proof (strip_empty_of_empty (Models.name e)) as Hn.
  pose proof (strip_empty_of_empty (Models.id e)) as Hi.
  destruct (Py.truthy (Models.name e)), (Py.truthy (Py.strip (Models.name e))),
    (Py.truthy (Models.id e)), (Py.truthy (Py.strip (Models.id e))),
    (Py.truthy (Models.source e)); cbn; intuition congruence.
Qed.

Lemma validate_entity_eq (e : Models.SanctionEntity) (st : crawler_state) :
  _validate_entity e st =
  (Return (valid e),
   if valid e then st else log WARNING "Entity validation failed" st).
Proof.
  unfold _validate_entity, valid.
  destruct (validate_checks_valid e) as [H | [ex H]]; rewrite H; reflexivity.
Qed.

(** C4, as amended: [_validate_entity] never raises, and accepts an
    entity exactly when its name and its id are non-blank after
    trimming and its source is not the empty string; the source is not
    trimmed. *)
Theorem validate_entity_accepts_iff (entity : Models.SanctionEntity)
    (st : crawler_state) :
  exists b st',
    _validate_entity entity st = (Return b, st') /\
    (b = true <->
     Py.strip (Models.name entity) <> "" /\
     Py.strip (Models.id entity) <> "" /\
     Models.source entity <> "").
Proof.
  rewrite validate_entity_eq. eexists _, _. split; [reflexivity|]. apply valid_iff.
Qed.

(** C4, as stated, fails: an entity whose source is one blank is
    accepted. *)
Lemma validate_entity_accepts_blank_source :
  let entity := Tests.entity_of "x-1" "A" " " in
  fst (_validate_entity entity (init 0)) = Return true /\
  Py.strip (Models.source entity) = "".
Proof. split; reflexivity. Qed.

(** *** The generator and the loop over it *)

Lemma crawl_loop_lists (steps : list step) :
  forall entities errors st,
    fst (crawl_loop steps entities errors st) =
    ((entities ++ accepted steps)%list, (errors ++ rejected steps)%list).
Proof.
  induction steps as [|s steps IH]; intros entities errors st.
  - cbn. unfold accepted, rejected. cbn. by rewrite !app_nil_r.
  - destruct s as [e | m]; cbn [crawl_loop].
    + rewrite validate_entity_eq. unfold accepted, rejected in *. cbn [yielded List.filter].
      destruct (valid e) eqn:Hv; cbn [negb map]; rewrite IH.
      * by rewrite <- app_assoc.
      * by rewrite <- app_assoc.
    + rewrite IH. reflexivity.
Qed.

Lemma crawl_loop_trace (steps : list step) :
  forall entities errors st,
    exists suffix,
      trace (snd (crawl_loop steps entities errors st)) = (trace st ++ suffix)%list /\
      session (snd (crawl_loop steps entities errors st)) = session st /\
      forall m, In (Warn m) steps -> In (Log WARNING m) suffix.
Proof.
  induction steps as [|s steps IH]; intros entities errors st.
  - exists []. cbn. rewrite app_nil_r. intuition.
  - destruct s as [e | m]; cbn [crawl_loop].
    + rewrite validate_entity_eq.
      destruct (valid e); cbv beta iota.
      * destruct (IH (entities ++ [e])%list errors st) as (suf & Ht & Hs & Hw).
        exists suf. repeat split; auto. intros m [Hm | Hm]; [discriminate | auto].
      * destruct (IH entities (errors ++ [validation_error e])%list
                    (log WARNING "Entity validation failed" st)) as (suf & Ht & Hs & Hw).
        exists (Log WARNING "Entity validation failed" :: suf).
        unfold validation_error in Ht, Hs. rewrite Ht, Hs. cbn. rewrite <- app_assoc. repeat split; auto.
        intros m [Hm | Hm]; [discriminate | right; auto].
    + destruct (IH entities errors (log WARNING m st)) as (suf & Ht & Hs & Hw).
      exists (Log WARNING m :: suf). rewrite Ht, Hs. cbn. rewrite <- app_assoc.
      repeat split; auto.
      intros m' [Hm | Hm]; [left; congruence | right; auto].
Qed.

Lemma yielded_app (a b : list step) : yielded (a ++ b) = (yielded a ++ yielded b)%list.
Proof.
  induction a as [|s a IH]; [reflexivity|]. destruct s; cbn; rewrite IH; reflexivity.
Qed.

Lemma yielded_parsed {Raw : Type} (self : Crawler Raw) (m : string) (items : list Raw)
    (item : Raw) (e : Models.SanctionEntity) :
  In item items -> _parse_entity self item = Return e ->
  In e (yielded (map (parse_step self m) items)).
Proof.
  induction items as [|x items IH]; intros Hin Hp; [destruct Hin|].
  cbn [map yielded]. destruct Hin as [-> | Hin].
  - unfold parse_step at 1. rewrite Hp. left. reflexivity.
  - destruct (parse_step self m x); [right|]; auto.
Qed.

(** C2: a record whose parsing raises is given up with a warning and
    nothing else changes: every record of the list gets its step, the
    steps of the records before and after are what they would be alone,
    the entities and the errors of the run are those of the run without
    that record, and an entity parsed from any other record is in the
    result when it is valid. *)
Theorem parse_failure_skips_only_that_record {Raw : Type} (self : Crawler Raw)
    (before after : list Raw) (bad : Raw) (e : exn) (st : crawler_state)
    (Hbad : _parse_entity self bad = Raise e) :
  let steps := _process_data self (RawList (before ++ bad :: after)) in
  let run := crawl_loop steps [] [] st in
  let run_without :=
    crawl_loop (_process_data self (RawList (before ++ after))) [] [] st in
  length steps = length (before ++ bad :: after) /\
  steps = (_process_data self (RawList before)
           ++ Warn "Failed to parse entity"
           :: _process_data self (RawList after))%list /\
  fst run = fst run_without /\
  In (Log WARNING "Failed to parse entity") (trace (snd run)) /\
  forall item entity,
    In item (before ++ after) ->
    _parse_entity self item = Return entity ->
    valid entity = true ->
    In entity (fst (fst run)).
Proof.
  cbn zeta.
  assert (Hsteps :
    _process_data self (RawList (before ++ bad :: after)) =
    (_process_data self (RawList before)
       ++ Warn "Failed to parse entity" :: _process_data self (RawList after))%list).
  { cbn [_process_data]. rewrite map_app. cbn [map].
    unfold parse_step at 2. rewrite Hbad. reflexivity. }
  split; [| split; [exact Hsteps | split; [| split]]].
  - cbn [_process_data]. by rewrite length_map.
  - rewrite !crawl_loop_lists. unfold accepted, rejected.
    rewrite Hsteps. cbn [_process_data]. rewrite map_app, !yielded_app.
    cbn [yielded]. reflexivity.
  - destruct (crawl_loop_trace (_process_data self (RawList (before ++ bad :: after)))
                [] [] st) as (suf & Ht & _ & Hw).
    rewrite Ht. apply in_or_app. right. apply Hw.
    rewrite Hsteps. apply in_or_app. right. left. reflexivity.
  - intros item entity Hin Hp Hv.
    rewrite crawl_loop_lists. cbn [fst app]. unfold accepted.
    apply filter_In. split; [| exact Hv].
    rewrite Hsteps. cbn [_process_data]. rewrite yielded_app. cbn [yielded].
    apply in_app_or in Hin. apply in_or_app.
    destruct Hin as [Hin | Hin]; [left | right]; eapply yielded_parsed; eauto.
Qed.

(** The theorem at work on the UK list of the tests, whose second row
    is short. *)
Lemma parse_failure_skips_only_that_record_witness :
  let self := Tests.uk_crawler in
  let bad := Tests.uk_short_row "2" in
  _parse_entity self bad =
    Raise (Exn DataValidationError
      "Failed to parse UK entity: 'NoneType' object has no attribute 'strip'") /\
  fst (crawl_loop
         (_process_data self
            (RawList (Tests.uk_rows_before ++ bad :: Tests.uk_rows_after)%list))
         [] [] (init 0)) =
  fst (crawl_loop
         (_process_data self
            (RawList (Tests.uk_rows_before ++ Tests.uk_rows_after)%list))
         [] [] (init 0)).
Proof.
  cbn zeta.
  assert (H : _parse_entity Tests.uk_crawler (Tests.uk_short_row "2") =
              Raise (Exn DataValidationError
                "Failed to parse UK entity: 'NoneType' object has no attribute 'strip'"))
    by reflexivity.
  split; [exact H|].
  exact (proj1 (proj2 (proj2
    (parse_failure_skips_only_that_record Tests.uk_crawler
       Tests.uk_rows_before Tests.uk_rows_after _ _ (init 0) H)))).
Defined.

End BaseProps.

Module CrawlProps.
Import Exceptions Base Obs BaseProps.

(** Equations between outcomes are compared and the impossible cases
    closed. *)
Ltac settle :=
  intros;
  repeat match goal with
  | H : ?a = _, H' : ?a = _ |- _ => rewrite H in H'
  | H : (_, _) = (_, _) |- _ => inversion H; subst; clear H
  end;
  try discriminate; try reflexivity; auto.

Section Crawl.

Context (net : Transport) {Raw : Type} (self : Crawler Raw).

Lemma crawl_loop_eta (steps : list step) (st : crawler_state) :
  crawl_loop steps [] [] st =
  (accepted steps, rejected steps, snd (crawl_loop steps [] [] st)).
Proof.
  pose proof (crawl_loop_lists steps [] [] st) as H.
  destruct (crawl_loop steps [] [] st) as [[a b] c]. cbn in *. congruence.
Qed.

Lemma crawl_returns (st : crawler_state) : returns (fst (crawl net self st)) = true.
Proof.
  unfold crawl.
  destruct (crawl_try net self (log INFO "Starting crawl" st)) as [[[entities errors] exc] st1].
  destruct exc; reflexivity.
Qed.

(** C1, as amended: [crawl] returns a result whatever happens inside
    it.  The result names the configured source and its counts agree
    with its lists.  An exception of the session creation or of the
    fetch that is an instance of [Exception] is recorded as the single
    error of an otherwise empty result; after a fetch that returned,
    the result holds the valid entities and one error per rejected
    entity, and no exception is left to record: the processing raises
    none. *)
Theorem crawl_never_raises (st : crawler_state) :
  exists result st',
    crawl net self st = (Return result, st') /\
    Models.result_source result = Models.config_source (config self) /\
    Models.total_entities result = Z.of_nat (length (Models.entities result)) /\
    Models.error_count result = Z.of_nat (length (Models.errors result)) /\
    let st0 := log INFO "Starting crawl" st in
    (forall e st1,
        ensure_session net self st0 = (Raise e, st1) ->
        Models.entities result = [] /\
        Models.errors result = [crash_message (config self) e]) /\
    (forall st1 (e : exn) st2,
        ensure_session net self st0 = (Return tt, st1) ->
        _fetch_data self st1 = (Raise e, st2) ->
        Models.entities result = [] /\
        Models.errors result = [crash_message (config self) e]) /\
    (forall st1 raw st2,
        ensure_session net self st0 = (Return tt, st1) ->
        _fetch_data self st1 = (Return raw, st2) ->
        Models.entities result = accepted (_process_data self raw) /\
        Models.errors result = rejected (_process_data self raw)).
Proof.
  unfold crawl, crawl_try.
  destruct (ensure_session net self (log INFO "Starting crawl" st)) as [[[] | e] st1] eqn:Hs.
  - destruct (_fetch_data self st1) as [[raw | [e | s]] st2] eqn:Hf.
    + rewrite crawl_loop_eta. cbv beta iota zeta.
      eexists _, _. split; [reflexivity|]. cbn. repeat split; settle.
    + cbv beta iota zeta.
      eexists _, _. split; [reflexivity|]. cbn. repeat split; settle.
    + cbv beta iota zeta.
      eexists _, _. split; [reflexivity|]. cbn. repeat split; settle.
  - cbv beta iota zeta.
    eexists _, _. split; [reflexivity|]. cbn. repeat split; settle.
Qed.

(** C3: the result [crawl] returns is built once, at the end of the
    run, with [total_entities] and [success_count] both the length of
    [entities] and [error_count] the length of [errors]. *)
Theorem crawl_result_counts (st : crawler_state) :
  match fst (crawl net self st) with
  | Return result =>
      Models.total_entities result = Z.of_nat (length (Models.entities result)) /\
      Models.success_count result = Models.total_entities result /\
      Models.error_count result = Z.of_nat (length (Models.errors result))
  | Raise _ => False
  end.
Proof.
  unfold crawl.
  destruct (crawl_try net self (log INFO "Starting crawl" st)) as [[[entities errors] exc] st1].
  destruct exc; cbn; auto.
Qed.

End Crawl.

(** C1, as stated, fails: the task of an EU crawler is cancelled while
    it waits for the answer to its request.  The fetch ends with a
    [CancelledError], which is no [Exception]: [crawl] returns a result
    with no entity, and its error list is empty, so the exception is
    captured nowhere. *)
Lemma cancelled_fetch_is_not_recorded :
  let net := Samples.cancelled in
  let self := Fetch.EUSanctionsCrawler net Samples.library EU.DEFAULT_CONFIG in
  let st1 := snd (ensure_session net self (log INFO "Starting crawl" (init 0))) in
  fst (_fetch_data self st1) = Raise (Signal CancelledError) /\
  exists result,
    fst (crawl net self (init 0)) = Return result /\
    Models.entities result = [] /\
    Models.errors result = [] /\
    Models.error_count result = 0%Z.
Proof.
  cbv zeta. split; [vm_compute; reflexivity|].
  eexists. split; [vm_compute; reflexivity|]. repeat split.
Qed.

End CrawlProps.

Module RequestProps.
Import Exceptions Base Obs.

Section Requests.

Context (net : Transport) (cfg : Models.CrawlerConfig).

Lemma count_gets_app (a b : list event) :
  count_gets (a ++ b) = (count_gets a + count_gets b)%nat.
Proof. unfold count_gets. by rewrite List.filter_app, List.length_app. Qed.

Lemma count_gets_emit (ev : event) (st : crawler_state) :
  count_gets (trace (emit ev st)) =
  (count_gets (trace st) + match ev with Get _ => 1 | _ => 0 end)%nat.
Proof. cbn [emit trace]. rewrite count_gets_app. destruct ev; reflexivity. Qed.

Lemma rate_limit_keeps (st : crawler_state) :
  session (_rate_limit cfg st) = session st /\
  count_gets (trace (_rate_limit cfg st)) = count_gets (trace st).
Proof.
  unfold _rate_limit, set_last_request_time, sleep, log.
  destruct (PrimFloat.ltb _ _); cbn [session trace]; split; try reflexivity.
  rewrite count_gets_emit. cbn [trace]. rewrite count_gets_emit. lia.
Qed.

Lemma rate_limit_trace (st : crawler_state) :
  exists t, trace (_rate_limit cfg st) = (trace st ++ t)%list /\ count_gets t = 0%nat.
Proof.
  unfold _rate_limit, set_last_request_time, sleep, log, emit.
  destruct (PrimFloat.ltb _ _); cbn [session trace].
  - eexists. rewrite <- app_assoc. split; reflexivity.
  - exists []. rewrite app_nil_r. split; reflexivity.
Qed.

(** One attempt with an open session: the answer of the next
    [session.get] is turned into the attempt's outcome, the session
    stays, and one request has been made. *)
Lemma attempt_events (url : string) (st : crawler_state) (s : Session) :
  session st = Some s ->
  exists st' t,
    _make_request_attempt net cfg url st =
      (attempt_outcome url (session_get net (count_gets (trace st)) url), st') /\
    session st' = Some s /\
    trace st' = (trace st ++ t)%list /\ count_gets t = 1%nat.
Proof.
  intros Hs. unfold _make_request_attempt. rewrite Hs.
  destruct (rate_limit_keeps st) as [Hrs Hrc].
  destruct (rate_limit_trace st) as (t0 & Ht0 & Hc0).
  unfold log. rewrite count_gets_emit, Hrc, Nat.add_0_r.
  set (o := session_get net (count_gets (trace st)) url).
  assert (Hout :
    match o return awaited Response with
    | Raise e => Raise e
    | Return response =>
        if (status response =? 429)%Z
        then Raise (Exn RateLimitError ("Rate limit exceeded for " ++ url))
        else if (400 <=? status response)%Z
        then match raise_for_status url response with
             | Raise e => Raise e
             | Return _ => Return response
             end
        else Return response
    end = attempt_outcome url o).
  { unfold attempt_outcome. destruct o as [r | e]; [| reflexivity].
    destruct (status r =? 429)%Z; [reflexivity|].
    unfold raise_for_status. destruct (400 <=? status r)%Z; reflexivity. }
  rewrite Hout.
  destruct (attempt_outcome url o) as [r | [e | sg]].
  - eexists _, _. split; [reflexivity|]. cbn [emit session trace]. rewrite Hrs, Hs, Ht0.
    split; [reflexivity|]. rewrite <- !app_assoc. split; [reflexivity|].
    rewrite !count_gets_app, Hc0. reflexivity.
  - destruct (isinstance e ClientError); eexists _, _; (split; [reflexivity|]);
      cbn [emit session trace]; rewrite Hrs, Hs, Ht0; (split; [reflexivity|]);
      rewrite <- !app_assoc; (split; [reflexivity|]);
      rewrite !count_gets_app, Hc0; reflexivity.
  - eexists _, _. split; [reflexivity|]. cbn [emit session trace]. rewrite Hrs, Hs, Ht0.
    split; [reflexivity|]. rewrite <- !app_assoc. split; [reflexivity|].
    rewrite !count_gets_app, Hc0. reflexivity.
Qed.

Lemma attempt_spec (url : string) (st : crawler_state) (s : Session) :
  session st = Some s ->
  exists st',
    _make_request_attempt net cfg url st =
      (attempt_outcome url (session_get net (count_gets (trace st)) url), st') /\
    session st' = Some s /\
    count_gets (trace st') = S (count_gets (trace st)).
Proof.
  intros Hs. destruct (attempt_events url st s Hs) as (st' & t & H & Hs' & Ht & Hc).
  exists st'. split; [exact H|]. split; [exact Hs'|].
  rewrite Ht, count_gets_app, Hc. lia.
Qed.

Lemma sleep_keeps (d : float) (st : crawler_state) :
  session (sleep d st) = session st /\
  count_gets (trace (sleep d st)) = count_gets (trace st).
Proof.
  unfold sleep. split; [reflexivity|]. rewrite count_gets_emit. cbn [trace]. lia.
Qed.

(** A transient answer makes the attempt raise an exception that the
    retry filter accepts. *)
Lemma transient_retried (url : string) (o : awaited Response) :
  transient o ->
  exists e : exn,
    attempt_outcome url o = Raise e /\
    retry_if_exception_type [ClientError; RateLimitError] e = true.
Proof.
  destruct o as [r | [e | sg]]; cbn [transient attempt_outcome].
  - intros H. destruct (status r =? 429)%Z eqn:E.
    + eexists. split; reflexivity.
    + unfold raise_for_status. apply Z.leb_le in H. rewrite H.
      eexists. split; reflexivity.
  - intros [H | H]; exists e; (split; [reflexivity|]);
      unfold retry_if_exception_type; cbn [existsb]; rewrite H;
      [reflexivity | destruct (isinstance e ClientError); reflexivity].
  - intros [].
Qed.

(** The outcomes that are tried again are those of the transient
    answers. *)
Lemma retried_iff_transient (url : string) (o : awaited Response) :
  retried (attempt_outcome url o) = true <-> transient o.
Proof.
  split.
  - destruct o as [r | [e | sg]]; cbn [transient attempt_outcome retried].
    + destruct (status r =? 429)%Z eqn:E; [apply Z.eqb_eq in E; lia|].
      unfold raise_for_status. destruct (400 <=? status r)%Z eqn:E'; [lia|].
      cbn. discriminate.
    + unfold retry_filter, retry_if_exception_type. cbn [existsb].
      destruct (isinstance e ClientError); [by left|].
      destruct (isinstance e RateLimitError); [by right | discriminate].
    + discriminate.
  - intros T. destruct (transient_retried url o T) as (e & -> & R). exact R.
Qed.

Lemma below_400_returned (url : string) (r : Response) :
  (status r < 400)%Z -> attempt_outcome url (Return r) = Return r.
Proof.
  intros H. cbn. destruct (status r =? 429)%Z eqn:E; [lia|].
  unfold raise_for_status. destruct (400 <=? status r)%Z eqn:E'; [lia | reflexivity].
Qed.

(** One turn of the retry loop, for an attempt that ends in [o]. *)
Lemma retry_call_turn (url : string) (st st1 : crawler_state)
    (left attempt_number : nat) (o : awaited Response) :
  _make_request_attempt net cfg url st = (o, st1) ->
  retry_call retry_filter (wait_exponential 1 4 10) left attempt_number
    (_make_request_attempt net cfg url) st =
  if retried o
  then match left with
       | O => (exhausted o, st1)
       | S left' =>
           retry_call retry_filter (wait_exponential 1 4 10) left' (S attempt_number)
             (_make_request_attempt net cfg url)
             (sleep (PyFloat.of_Z (wait_exponential 1 4 10 attempt_number)) st1)
       end
  else (o, st1).
Proof.
  intros H. destruct left; cbn [retry_call]; rewrite H;
    destruct o as [r | [e | sg]]; cbn [retried exhausted]; try reflexivity;
    destruct (retry_filter e); reflexivity.
Qed.

(** After a transient answer the loop sleeps and goes on with one
    attempt less; the session is kept and one request has been made. *)
Lemma retry_call_transient (url : string) (st : crawler_state) (s : Session)
    (left attempt_number : nat) :
  session st = Some s ->
  transient (session_get net (count_gets (trace st)) url) ->
  exists st',
    session st' = Some s /\
    count_gets (trace st') = S (count_gets (trace st)) /\
    retry_call retry_filter (wait_exponential 1 4 10) (S left) attempt_number
      (_make_request_attempt net cfg url) st =
    retry_call retry_filter (wait_exponential 1 4 10) left (S attempt_number)
      (_make_request_attempt net cfg url) st'.
Proof.
  intros Hs T.
  destruct (attempt_spec url st s Hs) as (st1 & H1 & Hs1 & Hc1).
  destruct (transient_retried url _ T) as (e & A & R).
  destruct (sleep_keeps (PyFloat.of_Z (wait_exponential 1 4 10 attempt_number)) st1)
    as [Hss Hsc].
  exists (sleep (PyFloat.of_Z (wait_exponential 1 4 10 attempt_number)) st1).
  split; [congruence|]. split; [congruence|].
  cbn [retry_call]. rewrite H1, A. unfold retry_filter. rewrite R. reflexivity.
Qed.

(** The last attempt: what it raises, if the filter accepts it, is
    wrapped in a [RetryError]; anything else is passed on. *)
Lemma retry_call_last (url : string) (st : crawler_state) (s : Session)
    (attempt_number : nat) :
  session st = Some s ->
  exists st',
    count_gets (trace st') = S (count_gets (trace st)) /\
    retry_call retry_filter (wait_exponential 1 4 10) 0 attempt_number
      (_make_request_attempt net cfg url) st =
    (exhausted (attempt_outcome url (session_get net (count_gets (trace st)) url)), st').
Proof.
  intros Hs.
  destruct (attempt_spec url st s Hs) as (st1 & H1 & Hs1 & Hc1).
  exists st1. split; [exact Hc1|].
  rewrite (retry_call_turn url st st1 0 attempt_number _ H1).
  destruct (attempt_outcome url _) as [r | [e | sg]]; cbn [retried exhausted]; try reflexivity.
  destruct (retry_filter e); reflexivity.
Qed.

(** C5, as amended: with an open session, [_make_request] makes one,
    two or three attempts, whatever the network answers.  An attempt is
    followed by another exactly when the answer it received is
    transient: a status of 400 or above (429 or any other) or a raised
    [ClientError] or [RateLimitError].  Before the second and before
    the third attempt the loop sleeps the wait tenacity computes, 4
    seconds each time, and the [Sleep] event stands in the run between
    the events of the two attempts, each of which makes one request.
    The run ends with the outcome of the first attempt that is not
    tried again, which a response below 400 and an exception that is
    neither a [ClientError] nor a [RateLimitError] are, or, after the
    third attempt, with a [RetryError] that carries the third
    failure. *)
Theorem make_request_retry_policy (url : string) (st : crawler_state) (s : Session)
    (Hs : session st = Some s) :
  let k := count_gets (trace st) in
  let result i := attempt_outcome url (session_get net (k + i) url) in
  let attempt := _make_request_attempt net cfg url in
  let wait i := PyFloat.of_Z (wait_exponential 1 4 10 i) in
  let run := _make_request net cfg url st in
  (forall o, retried (attempt_outcome url o) = true <-> transient o) /\
  (forall r, (status r < 400)%Z ->
     attempt_outcome url (Return r) = Return r /\ retried (Return r) = false) /\
  (forall e : exn,
     isinstance e ClientError = false -> isinstance e RateLimitError = false ->
     attempt_outcome url (Raise e) = Raise e /\ retried (Raise e) = false) /\
  (forall o, retried o = true ->
     exists e : exn, o = Raise e /\ exhausted o = Raise (RetryError e)) /\
  (forall o, retried o = false -> exhausted o = o) /\
  wait 1%nat = 4%float /\ wait 2%nat = 4%float /\
  (k + 1 <= count_gets (trace (snd run)) <= k + 3)%nat /\
  exists st1 t1,
    attempt st = (result 0%nat, st1) /\
    trace st1 = (trace st ++ t1)%list /\ count_gets t1 = 1%nat /\
    if retried (result 0%nat)
    then
      exists st2 t2,
        attempt (sleep (wait 1%nat) st1) = (result 1%nat, st2) /\
        trace st2 = (trace st1 ++ Sleep (wait 1%nat) :: t2)%list /\ count_gets t2 = 1%nat /\
        if retried (result 1%nat)
        then
          exists st3 t3,
            attempt (sleep (wait 2%nat) st2) = (result 2%nat, st3) /\
            trace st3 = (trace st2 ++ Sleep (wait 2%nat) :: t3)%list /\
            count_gets t3 = 1%nat /\
            run = (exhausted (result 2%nat), st3)
        else run = (result 1%nat, st2)
    else run = (result 0%nat, st1).
Proof.
  cbn zeta.
  split; [intros o; apply retried_iff_transient|].
  split; [intros r Hr; split; [by apply below_400_returned | reflexivity]|].
  split.
  { intros e Hc Hr. split; [reflexivity|].
    cbn [retried]. unfold retry_filter, retry_if_exception_type. cbn [existsb].
    rewrite Hc, Hr. reflexivity. }
  split.
  { intros [r | [e | sg]]; cbn [retried exhausted]; try discriminate.
    intros R. rewrite R. by exists e. }
  split.
  { intros [r | [e | sg]]; cbn [retried exhausted]; try reflexivity.
    intros R. rewrite R. reflexivity. }
  split; [reflexivity|]. split; [reflexivity|].
  assert (Hchain :
    exists st1 t1,
      _make_request_attempt net cfg url st =
        (attempt_outcome url (session_get net (count_gets (trace st) + 0) url), st1) /\
      trace st1 = (trace st ++ t1)%list /\ count_gets t1 = 1%nat /\
      if retried (attempt_outcome url (session_get net (count_gets (trace st) + 0) url))
      then
        exists st2 t2,
          _make_request_attempt net cfg url
            (sleep (PyFloat.of_Z (wait_exponential 1 4 10 1)) st1) =
            (attempt_outcome url (session_get net (count_gets (trace st) + 1) url), st2) /\
          trace st2 =
            (trace st1 ++ Sleep (PyFloat.of_Z (wait_exponential 1 4 10 1)) :: t2)%list /\
          count_gets t2 = 1%nat /\
          if retried (attempt_outcome url (session_get net (count_gets (trace st) + 1) url))
          then
            exists st3 t3,
              _make_request_attempt net cfg url
                (sleep (PyFloat.of_Z (wait_exponential 1 4 10 2)) st2) =
                (attempt_outcome url (session_get net (count_gets (trace st) + 2) url),
                 st3) /\
              trace st3 =
                (trace st2 ++ Sleep (PyFloat.of_Z (wait_exponential 1 4 10 2)) :: t3)%list /\
              count_gets t3 = 1%nat /\
              _make_request net cfg url st =
                (exhausted
                   (attempt_outcome url
                      (session_get net (count_gets (trace st) + 2) url)), st3)
          else _make_request net cfg url st =
                 (attempt_outcome url (session_get net (count_gets (trace st) + 1) url),
                  st2)
      else _make_request net cfg url st =
             (attempt_outcome url (session_get net (count_gets (trace st) + 0) url), st1)).
  { unfold _make_request, retry. cbn [Nat.sub]. fold retry_filter.
    destruct (attempt_events url st s Hs) as (st1 & t1 & H1 & Hs1 & Ht1 & Hc1).
    rewrite Nat.add_0_r.
    exists st1, t1. split; [exact H1|]. split; [exact Ht1|]. split; [exact Hc1|].
    rewrite (retry_call_turn url st st1 2 1 _ H1).
    destruct (retried (attempt_outcome url (session_get net (count_gets (trace st)) url)));
      [| reflexivity].
    set (w1 := PyFloat.of_Z (wait_exponential 1 4 10 1)).
    assert (Hs1' : session (sleep w1 st1) = Some s) by exact Hs1.
    destruct (attempt_events url (sleep w1 st1) s Hs1') as (st2 & t2 & H2 & Hs2 & Ht2 & Hc2).
    assert (Hk1 : count_gets (trace (sleep w1 st1)) = (count_gets (trace st) + 1)%nat).
    { destruct (sleep_keeps w1 st1) as [_ ->]. rewrite Ht1, count_gets_app, Hc1.
      reflexivity. }
    rewrite Hk1 in H2.
    exists st2, t2. split; [exact H2|].
    split; [rewrite Ht2; unfold sleep, emit; cbn [trace]; by rewrite <- app_assoc|].
    split; [exact Hc2|].
    rewrite (retry_call_turn url _ st2 1 2 _ H2).
    destruct (retried (attempt_outcome url (session_get net (count_gets (trace st) + 1) url)));
      [| reflexivity].
    set (w2 := PyFloat.of_Z (wait_exponential 1 4 10 2)).
    assert (Hs2' : session (sleep w2 st2) = Some s) by exact Hs2.
    destruct (attempt_events url (sleep w2 st2) s Hs2') as (st3 & t3 & H3 & Hs3 & Ht3 & Hc3).
    assert (Hk2 : count_gets (trace (sleep w2 st2)) = (count_gets (trace st) + 2)%nat).
    { destruct (sleep_keeps w2 st2) as [_ ->]. rewrite Ht2, count_gets_app, Hc2, Hk1.
      lia. }
    rewrite Hk2 in H3.
    exists st3, t3. split; [exact H3|].
    split; [rewrite Ht3; unfold sleep, emit; cbn [trace]; by rewrite <- app_assoc|].
    split; [exact Hc3|].
    rewrite (retry_call_turn url _ st3 0 3 _ H3).
    destruct (retried _) eqn:R; [reflexivity|].
    symmetry. revert R.
    match goal with
    | |- _ -> (exhausted ?o, _) = _ => destruct o as [r | [e | sg]]
    end; cbn [retried exhausted]; intros R; try reflexivity.
    rewrite R. reflexivity. }
  split; [| exact Hchain].
  destruct Hchain as (st1 & t1 & _ & Ht1 & Hc1 & Hrest).
  assert (Hsleep : forall d t, count_gets (Sleep d :: t) = count_gets t) by reflexivity.
  destruct (retried _).
  - destruct Hrest as (st2 & t2 & _ & Ht2 & Hc2 & Hrest).
    destruct (retried _).
    + destruct Hrest as (st3 & t3 & _ & Ht3 & Hc3 & ->). cbn [snd].
      rewrite Ht3, Ht2, Ht1, !count_gets_app, !Hsleep. lia.
    + rewrite Hrest. cbn [snd]. rewrite Ht2, Ht1, !count_gets_app, !Hsleep. lia.
  - rewrite Hrest. cbn [snd]. rewrite Ht1, count_gets_app. lia.
Qed.

End Requests.

(** C5, as stated, fails: a request that is answered with status 500
    is made three times, and what is raised in the end is the
    [RetryError] of the third attempt, which carries the
    [ClientResponseError] of [raise_for_status]. *)
Lemma status_500_is_retried :
  let net := Tests.always 500 in
  let url := Models.base_url Tests.test_config in
  let run := _make_request net Tests.test_config url (Tests.opened net) in
  match fst run with
  | Raise (Error (RetryError e)) => class_of e = ClientResponseError
  | _ => False
  end /\
  count_gets (trace (snd run)) = 3%nat.
Proof. vm_compute. split; reflexivity. Qed.

(** The policy at work: three answers with status 503 on an open
    session make three requests with a wait of 4 seconds before the
    second and before the third. *)
Lemma make_request_retry_policy_witness :
  let net := Tests.always 503 in
  let url := Models.base_url Tests.test_config in
  let st := Tests.opened net in
  let run := _make_request net Tests.test_config url st in
  is_Some (session st) /\
  exists (e : exn) t1 t2 t3,
    fst run = Raise (RetryError e) /\
    class_of e = ClientResponseError /\
    trace (snd run) = (trace st ++ t1 ++ Sleep 4 :: t2 ++ Sleep 4 :: t3)%list /\
    count_gets t1 = 1%nat /\ count_gets t2 = 1%nat /\ count_gets t3 = 1%nat.
Proof.
  cbn zeta.
  assert (Hs : session (Tests.opened (Tests.always 503)) =
               Some {| session_timeout := 5; session_verify_ssl := true;
                       session_headers :=
                         ∅ ∪ {[ "User-Agent" := "SanctionsWatch/0.1.0" ]} |})
    by reflexivity.
  split; [rewrite Hs; eexists; reflexivity|].
  pose proof (make_request_retry_policy (Tests.always 503) Tests.test_config
                (Models.base_url Tests.test_config) _ _ Hs) as H.
  cbn zeta in H.
  destruct H as (_ & _ & _ & _ & _ & _ & _ & _ & st1 & t1 & _ & Ht1 & Hc1 & H).
  change (retried _) with true in H.
  destruct H as (st2 & t2 & _ & Ht2 & Hc2 & H).
  change (retried _) with true in H.
  destruct H as (st3 & t3 & _ & Ht3 & Hc3 & H).
  eexists _, t1, t2, t3. rewrite H. cbn [fst snd].
  split; [reflexivity|]. split; [reflexivity|].
  split; [| by repeat split].
  rewrite Ht3, Ht2, Ht1, <- !app_assoc. reflexivity.
Defined.

End RequestProps.

Module SessionProps.
Import Exceptions Base Obs BaseProps CrawlProps.

Section Session.

Context (net : Transport) {Raw : Type} (self : Crawler Raw).

Lemma close_session_none (st : crawler_state) :
  session (_close_session st) = None.
Proof. unfold _close_session. destruct (session st) eqn:E; [reflexivity | exact E]. Qed.

Lemma create_session_raise (cfg : Models.CrawlerConfig) (st st' : crawler_state) (e : exn) :
  _create_session net cfg st = (Raise e, st') -> st' = st.
Proof.
  unfold _create_session. destruct (client_session net _); intros H; inversion H; reflexivity.
Qed.

(** [crawl] leaves the session as the fetch left it. *)
Lemma crawl_session (st : crawler_state) :
  (forall s0, session (snd (_fetch_data self s0)) = session s0) ->
  session (snd (crawl net self st)) =
  session (snd (ensure_session net self (log INFO "Starting crawl" st))).
Proof.
  intros Hfetch. unfold crawl, crawl_try.
  destruct (ensure_session net self (log INFO "Starting crawl" st)) as [[[] | e] st1].
  - pose proof (Hfetch st1) as Hf.
    destruct (_fetch_data self st1) as [[raw | [e | sg]] st2]; cbn [snd] in Hf.
    + destruct (crawl_loop_trace (_process_data self raw) [] [] st2) as (suf & _ & Hs & _).
      destruct (crawl_loop (_process_data self raw) [] [] st2) as [[a b] c].
      cbn in *. congruence.
    + cbn. exact Hf.
    + cbn. exact Hf.
  - reflexivity.
Qed.

(** C6, as amended: the session is released by the crawler's context
    manager, not by [crawl].  A run made inside [async with], on a fresh
    crawler, ends with the session released when the scope exits,
    whatever happened inside, and [crawl] has returned its result by
    then if the session could be opened.  [crawl] itself releases
    nothing: with a fetch that leaves the session alone, the session
    that is open when [crawl] starts is still the crawler's session
    when [crawl] returns. *)
Theorem session_released_when_scope_exits (now : float) :
  let scope := async_with net (config self) (crawl net self) (init now) in
  session (snd scope) = None /\
  health_status (snd scope) = "not_initialized" /\
  (client_session net 0 = None -> returns (fst scope) = true) /\
  forall st,
    (forall s0, session (snd (_fetch_data self s0)) = session s0) ->
    session st <> None ->
    session (snd (crawl net self st)) = session st.
Proof.
  cbn zeta.
  assert (Hnone :
    session (snd (async_with net (config self) (crawl net self) (init now))) = None).
  { unfold async_with, __aenter__, __aexit__.
    destruct (_create_session net (config self) (init now)) as [[[] | e] st1] eqn:Hc.
    - destruct (crawl net self st1) as [r st2]. apply close_session_none.
    - apply create_session_raise in Hc. subst. reflexivity. }
  split; [exact Hnone|]. split; [unfold health_status; rewrite Hnone; reflexivity|].
  split.
  - intros Hopen. unfold async_with, __aenter__, _create_session.
    cbn [init trace count_created List.filter length]. rewrite Hopen.
    match goal with |- context [crawl net self ?s] =>
      pose proof (crawl_returns net self s) as Hr;
      destruct (crawl net self s) as [r st2] end.
    exact Hr.
  - intros st Hfetch Hsome. rewrite (crawl_session st Hfetch). unfold ensure_session.
    change (session (log INFO "Starting crawl" st)) with (session st).
    destruct (session st) eqn:E; [| congruence].
    cbn [snd]. exact E.
Qed.

End Session.

(** C6, as stated, fails: when [crawl] returns, the session is still
    open and nothing has been closed, on a crawler whose session the
    context manager opened and on a fresh crawler alike. *)
Lemma crawl_leaves_session_open :
  let net := Tests.always 200 in
  let inside := crawl net Tests.TestCrawler (Tests.opened net) in
  let bare := crawl net Tests.TestCrawler (init 0) in
  returns (fst inside) = true /\
  health_status (snd inside) = "ready" /\
  count_closed (trace (snd inside)) = 0%nat /\
  returns (fst bare) = true /\
  health_status (snd bare) = "ready" /\
  count_closed (trace (snd bare)) = 0%nat.
Proof. vm_compute. repeat split. Qed.

End SessionProps.

Module ProcessorProps.
Import Processors Obs.

(** *** Deduplication *)

Lemma dedup_loop_result (es : list Models.SanctionEntity) :
  forall seen result,
    dedup_loop es seen result = (result ++ dedup_loop es seen [])%list.
Proof.
  induction es as [|e es IH]; intros seen result; cbn [dedup_loop].
  - by rewrite app_nil_r.
  - destruct (seen !! key e).
    + apply IH.
    + rewrite IH, (IH _ ([] ++ [e])%list). cbn. by rewrite <- app_assoc.
Qed.

Lemma dedup_loop_cons (e : Models.SanctionEntity) (es : list Models.SanctionEntity)
    (seen : gmap string Models.SanctionEntity) :
  dedup_loop (e :: es) seen [] =
  match seen !! key e with
  | None => e :: dedup_loop es (<[key e := e]> seen) []
  | Some _ => dedup_loop es seen []
  end.
Proof.
  cbn [dedup_loop]. destruct (seen !! key e); [reflexivity|].
  rewrite dedup_loop_result. reflexivity.
Qed.

Lemma dedup_sublist (es : list Models.SanctionEntity) :
  forall seen, sublist (dedup_loop es seen []) es.
Proof.
  induction es as [|e es IH]; intros seen; [constructor|].
  rewrite dedup_loop_cons. destruct (seen !! key e).
  - by apply sublist_cons.
  - by apply sublist_skip.
Qed.

Lemma dedup_elem (es : list Models.SanctionEntity) :
  forall seen e,
    e ∈ dedup_loop es seen [] <->
    exists i, first_with_key es i e /\ seen !! key e = None.
Proof.
  unfold first_with_key.
  induction es as [|x es IH]; intros seen e.
  - cbn. split.
    + intros H. by apply elem_of_nil in H.
    + intros (i & [H _] & _). by rewrite lookup_nil in H.
  - rewrite dedup_loop_cons. destruct (seen !! key x) eqn:Hx.
    + rewrite IH. split.
      * intros (i & [Hi Hfirst] & Hs). exists (S i). split; [split|]; auto.
        intros [|j] e' Hj He'; cbn in He'.
        -- inversion He'; subst. congruence.
        -- apply (Hfirst j); [lia | done].
      * intros ([|i] & [Hi Hfirst] & Hs); cbn in Hi.
        -- inversion Hi; subst. congruence.
        -- exists i. split; [split|]; auto.
           intros j e' Hj He'. apply (Hfirst (S j)); [lia | done].
    + rewrite elem_of_cons, IH. split.
      * intros [-> | (i & [Hi Hfirst] & Hs)].
        -- exists 0%nat. split; [split|]; auto. intros j e' Hj. lia.
        -- destruct (decide (key x = key e)) as [Heq | Hne].
           ++ rewrite Heq, lookup_insert_eq in Hs. discriminate.
           ++ rewrite lookup_insert_ne in Hs by done.
              exists (S i). split; [split|]; auto.
              intros [|j] e' Hj He'; cbn in He'.
              ** inversion He'; subst. done.
              ** apply (Hfirst j); [lia | done].
      * intros ([|i] & [Hi Hfirst] & Hs); cbn in Hi.
        -- inversion Hi. by left.
        -- right. exists i. split; [split|]; auto.
           ++ intros j e' Hj He'. apply (Hfirst (S j)); [lia | done].
           ++ rewrite lookup_insert_ne; [done|].
              apply (Hfirst 0%nat); [lia | done].
Qed.

Lemma dedup_nodup (es : list Models.SanctionEntity) :
  forall seen, NoDup (map key (dedup_loop es seen [])).
Proof.
  induction es as [|x es IH]; intros seen; [constructor|].
  rewrite dedup_loop_cons. destruct (seen !! key x) eqn:Hx; [apply IH|].
  cbn [map]. constructor; [| apply IH].
  intros Hin. apply list_elem_of_In, in_map_iff in Hin.
  destruct Hin as (e & Hk & He).
  apply list_elem_of_In, dedup_elem in He. destruct He as (i & _ & Hs).
  rewrite Hk, lookup_insert_eq in Hs. discriminate.
Qed.

Lemma dedup_fixed (ys : list Models.SanctionEntity) :
  forall seen,
    NoDup (map key ys) ->
    (forall y, y ∈ ys -> seen !! key y = None) ->
    dedup_loop ys seen [] = ys.
Proof.
  induction ys as [|y ys IH]; intros seen Hnd Hfresh; [reflexivity|].
  rewrite dedup_loop_cons, (Hfresh y) by apply list_elem_of_here.
  inversion Hnd as [|? ? Hnotin Hnd']; subst.
  f_equal. apply IH; [exact Hnd'|].
  intros z Hz. rewrite lookup_insert_ne.
  - apply Hfresh. by apply list_elem_of_further.
  - intros Heq. apply Hnotin. rewrite Heq.
    apply list_elem_of_In, in_map. by apply list_elem_of_In.
Qed.

(** C7: the key of an entity is its source, a colon and its name in
    lower case.  [deduplicate_entities] keeps, in their order, the
    entities that are the first of the list with their key, so the keys
    of the result are pairwise different; and it is idempotent. *)
Theorem deduplicate_first_occurrence_idempotent (xs : list Models.SanctionEntity) :
  (forall e, key e = (Models.source e ++ ":" ++ Py.lower (Models.name e))%string) /\
  sublist (deduplicate_entities xs) xs /\
  NoDup (map key (deduplicate_entities xs)) /\
  (forall e, e ∈ deduplicate_entities xs <-> exists i, first_with_key xs i e) /\
  deduplicate_entities (deduplicate_entities xs) = deduplicate_entities xs.
Proof.
  split; [reflexivity|].
  unfold deduplicate_entities.
  split; [apply dedup_sublist|]. split; [apply dedup_nodup|]. split.
  - intros e. rewrite dedup_elem. split.
    + intros (i & H & _). eauto.
    + intros (i & H). exists i. split; [exact H | apply lookup_empty].
  - apply dedup_fixed; [apply dedup_nodup|]. intros y _. apply lookup_empty.
Qed.

End ProcessorProps.

Module EnrichProps.
Import Processors Obs.

(** Enriching an enriched entity changes nothing, so an entity that
    occurs twice in the list, and is updated in place twice, ends as
    [enrich_entity] leaves it. *)
Lemma enrich_entity_idempotent (e : Models.SanctionEntity) :
  enrich_entity (enrich_entity e) = enrich_entity e.
Proof.
  destruct e as [id name alt et src sid stat progs reasons addrs idents dates nat cit occ pos refs dqs].
  unfold enrich_entity, quality_score, Models.add_sanction_program,
    Models.set_data_quality_score, Models.set_sanctions_programs.
  cbn [Models.sanctions_programs Models.addresses Models.identifiers
       Models.alternative_names Models.source Models.data_quality_score].
  destruct progs as [|p progs]; cbn [nonempty app]; reflexivity.
Qed.

(** C8: enrichment attaches the placeholder program exactly to an
    entity that has no program and leaves the programs of any other
    entity alone; the score it stores is the double nearest to the
    decimal 0.4 per address flag and identifier flag plus 0.2 for the
    alternative-name flag, a number of hundredths between 0 and 100, so
    the score lies between 0.0 and 1.0. *)
Theorem enrich_program_and_score (entities : list Models.SanctionEntity)
    (e : Models.SanctionEntity) :
  enrich_entities entities = map enrich_entity entities /\
  let e' := enrich_entity e in
  let h := hundredths (nonempty (Models.addresses e))
             (nonempty (Models.identifiers e))
             (nonempty (Models.alternative_names e)) in
  Models.sanctions_programs e' =
    (if nonempty (Models.sanctions_programs e)
     then Models.sanctions_programs e
     else [placeholder_program e]) /\
  Models.addresses e' = Models.addresses e /\
  Models.identifiers e' = Models.identifiers e /\
  Models.alternative_names e' = Models.alternative_names e /\
  Models.data_quality_score e' = Some (PyFloat.of_Z h / 100)%float /\
  (0 <= h <= 100)%Z /\
  PrimFloat.leb 0 (PyFloat.of_Z h / 100) = true /\
  PrimFloat.leb (PyFloat.of_Z h / 100) 1 = true.
Proof.
  split; [reflexivity|].
  destruct e as [id name alt et src sid stat progs reasons addrs idents dates nat cit occ pos refs dqs].
  cbn zeta. unfold enrich_entity, quality_score, Models.add_sanction_program,
    Models.set_data_quality_score, Models.set_sanctions_programs, placeholder_program.
  cbn [Models.sanctions_programs Models.addresses Models.identifiers
       Models.alternative_names Models.source Models.data_quality_score].
  destruct progs as [|p progs]; cbn [nonempty Models.sanctions_programs Models.addresses
    Models.identifiers Models.alternative_names Models.data_quality_score app];
  (split; [reflexivity|]); (split; [reflexivity|]); (split; [reflexivity|]);
  (split; [reflexivity|]);
  destruct addrs as [|a addrs], idents as [|i idents], alt as [|n alt];
  cbn [nonempty hundredths]; vm_compute; repeat split; congruence.
Qed.

End EnrichProps.

Module DateProps.

(** C9: each of the four date parsers reads ["2019"] as the first of
    January 2019; only the year-only format, the last one of each list,
    fits. *)
Theorem year_only_date_is_first_of_january :
  EU._parse_date "2019" = Some (Datetime.mk_datetime 2019 1 1) /\
  OFAC._parse_date "2019" = Some (Datetime.mk_datetime 2019 1 1) /\
  UN._parse_date "2019" = Some (Datetime.mk_datetime 2019 1 1) /\
  UK._parse_date "2019" = Some (Datetime.mk_datetime 2019 1 1).
Proof. repeat split; vm_compute; reflexivity. Qed.

End DateProps.

Module ParserProps.
Import Exceptions Obs BaseProps.

(** *** What the helpers leave alone *)

Lemma fold_left_core {A : Type} (f : Models.SanctionEntity -> A -> Models.SanctionEntity)
    (l : list A) :
  (forall e x, core (f e x) = core e) ->
  forall e, core (fold_left f l e) = core e.
Proof.
  intros Hf. induction l as [|x l IH]; intros e; [reflexivity|].
  cbn [fold_left]. rewrite IH. apply Hf.
Qed.

(** Every branch of a helper ends in field updates that keep the id,
    the name and the source. *)
Ltac keeps_core :=
  intros;
  repeat (cbv beta;
    match goal with
    | |- context [match ?x with _ => _ end] =>
        lazymatch x with
        | context [match _ with _ => _ end] => fail
        | _ => destruct x
        end
    end);
  reflexivity.

(** *** Names that are not blank *)

Lemma named_strip (s : string) : Py.truthy (Py.strip s) = true -> named (Py.strip s).
Proof.
  unfold named. rewrite PyProps.truthy_strip, PyProps.has_nonspace_strip. auto.
Qed.

Lemma named_strip_of_named (s : string) : named s -> named (Py.strip s).
Proof. unfold named. by rewrite PyProps.has_nonspace_strip. Qed.

Lemma named_Unknown : named "Unknown".
Proof. reflexivity. Qed.

Lemma named_head (names : list string) :
  Forall named names -> named (match names with n :: _ => n | [] => "Unknown" end).
Proof. intros H. destruct H; [apply named_Unknown | assumption]. Qed.

Lemma named_filter_truthy_strip (xs : list string) :
  Forall (fun s => exists t, s = Py.strip t) xs ->
  Forall named (List.filter Py.truthy xs).
Proof.
  induction 1 as [|x xs [t ->] _ IH]; cbn [List.filter]; [constructor|].
  destruct (Py.truthy (Py.strip t)) eqn:E; [| exact IH].
  constructor; [by apply named_strip | exact IH].
Qed.

Lemma named_filter_none (parts : list (option string)) :
  (forall s, In (Some s) parts -> Py.truthy s = true -> named s) ->
  Forall named (Py.filter_none parts).
Proof.
  induction parts as [|o parts IH]; intros H; cbn [Py.filter_none]; [constructor|].
  destruct o as [s|].
  - destruct (Py.truthy s) eqn:E.
    + constructor; [apply H; [by left | exact E]|]. apply IH. intros; apply H; [by right | done].
    + apply IH. intros; apply H; [by right | done].
  - apply IH. intros; apply H; [by right | done].
Qed.

Lemma named_join (sep : string) (parts : list string) :
  Forall named parts -> Py.truthy (Py.join sep parts) = true ->
  named (Py.join sep parts).
Proof.
  intros H. destruct H as [|p parts Hp Hps]; [discriminate|]. intros _.
  unfold named. destruct parts; cbn [Py.join]; [exact Hp|].
  rewrite PyProps.has_nonspace_app. unfold named in Hp. by rewrite Hp.
Qed.

Lemma prefix_app (p x : string) : String.prefix p (p ++ x) = true.
Proof.
  induction p as [|c p IH]; [by destruct x|].
  simpl. destruct (ascii_dec c c); [exact IH | congruence].
Qed.

Lemma named_app_l (p x : string) : named p -> named (p ++ x).
Proof. unfold named. rewrite PyProps.has_nonspace_app. by intros ->. Qed.

Lemma well_named_core (prefix : string) (e e' : Models.SanctionEntity) :
  core e' = core e -> well_named prefix e -> well_named prefix e'.
Proof. unfold core, well_named. intros H. injection H as Hi Hn Hs. by rewrite Hi, Hn. Qed.

Lemma well_named_valid (prefix : string) (e : Models.SanctionEntity) :
  well_named prefix e ->
  Models.name e <> "" /\ Models.id e <> "" /\
  (Models.source e <> "" -> valid e = true).
Proof.
  intros (Hn & _ & Hi). unfold named in *.
  split; [| split].
  - apply PyProps.truthy_ne. by apply PyProps.has_nonspace_truthy.
  - apply PyProps.truthy_ne. by apply PyProps.has_nonspace_truthy.
  - intros Hs. apply valid_iff. rewrite <- !PyProps.truthy_ne, !PyProps.truthy_strip.
    rewrite PyProps.truthy_ne. auto.
Qed.

(** *** EU *)

Lemma eu_text_named (el : ET.Element) (p s : string) :
  EU._get_xml_text el p = Some s -> Py.truthy s = true -> named s.
Proof.
  unfold EU._get_xml_text.
  destruct (ET.find el p) as [found|]; [| discriminate].
  destruct (ET.text found) as [t|]; [| discriminate].
  destruct (Py.truthy t); [| discriminate].
  intros H; inversion H; subst. apply named_strip.
Qed.

Lemma eu_names_step (names : list string) (el : ET.Element) :
  Forall named names -> Forall named (EU.names_step names el).
Proof.
  intros H. unfold EU.names_step.
  set (names1 := match EU._get_xml_text el "wholeName" with
                 | Some w => if Py.truthy w then (names ++ [Py.strip w])%list else names
                 | None => names
                 end).
  assert (H1 : Forall named names1).
  { subst names1. destruct (EU._get_xml_text el "wholeName") as [w|] eqn:Ew; [| exact H].
    destruct (Py.truthy w) eqn:Tw; [| exact H].
    apply Forall_app. split; [exact H|]. constructor; [| constructor].
    apply named_strip_of_named. eapply eu_text_named; eauto. }
  destruct (_ || _); [| exact H1].
  destruct (Py.truthy _ && _) eqn:E; [| exact H1].
  apply andb_true_iff in E. destruct E as [E _].
  apply Forall_app. split; [exact H1|]. constructor; [| constructor].
  apply named_strip_of_named. apply named_join; [| exact E].
  apply named_filter_none. intros s Hin Ts.
  cbn in Hin. destruct Hin as [Hin | [Hin | [Hin | []]]]; eapply eu_text_named; eauto.
Qed.

Lemma eu_names (el : ET.Element) : Forall named (EU._extract_names el).
Proof.
  unfold EU._extract_names.
  assert (H : forall l names, Forall named names -> Forall named (fold_left EU.names_step l names)).
  { induction l as [|x l IH]; intros names Hn; [exact Hn|].
    cbn [fold_left]. apply IH. by apply eu_names_step. }
  apply H. constructor.
Qed.

Lemma eu_helpers_core (el : ET.Element) (e : Models.SanctionEntity) :
  core (EU._extract_personal_info el (EU._extract_sanctions_info el
         (EU._extract_dates el (EU._extract_identifiers el
            (EU._extract_addresses el e))))) = core e.
Proof.
  assert (H1 : forall e, core (EU._extract_addresses el e) = core e).
  { apply fold_left_core. unfold EU.address_step. keeps_core. }
  assert (H2 : forall e, core (EU._extract_identifiers el e) = core e).
  { apply fold_left_core. unfold EU.identifier_step. keeps_core. }
  assert (H3 : forall e, core (EU._extract_dates el e) = core e) by reflexivity.
  assert (H4 : forall e, core (EU._extract_sanctions_info el e) = core e).
  { apply fold_left_core. unfold EU.regulation_step. keeps_core. }
  assert (H5 : forall e, core (EU._extract_personal_info el e) = core e).
  { unfold EU._extract_personal_info. keeps_core. }
  by rewrite H5, H4, H3, H2, H1.
Qed.

Lemma eu_parse_well_named (source : string) (el : ET.Element) (e : Models.SanctionEntity) :
  EU._parse_entity source el = Return e ->
  well_named "eu-" e /\ Models.source e = source.
Proof.
  unfold EU._parse_entity. cbv zeta. intros H. injection H as <-.
  pose proof (eu_helpers_core el) as Hc.
  match goal with |- context [EU._extract_addresses el ?b] =>
    specialize (Hc b); set (base := b) in * end.
  split.
  - eapply well_named_core; [exact Hc|]. subst base.
    unfold well_named. cbn [Models.new_entity Models.name Models.id].
    split; [apply named_head, eu_names|].
    split; [apply prefix_app | by apply named_app_l].
  - unfold core in Hc. injection Hc as _ _ Hs. rewrite Hs. reflexivity.
Qed.

(** *** OFAC *)

Lemma ofac_text_named (el : ET.Element) (p s : string) :
  OFAC._get_xml_text el p = Some s -> Py.truthy s = true -> named s.
Proof.
  unfold OFAC._get_xml_text.
  destruct (ET.find el p) as [found|]; [| discriminate].
  destruct (ET.text found) as [t|]; [| discriminate].
  destruct (Py.truthy t); [| discriminate].
  intros H; inversion H; subst. apply named_strip.
Qed.

Lemma ofac_helpers_core (el : ET.Element) (e : Models.SanctionEntity) :
  core (OFAC._extract_personal_info el (OFAC._extract_sanctions_info el
         (OFAC._extract_dates el (OFAC._extract_identifiers el
            (OFAC._extract_addresses el e))))) = core e.
Proof.
  assert (H1 : forall e, core (OFAC._extract_addresses el e) = core e).
  { apply fold_left_core. unfold OFAC.address_step. keeps_core. }
  assert (H2 : forall e, core (OFAC._extract_identifiers el e) = core e).
  { apply fold_left_core. unfold OFAC.identifier_step. keeps_core. }
  assert (H3 : forall e, core (OFAC._extract_dates el e) = core e) by reflexivity.
  assert (H4 : forall e, core (OFAC._extract_sanctions_info el e) = core e).
  { apply fold_left_core. unfold OFAC.program_step. keeps_core. }
  assert (H5 : forall e, core (OFAC._extract_personal_info el e) = core e).
  { unfold OFAC._extract_personal_info. keeps_core. }
  by rewrite H5, H4, H3, H2, H1.
Qed.

Lemma ofac_parse_well_named (source : string) (el : ET.Element)
    (e : Models.SanctionEntity) :
  OFAC._parse_entity source el = Return e ->
  well_named "ofac-" e /\ Models.source e = source.
Proof.
  unfold OFAC._parse_entity. cbv zeta. intros H. injection H as <-.
  pose proof (ofac_helpers_core el) as Hc.
  match goal with |- context [OFAC._extract_addresses el ?b] =>
    specialize (Hc b); set (base := b) in * end.
  split.
  - eapply well_named_core; [exact Hc|]. subst base.
    unfold well_named. cbn [Models.new_entity Models.name Models.id].
    split; [| split; [apply prefix_app | by apply named_app_l]].
    destruct (_ || _).
    + destruct (Py.truthy (Py.strip _)) eqn:E; [by apply named_strip | apply named_Unknown].
    + unfold OFAC.or_else.
      destruct (OFAC._get_xml_text el ".//title") as [t|] eqn:Et; cbn [Py.otruthy].
      * destruct (Py.truthy t) eqn:Tt; cbn [Py.fmt_opt];
          [eapply ofac_text_named; eauto | apply named_Unknown].
      * apply named_Unknown.
  - unfold core in Hc. injection Hc as _ _ Hs. rewrite Hs. reflexivity.
Qed.

(** *** UN *)

Lemma un_alias_step (names : list string) (el : ET.Element) :
  Forall named names -> Forall named (UN.alias_step names el).
Proof.
  intros H. unfold UN.alias_step.
  destruct (UN.field_values el _); [exact H|].
  destruct (Py.truthy (Py.strip _) && _) eqn:E; [| exact H].
  apply andb_true_iff in E. destruct E as [E _].
  apply Forall_app. split; [exact H|]. constructor; [| constructor].
  by apply named_strip.
Qed.

Lemma un_names (el : ET.Element) : Forall named (UN._extract_names el).
Proof.
  unfold UN._extract_names.
  assert (H : forall l names, Forall named names -> Forall named (fold_left UN.alias_step l names)).
  { induction l as [|x l IH]; intros names Hn; [exact Hn|].
    cbn [fold_left]. apply IH. by apply un_alias_step. }
  apply H. destruct (UN.field_values el _); [constructor|].
  destruct (Py.truthy (Py.strip _)) eqn:E; constructor; [by apply named_strip | constructor].
Qed.

Lemma un_entity_names (el : ET.Element) : Forall named (UN.entity_names el).
Proof.
  unfold UN.entity_names. pose proof (un_names el) as Hn.
  destruct (UN._extract_names el); [| exact Hn].
  apply named_filter_truthy_strip. constructor; [eauto | constructor].
Qed.

Lemma un_helpers_core (el : ET.Element) (e : Models.SanctionEntity) :
  core (UN._extract_personal_info el (UN._extract_sanctions_info el
         (UN._extract_dates el (UN._extract_identifiers el
            (UN._extract_addresses el e))))) = core e.
Proof.
  assert (H1 : forall e, core (UN._extract_addresses el e) = core e).
  { apply fold_left_core. unfold UN.address_step. keeps_core. }
  assert (H2 : forall e, core (UN._extract_identifiers el e) = core e).
  { apply fold_left_core. unfold UN.identifier_step. keeps_core. }
  assert (H3 : forall e, core (UN._extract_dates el e) = core e).
  { unfold UN._extract_dates. keeps_core. }
  assert (H4 : forall e, core (UN._extract_sanctions_info el e) = core e).
  { unfold UN._extract_sanctions_info. keeps_core. }
  assert (H5 : forall e, core (UN._extract_personal_info el e) = core e).
  { unfold UN._extract_personal_info. keeps_core. }
  by rewrite H5, H4, H3, H2, H1.
Qed.

Lemma un_parse_well_named (source : string) (el : ET.Element)
    (e : Models.SanctionEntity) :
  UN._parse_entity source el = Return e ->
  well_named "un-" e /\ Models.source e = source.
Proof.
  unfold UN._parse_entity. cbv zeta. intros H. injection H as <-.
  pose proof (un_helpers_core el) as Hc.
  match goal with |- context [UN._extract_addresses el ?b] =>
    specialize (Hc b); set (base := b) in * end.
  split.
  - eapply well_named_core; [exact Hc|]. subst base.
    unfold well_named. cbn [Models.new_entity Models.name Models.id].
    split; [| split; [apply prefix_app | by apply named_app_l]].
    apply named_head, un_entity_names.
  - unfold core in Hc. injection Hc as _ _ Hs. rewrite Hs. reflexivity.
Qed.

(** *** UK *)

Lemma obind_return {A B : Type} (m : outcome A) (k : A -> outcome B) (b : B) :
  obind m k = Return b -> exists a, m = Return a /\ k a = Return b.
Proof. destruct m as [a | e]; cbn; [eauto | discriminate]. Qed.

Lemma uk_get_strip (row : UK.Row) (k s : string) :
  UK.get_strip row k = Return s -> exists t, s = Py.strip t.
Proof.
  unfold UK.get_strip. destruct (UK.get_or_empty row k); [| discriminate].
  intros H; inversion H. eauto.
Qed.

Lemma guarded_core (partial : Models.SanctionEntity) (m : outcome Models.SanctionEntity)
    (e : Models.SanctionEntity) :
  core partial = core e ->
  (forall e', m = Return e' -> core e' = core e) ->
  core (UK.guarded partial m) = core e.
Proof. intros Hp Hm. destruct m; cbn; auto. Qed.

Lemma uk_helpers_core (row : UK.Row) (e : Models.SanctionEntity) :
  core (UK._extract_personal_info row (UK._extract_sanctions_info row
         (UK._extract_dates row (UK._extract_identifiers row
            (UK._extract_addresses row e))))) = core e.
Proof.
  assert (H1 : forall e, core (UK._extract_addresses row e) = core e).
  { unfold UK._extract_addresses, UK.guarded, obind. keeps_core. }
  assert (H2 : forall e, core (UK._extract_identifiers row e) = core e).
  { unfold UK._extract_identifiers, UK.guarded, obind. keeps_core. }
  assert (H3 : forall e, core (UK._extract_dates row e) = core e).
  { unfold UK._extract_dates, UK.guarded, obind. keeps_core. }
  assert (H4 : forall e, core (UK._extract_sanctions_info row e) = core e).
  { unfold UK._extract_sanctions_info, UK.guarded, obind. keeps_core. }
  assert (H5 : forall e, core (UK._extract_personal_info row e) = core e).
  { unfold UK._extract_personal_info, UK.guarded, obind. keeps_core. }
  by rewrite H5, H4, H3, H2, H1.
Qed.

Lemma uk_parse_well_named (source : string) (row : UK.Row)
    (e : Models.SanctionEntity) :
  UK._parse_entity source row = Return e ->
  well_named "uk-" e /\ Models.source e = source.
Proof.
  unfold UK._parse_entity, try_except. intros H.
  match type of H with match ?m with _ => _ end = _ =>
    destruct m as [e' | ex] eqn:Hm; [| discriminate] end.
  inversion H; subst e'. clear H.
  apply obind_return in Hm. destruct Hm as (entity_id & _ & Hm).
  apply obind_return in Hm. destruct Hm as (n1 & G1 & Hm).
  apply obind_return in Hm. destruct Hm as (n2 & G2 & Hm).
  apply obind_return in Hm. destruct Hm as (n3 & G3 & Hm).
  apply obind_return in Hm. destruct Hm as (n4 & G4 & Hm).
  apply obind_return in Hm. destruct Hm as (n5 & G5 & Hm).
  apply obind_return in Hm. destruct Hm as (n6 & G6 & Hm).
  cbv zeta in Hm.
  apply obind_return in Hm. destruct Hm as (entity_type & _ & Hm).
  injection Hm as <-.
  pose proof (uk_helpers_core row) as Hc.
  match goal with |- context [UK._extract_addresses row ?b] =>
    specialize (Hc b); set (base := b) in * end.
  split.
  - eapply well_named_core; [exact Hc|]. subst base.
    unfold well_named. cbn [Models.new_entity Models.name Models.id].
    split; [| split; [apply prefix_app | by apply named_app_l]].
    assert (Hnames : Forall named (List.filter Py.truthy [n1; n2; n3; n4; n5; n6])).
    { apply named_filter_truthy_strip.
      repeat constructor; eapply uk_get_strip; eauto. }
    exact (named_head _ Hnames).
  - unfold core in Hc. injection Hc as _ _ Hs. rewrite Hs. reflexivity.
Qed.

(** C10: an entity any of the four parsers returns has a name that is
    not empty and an id that is not empty and starts with the prefix of
    its source, and the validator accepts it whenever the configured
    source is not empty.  A record without any name or id field is
    parsed with the placeholder name and a placeholder or empty local
    id. *)
Theorem parsed_entity_has_name_and_prefixed_id :
  (forall source raw e,
     EU._parse_entity source raw = Return e ->
     Models.name e <> "" /\ Models.id e <> "" /\
     String.prefix "eu-" (Models.id e) = true /\
     (source <> "" -> valid e = true)) /\
  (forall source raw e,
     OFAC._parse_entity source raw = Return e ->
     Models.name e <> "" /\ Models.id e <> "" /\
     String.prefix "ofac-" (Models.id e) = true /\
     (source <> "" -> valid e = true)) /\
  (forall source raw e,
     UN._parse_entity source raw = Return e ->
     Models.name e <> "" /\ Models.id e <> "" /\
     String.prefix "un-" (Models.id e) = true /\
     (source <> "" -> valid e = true)) /\
  (forall source raw e,
     UK._parse_entity source raw = Return e ->
     Models.name e <> "" /\ Models.id e <> "" /\
     String.prefix "uk-" (Models.id e) = true /\
     (source <> "" -> valid e = true)) /\
  (let bare := ET.mkElement "record" ∅ None [] in
   let fields o :=
     match o with
     | Return e => Some (Models.id e, Models.name e)
     | Raise _ => None
     end in
   fields (EU._parse_entity "eu-sanctions" bare) = Some ("eu-None", "Unknown") /\
   fields (OFAC._parse_entity "ofac" bare) = Some ("ofac-unknown", "Unknown") /\
   fields (UN._parse_entity "un-sanctions" bare) = Some ("un-unknown", "Unknown") /\
   fields (UK._parse_entity "uk-treasury" ∅) = Some ("uk-", "Unknown")).
Proof.
  assert (Hgen : forall prefix source e,
            well_named prefix e /\ Models.source e = source ->
            Models.name e <> "" /\ Models.id e <> "" /\
            String.prefix prefix (Models.id e) = true /\
            (source <> "" -> valid e = true)).
  { intros prefix source e [Hw Hs].
    destruct (well_named_valid prefix e Hw) as (Hn & Hi & Hv).
    destruct Hw as (_ & Hp & _). rewrite Hs in Hv. auto. }
  split; [| split; [| split; [| split]]].
  - intros source raw e H. apply Hgen. by eapply eu_parse_well_named.
  - intros source raw e H. apply Hgen. by eapply ofac_parse_well_named.
  - intros source raw e H. apply Hgen. by eapply un_parse_well_named.
  - intros source raw e H. apply Hgen. by eapply uk_parse_well_named.
  - vm_compute. repeat split.
Qed.

End ParserProps.

(* ===================================================================== *)
(** * Further properties *)
(* ===================================================================== *)

Module RateLimitProps.
Import Exceptions Base Obs.

(** *** Comparisons with a NaN *)

Lemma SFeqb_refl_not_nan (x : spec_float) : SFeqb x x = false -> x = S754_nan.
Proof.
  destruct x as [s | s | | s m e]; try reflexivity; unfold SFeqb, SFcompare.
  - destruct s; discriminate.
  - destruct s; discriminate.
  - destruct s; rewrite Z.compare_refl, Pos.compare_cont_refl; cbn; discriminate.
Qed.

Lemma SFltb_nan_r (x : spec_float) : SFltb x S754_nan = false.
Proof. destruct x as [[] | [] | | [] m e]; reflexivity. Qed.

Lemma ltb_nan_r (x y : float) : PrimFloat.is_nan y = true -> PrimFloat.ltb x y = false.
Proof.
  unfold PrimFloat.is_nan. rewrite FloatAxioms.eqb_spec, FloatAxioms.ltb_spec. intros H.
  apply negb_true_iff, SFeqb_refl_not_nan in H. rewrite H. apply SFltb_nan_r.
Qed.

Lemma sub_self (x : float) : PrimFloat.is_finite x = true -> (x - x)%float = 0%float.
Proof.
  intros H. apply FloatAxioms.Prim2SF_inj. rewrite FloatAxioms.sub_spec.
  unfold PrimFloat.is_finite, PrimFloat.is_nan, PrimFloat.is_infinity in H.
  rewrite !FloatAxioms.eqb_spec, FloatAxioms.abs_spec in H.
  destruct (Prim2SF x) as [s | s | | s m e].
  - destruct s; reflexivity.
  - destruct s; discriminate.
  - discriminate.
  - unfold SF64sub, SFsub. rewrite Z.sub_diag. reflexivity.
Qed.

Lemma sub_zero (x : float) : PrimFloat.ltb 0 x = true -> (x - 0)%float = x.
Proof.
  intros H. apply FloatAxioms.Prim2SF_inj. rewrite FloatAxioms.sub_spec.
  rewrite FloatAxioms.ltb_spec in H.
  change (Prim2SF 0) with (S754_zero false) in *.
  destruct (Prim2SF x) as [s | s | | s m e]; try discriminate; reflexivity.
Qed.

(** The rate limiter waits for the remainder of the interval and no
    longer: when the time since the last request is below the
    configured interval, as the comparison of the two doubles has it,
    it logs, sleeps for the interval minus that time and nothing else;
    otherwise it neither logs nor sleeps.  Either way the time of the
    last request is the time at which it returns, and the session is
    left alone.  An interval that is not a number never makes it
    wait.  A call that follows at once, at a finite time and with an
    interval above zero, waits for the whole interval. *)
Theorem rate_limit_waits_for_the_remainder (cfg : Models.CrawlerConfig)
    (st : crawler_state) :
  let st' := _rate_limit cfg st in
  let limit := Models.rate_limit_seconds cfg in
  let since := (clock st - last_request_time st)%float in
  last_request_time st' = clock st' /\
  session st' = session st /\
  (PrimFloat.ltb since limit = true ->
     clock st' = (clock st + (limit - since))%float /\
     trace st' = (trace st ++ [Log DEBUG "Rate limiting"; Sleep (limit - since)])%list) /\
  (PrimFloat.ltb since limit = false ->
     clock st' = clock st /\ trace st' = trace st) /\
  (PrimFloat.is_nan limit = true ->
     clock st' = clock st /\ trace st' = trace st) /\
  (PrimFloat.is_finite (clock st') = true -> PrimFloat.ltb 0 limit = true ->
     clock (_rate_limit cfg st') = (clock st' + limit)%float /\
     trace (_rate_limit cfg st') =
       (trace st' ++ [Log DEBUG "Rate limiting"; Sleep limit])%list).
Proof.
  cbv zeta.
  assert (Hlast : last_request_time (_rate_limit cfg st) = clock (_rate_limit cfg st)).
  { unfold _rate_limit. destruct (PrimFloat.ltb _ _); reflexivity. }
  assert (Hno : PrimFloat.ltb (clock st - last_request_time st) (Models.rate_limit_seconds cfg)
                = false -> clock (_rate_limit cfg st) = clock st /\
                           trace (_rate_limit cfg st) = trace st).
  { intros E. unfold _rate_limit. rewrite E. split; reflexivity. }
  split; [| split; [| split; [| split; [| split]]]].
  - exact Hlast.
  - unfold _rate_limit. destruct (PrimFloat.ltb _ _); reflexivity.
  - intros E. unfold _rate_limit. rewrite E. cbn. rewrite <- app_assoc. split; reflexivity.
  - exact Hno.
  - intros Hnan. apply Hno. by apply ltb_nan_r.
  - intros Hfin Hpos. set (st1 := _rate_limit cfg st) in *.
    unfold _rate_limit. rewrite Hlast, (sub_self _ Hfin), Hpos, (sub_zero _ Hpos).
    cbn. rewrite <- app_assoc. split; reflexivity.
Qed.

Lemma rate_limit_waits_for_the_remainder_witness :
  let st' := _rate_limit Tests.test_config (init 0) in
  PrimFloat.is_finite (clock st') = true /\
  PrimFloat.ltb 0 (Models.rate_limit_seconds Tests.test_config) = true /\
  trace st' = [Log DEBUG "Rate limiting"; Sleep 0.1] /\
  trace (_rate_limit Tests.test_config st') =
    [Log DEBUG "Rate limiting"; Sleep 0.1; Log DEBUG "Rate limiting"; Sleep 0.1].
Proof.
  cbv zeta.
  destruct (rate_limit_waits_for_the_remainder Tests.test_config (init 0))
    as (_ & _ & H1 & _ & _ & H2).
  cbv zeta in H1, H2.
  destruct (H1 eq_refl) as [_ Ht1]. destruct (H2 eq_refl eq_refl) as [_ Ht2].
  split; [reflexivity|]. split; [reflexivity|].
  split; [exact Ht1 | rewrite Ht2, Ht1; reflexivity].
Defined.

End RateLimitProps.

Module EffectProps.
Import Exceptions Base Obs Effects.

Lemma count_created_app (a b : list event) :
  count_created (a ++ b) = (count_created a + count_created b)%nat.
Proof. unfold count_created. by rewrite List.filter_app, List.length_app. Qed.

Lemma count_closed_app (a b : list event) :
  count_closed (a ++ b) = (count_closed a + count_closed b)%nat.
Proof. unfold count_closed. by rewrite List.filter_app, List.length_app. Qed.

Lemma untouched_refl (st : crawler_state) : sessions_untouched st st.
Proof. by repeat split. Qed.

Lemma untouched_trans (a b c : crawler_state) :
  sessions_untouched a b -> sessions_untouched b c -> sessions_untouched a c.
Proof. unfold sessions_untouched. intros (?&?&?) (?&?&?). repeat split; congruence. Qed.

Lemma untouched_emit (ev : event) (st : crawler_state) :
  match ev with SessionCreated _ | SessionClosed _ => False | _ => True end ->
  sessions_untouched st (emit ev st).
Proof.
  intros H. unfold sessions_untouched. cbn [emit session trace].
  rewrite count_created_app, count_closed_app.
  destruct ev; try contradiction; cbn; repeat split; lia.
Qed.

Lemma untouched_log (l : level) (m : string) (st : crawler_state) :
  sessions_untouched st (log l m st).
Proof. by apply untouched_emit. Qed.

Lemma untouched_sleep (d : float) (st : crawler_state) : sessions_untouched st (sleep d st).
Proof.
  unfold sleep.
  eapply untouched_trans; [| by apply untouched_emit]. by repeat split.
Qed.

Lemma untouched_rate_limit (cfg : Models.CrawlerConfig) (st : crawler_state) :
  sessions_untouched st (_rate_limit cfg st).
Proof.
  unfold _rate_limit, set_last_request_time.
  destruct (PrimFloat.ltb _ _).
  - assert (H : sessions_untouched st
                  (sleep (Models.rate_limit_seconds cfg - (clock st - last_request_time st))
                     (log DEBUG "Rate limiting" st))).
    { eapply untouched_trans; [apply untouched_log | apply untouched_sleep]. }
    destruct H as (?&?&?). by repeat split.
  - by repeat split.
Qed.

Lemma untouched_attempt (net : Transport) (cfg : Models.CrawlerConfig) (url : string)
    (st : crawler_state) :
  sessions_untouched st (snd (_make_request_attempt net cfg url st)).
Proof.
  unfold _make_request_attempt. destruct (session st); [| apply untouched_refl].
  assert (H : sessions_untouched st
                (emit (Get url) (log INFO "Making request" (_rate_limit cfg st)))).
  { eapply untouched_trans; [apply untouched_rate_limit|].
    eapply untouched_trans; [apply untouched_log | by apply untouched_emit]. }
  match goal with |- context [match ?a with Return _ => _ | Raise _ => _ end] =>
    destruct a as [r | [e | sg]] end; cbn [snd]; [exact H | | exact H].
  destruct (isinstance e ClientError); cbn [snd]; [| exact H].
  eapply untouched_trans; [exact H | apply untouched_log].
Qed.

Lemma untouched_retry_call {A : Type} (retry_on : exn -> bool) (wait : nat -> Z)
    (f : crawler_state -> awaited A * crawler_state) :
  (forall st, sessions_untouched st (snd (f st))) ->
  forall left attempt_number st,
    sessions_untouched st (snd (retry_call retry_on wait left attempt_number f st)).
Proof.
  intros Hf. induction left as [|left IH]; intros n st; cbn [retry_call];
    pose proof (Hf st) as H; destruct (f st) as [[a | [e | sg]] st1]; cbn [snd] in *; auto;
    destruct (retry_on e); cbn [snd]; auto.
  eapply untouched_trans; [exact H|].
  eapply untouched_trans; [apply untouched_sleep | apply IH].
Qed.

Lemma untouched_make_request (net : Transport) (cfg : Models.CrawlerConfig)
    (url : string) (st : crawler_state) :
  sessions_untouched st (snd (_make_request net cfg url st)).
Proof. apply untouched_retry_call. intros. apply untouched_attempt. Qed.

Lemma untouched_crawl_loop (steps : list step) :
  forall entities errors st,
    sessions_untouched st (snd (crawl_loop steps entities errors st)).
Proof.
  induction steps as [|s steps IH]; intros entities errors st; [apply untouched_refl|].
  destruct s as [e | m]; cbn [crawl_loop].
  - rewrite BaseProps.validate_entity_eq. destruct (valid e); cbv beta iota; [apply IH|].
    eapply untouched_trans; [apply untouched_log | apply IH].
  - eapply untouched_trans; [apply untouched_log | apply IH].
Qed.

(** With a fetch that leaves the sessions alone, [crawl] on a crawler
    that holds a session leaves them alone too. *)
Lemma untouched_crawl (net : Transport) {Raw : Type} (self : Crawler Raw)
    (st : crawler_state) :
  (forall s0, sessions_untouched s0 (snd (_fetch_data self s0))) ->
  session st <> None ->
  sessions_untouched st (snd (crawl net self st)).
Proof.
  intros Hf Hs. unfold crawl, crawl_try, ensure_session.
  change (session (log INFO "Starting crawl" st)) with (session st).
  destruct (session st) as [s|] eqn:E; [| congruence].
  assert (H0 : sessions_untouched st (log INFO "Starting crawl" st)) by apply untouched_log.
  pose proof (Hf (log INFO "Starting crawl" st)) as H1.
  destruct (_fetch_data self (log INFO "Starting crawl" st)) as [[raw | [e | sg]] st2];
    cbn [snd] in H1.
  - pose proof (untouched_crawl_loop (_process_data self raw) [] [] st2) as H2.
    destruct (crawl_loop (_process_data self raw) [] [] st2) as [[a b] c]. cbn [snd] in *.
    eapply untouched_trans; [exact H0|]. eapply untouched_trans; [exact H1|].
    eapply untouched_trans; [exact H2 | apply untouched_log].
  - cbn [snd].
    eapply untouched_trans; [exact H0|]. eapply untouched_trans; [exact H1|].
    eapply untouched_trans; [apply untouched_log | apply untouched_log].
  - cbn [snd].
    eapply untouched_trans; [exact H0|]. eapply untouched_trans; [exact H1|].
    apply untouched_log.
Qed.

End EffectProps.

Module FetchProps.
Import Exceptions Base Obs Effects EffectProps.

Section Fetch.

Context (net : Transport) (lib : Fetch.Library) (cfg : Models.CrawlerConfig).

Lemma untouched_request_content (st : crawler_state) :
  sessions_untouched st (snd (Fetch.request_content net cfg st)).
Proof.
  unfold Fetch.request_content.
  pose proof (untouched_make_request net cfg (Models.base_url cfg) st) as H.
  destruct (_make_request net cfg (Models.base_url cfg) st) as [[r | [e | sg]] st1]; exact H.
Qed.

Lemma untouched_mock_or_request (st : crawler_state) :
  sessions_untouched st (snd (Fetch.mock_or_request_content net lib cfg st)).
Proof.
  unfold Fetch.mock_or_request_content. destruct (Fetch.mock_file cfg).
  - apply untouched_refl.
  - apply untouched_request_content.
Qed.

Lemma untouched_fetch_xml (pm fm fetched : string)
    (content : crawler_state -> awaited string * crawler_state) (st : crawler_state) :
  (forall s0, sessions_untouched s0 (snd (content s0))) ->
  sessions_untouched st (snd (Fetch.fetch_xml lib pm fm fetched content st)).
Proof.
  intros Hc. unfold Fetch.fetch_xml. pose proof (Hc st) as H.
  destruct (content st) as [[text | [e | sg]] st1]; cbn [snd] in *; [| exact H | exact H].
  destruct (Fetch.fromstring lib text); cbn [snd]; [| exact H].
  eapply untouched_trans; [exact H | apply untouched_log].
Qed.

Lemma untouched_UK_fetch (st : crawler_state) :
  sessions_untouched st (snd (Fetch.UK_fetch_data net lib cfg st)).
Proof.
  unfold Fetch.UK_fetch_data. pose proof (untouched_request_content st) as H.
  destruct (Fetch.request_content net cfg st) as [[text | [e | sg]] st1]; cbn [snd] in *;
    [| exact H | exact H].
  destruct (Fetch.DictReader lib text); cbn [snd]; [| exact H].
  eapply untouched_trans; [exact H | apply untouched_log].
Qed.

(** The fetch of each of the four classes leaves the sessions alone. *)
Lemma untouched_fetch_data :
  (forall st, sessions_untouched st (snd (Fetch.EU_fetch_data net lib cfg st))) /\
  (forall st, sessions_untouched st (snd (Fetch.OFAC_fetch_data net lib cfg st))) /\
  (forall st, sessions_untouched st (snd (Fetch.UN_fetch_data net lib cfg st))) /\
  (forall st, sessions_untouched st (snd (Fetch.UK_fetch_data net lib cfg st))).
Proof.
  split; [| split; [| split]]; intros st;
    first [ apply untouched_UK_fetch
          | apply untouched_fetch_xml; intros;
            first [apply untouched_request_content | apply untouched_mock_or_request] ].
Qed.

End Fetch.

(** A run inside [async with], with a fetch that leaves the sessions
    alone, opens one session at most and closes what it opened. *)
Lemma scoped_run_balanced (net : Transport) {Raw : Type} (self : Crawler Raw) (now : float) :
  (forall s0, sessions_untouched s0 (snd (_fetch_data self s0))) ->
  balanced (snd (scoped_run net self now)).
Proof.
  intros Hf. unfold scoped_run, async_with, __aenter__, __aexit__, _create_session.
  cbn [init trace count_created List.filter length].
  destruct (client_session net 0).
  - unfold balanced. cbn. repeat split; lia.
  - set (s := {| session_timeout := _; session_verify_ssl := _; session_headers := _ |}).
    set (st1 := set_session (Some s) (emit (SessionCreated s) (init now))).
    pose proof (untouched_crawl net self st1 Hf) as H.
    destruct (crawl net self st1) as [r st2]. cbn [snd] in *.
    destruct H as (Hs & Hc & Hd); [subst st1; cbn; discriminate|].
    unfold _close_session. rewrite Hs. subst st1. cbn [set_session session].
    unfold balanced. cbn [set_session emit session trace].
    rewrite count_closed_app, count_created_app, Hc, Hd. cbn. repeat split; lia.
Qed.

(** Each of the four crawler classes, run inside [async with] on a
    fresh crawler, ends holding no session, having opened one session
    at most and closed every session it opened, whatever the network
    and the parsers answer. *)
Theorem crawlers_close_what_they_open (net : Transport) (lib : Fetch.Library)
    (cfg : Models.CrawlerConfig) (now : float) :
  balanced (snd (scoped_run net (Fetch.EUSanctionsCrawler net lib cfg) now)) /\
  balanced (snd (scoped_run net (Fetch.OFACCrawler net lib cfg) now)) /\
  balanced (snd (scoped_run net (Fetch.UNSanctionsCrawler net lib cfg) now)) /\
  balanced (snd (scoped_run net (Fetch.UKTreasuryCrawler net lib cfg) now)).
Proof.
  destruct (untouched_fetch_data net lib cfg) as (H1 & H2 & H3 & H4).
  split; [| split; [| split]]; apply scoped_run_balanced; assumption.
Qed.

End FetchProps.

Module RunProps.
Import Exceptions Base Obs Effects BaseProps CrawlProps RequestProps ParserProps.

(** *** Requests without a session, and requests that keep failing *)

Section Requests.

Context (net : Transport) (cfg : Models.CrawlerConfig).

(** Without a session [_make_request] raises its [CrawlerError] at the
    first attempt: the error is not one the retry filter accepts, so
    nothing is tried again, nothing is requested, nothing is slept or
    logged, and the crawler is left as it was. *)
Theorem make_request_needs_a_session (url : string) (st : crawler_state)
    (Hs : session st = None) :
  _make_request net cfg url st =
    (Raise (Exn CrawlerError "Session not initialized. Use async context manager."), st).
Proof.
  unfold _make_request, retry. cbn [Nat.sub retry_call].
  unfold _make_request_attempt. rewrite Hs. reflexivity.
Qed.

Lemma make_request_exhausted (url : string) (st : crawler_state) (s : Session) :
  session st = Some s ->
  (forall i, (i < 3)%nat -> transient (session_get net (count_gets (trace st) + i) url)) ->
  exists (e : exn) st',
    _make_request net cfg url st = (Raise (RetryError e), st') /\
    attempt_outcome url (session_get net (count_gets (trace st) + 2) url) = Raise e /\
    count_gets (trace st') = (count_gets (trace st) + 3)%nat.
Proof.
  intros Hs T.
  pose proof (T 0%nat ltac:(lia)) as T0. pose proof (T 1%nat ltac:(lia)) as T1.
  pose proof (T 2%nat ltac:(lia)) as T2.
  rewrite Nat.add_0_r in T0.
  destruct (retry_call_transient net cfg url st s 1 1 Hs T0) as (st1 & Hs1 & Hc1 & E1).
  replace (count_gets (trace st) + 1)%nat with (count_gets (trace st1)) in T1 by lia.
  destruct (retry_call_transient net cfg url st1 s 0 2 Hs1 T1) as (st2 & Hs2 & Hc2 & E2).
  replace (count_gets (trace st) + 2)%nat with (count_gets (trace st2)) in * by lia.
  destruct (retry_call_last net cfg url st2 s 3 Hs2) as (st3 & Hc3 & E3).
  destruct (transient_retried url _ T2) as (e & A & R).
  exists e, st3. split; [| split; [exact A | lia]].
  unfold _make_request, retry. cbn [Nat.sub].
  change (retry_if_exception_type [ClientError; RateLimitError]) with retry_filter.
  rewrite E1, E2, E3, A. cbn [exhausted]. unfold retry_filter. rewrite R. reflexivity.
Qed.

End Requests.

Lemma make_request_needs_a_session_witness :
  session (init 0) = None /\
  _make_request (Tests.always 200) Tests.test_config "https://example.com/test" (init 0) =
    (Raise (Exn CrawlerError "Session not initialized. Use async context manager."),
     init 0).
Proof.
  split; [reflexivity|].
  apply (make_request_needs_a_session (Tests.always 200) Tests.test_config
           "https://example.com/test" (init 0)).
  reflexivity.
Defined.

(** *** The three ways a crawl ends *)

Section Crawl.

Context (net : Transport) {Raw : Type} (self : Crawler Raw).

Lemma gets_crawl_loop (steps : list step) :
  forall entities errors st,
    count_gets (trace (snd (crawl_loop steps entities errors st))) =
    count_gets (trace st).
Proof.
  induction steps as [|s steps IH]; intros entities errors st; [reflexivity|].
  destruct s as [e | m]; cbn [crawl_loop].
  - rewrite validate_entity_eq. destruct (valid e); cbv beta iota; rewrite IH;
      [reflexivity | unfold log; rewrite count_gets_emit; lia].
  - rewrite IH. unfold log. rewrite count_gets_emit. lia.
Qed.

Lemma crawl_session_failed (st st1 : crawler_state) (e : exn) :
  ensure_session net self (log INFO "Starting crawl" st) = (Raise e, st1) ->
  exists result st',
    crawl net self st = (Return result, st') /\
    Models.entities result = [] /\
    Models.errors result = [crash_message (config self) e] /\
    count_gets (trace st') = count_gets (trace st1).
Proof.
  intros H. unfold crawl, crawl_try. rewrite H. cbv beta iota zeta.
  eexists _, _. split; [reflexivity|]. cbn [Models.entities Models.errors app].
  repeat split. unfold log. rewrite !count_gets_emit. lia.
Qed.

Lemma crawl_fetch_failed (st st1 st2 : crawler_state) (e : exn) :
  ensure_session net self (log INFO "Starting crawl" st) = (Return tt, st1) ->
  _fetch_data self st1 = (Raise e, st2) ->
  exists result st',
    crawl net self st = (Return result, st') /\
    Models.entities result = [] /\
    Models.errors result = [crash_message (config self) e] /\
    count_gets (trace st') = count_gets (trace st2).
Proof.
  intros H Hf. unfold crawl, crawl_try. rewrite H, Hf. cbv beta iota zeta.
  eexists _, _. split; [reflexivity|]. cbn [Models.entities Models.errors app].
  repeat split. unfold log. rewrite !count_gets_emit. lia.
Qed.

Lemma crawl_fetch_returned (st st1 st2 : crawler_state) (raw : raw_data Raw) :
  ensure_session net self (log INFO "Starting crawl" st) = (Return tt, st1) ->
  _fetch_data self st1 = (Return raw, st2) ->
  exists result st',
    crawl net self st = (Return result, st') /\
    Models.entities result = accepted (_process_data self raw) /\
    Models.errors result = rejected (_process_data self raw) /\
    Models.total_entities result = Z.of_nat (length (accepted (_process_data self raw))) /\
    Models.error_count result = Z.of_nat (length (rejected (_process_data self raw))) /\
    count_gets (trace st') = count_gets (trace st2).
Proof.
  intros H Hf. unfold crawl, crawl_try. rewrite H, Hf.
  pose proof (gets_crawl_loop (_process_data self raw) [] [] st2) as Hg.
  rewrite crawl_loop_eta in Hg |- *. cbv beta iota zeta.
  eexists _, _. split; [reflexivity|]. cbn [Models.entities Models.errors
    Models.total_entities Models.error_count].
  repeat split. unfold log. rewrite !count_gets_emit. cbn [snd] in Hg. lia.
Qed.

Lemma crawl_fetch_signalled (st st1 st2 : crawler_state) (sg : signal) :
  ensure_session net self (log INFO "Starting crawl" st) = (Return tt, st1) ->
  _fetch_data self st1 = (Raise (Signal sg), st2) ->
  exists result st',
    crawl net self st = (Return result, st') /\
    Models.entities result = [] /\
    Models.errors result = [] /\
    count_gets (trace st') = count_gets (trace st2).
Proof.
  intros H Hf. unfold crawl, crawl_try. rewrite H, Hf. cbv beta iota zeta.
  eexists _, _. split; [reflexivity|]. cbn [Models.entities Models.errors app].
  repeat split. unfold log. rewrite !count_gets_emit. lia.
Qed.

(** The session of a fresh crawler, once the first session opens. *)
Lemma fresh_session (now : float) :
  client_session net 0 = None ->
  exists s st1,
    ensure_session net self (log INFO "Starting crawl" (init now)) = (Return tt, st1) /\
    session st1 = Some s /\ count_gets (trace st1) = 0%nat.
Proof.
  intros H. unfold ensure_session, _create_session. cbn [log emit session init trace].
  cbn [app count_created List.filter length]. rewrite H.
  eexists _, _. split; [reflexivity|]. split; reflexivity.
Qed.

Lemma gets_ensure_session (st : crawler_state) :
  count_gets (trace (snd (ensure_session net self st))) = count_gets (trace st).
Proof.
  unfold ensure_session, _create_session. destruct (session st); [reflexivity|].
  destruct (client_session net _); [reflexivity|].
  cbn [snd set_session trace]. rewrite count_gets_emit. lia.
Qed.

(** A crawl whose fetch makes no request makes none. *)
Lemma crawl_gets (st : crawler_state) :
  (forall s0, count_gets (trace (snd (_fetch_data self s0))) = count_gets (trace s0)) ->
  count_gets (trace (snd (crawl net self st))) = count_gets (trace st).
Proof.
  intros Hf.
  pose proof (gets_ensure_session (log INFO "Starting crawl" st)) as He.
  unfold log in He at 2. rewrite count_gets_emit, Nat.add_0_r in He.
  destruct (ensure_session net self (log INFO "Starting crawl" st)) as [[[] | e] st1] eqn:Hs;
    cbn [snd] in He.
  - pose proof (Hf st1) as Hf1.
    destruct (_fetch_data self st1) as [[raw | [e | sg]] st2] eqn:Hd; cbn [snd] in Hf1.
    + destruct (crawl_fetch_returned st st1 st2 raw Hs Hd) as (r & st' & -> & _ & _ & _ & _ & Hg).
      cbn [snd]. lia.
    + destruct (crawl_fetch_failed st st1 st2 e Hs Hd) as (r & st' & -> & _ & _ & Hg).
      cbn [snd]. lia.
    + destruct (crawl_fetch_signalled st st1 st2 sg Hs Hd) as (r & st' & -> & _ & _ & Hg).
      cbn [snd]. lia.
  - destruct (crawl_session_failed st st1 e Hs) as (r & st' & -> & _ & _ & Hg).
    cbn [snd]. lia.
Qed.

End Crawl.

(** *** The fetch of the four crawlers *)

Section Fetch.

Context (net : Transport) (lib : Fetch.Library) (cfg : Models.CrawlerConfig).




Lemma xml_crawl (self : Crawler ET.Element) (prefix pm fm fetched : string)
    (content : crawler_state -> awaited string * crawler_state) (st : crawler_state) :
  (forall s0, _fetch_data self s0 = Fetch.fetch_xml lib pm fm fetched content s0) ->
  (forall root e, _parse_entity self root = Return e ->
                  well_named prefix e /\ Models.source e = Models.config_source (config self)) ->
  (forall root, returns (_parse_entity self root) = true) ->
  Py.truthy (Models.config_source (config self)) = true ->
  root_crawl net lib self pm fm content st.
Proof.
  intros Hfetch Hnamed Hret Hsrc. unfold root_crawl.
  destruct (ensure_session net self (log INFO "Starting crawl" st)) as [[[] | e] st1] eqn:Hs.
  - pose proof (Hfetch st1) as Hd. unfold Fetch.fetch_xml in Hd.
    destruct (content st1) as [[text | [e | sg]] st2].
    + destruct (Fetch.fromstring lib text) as [root | e].
      * destruct (crawl_fetch_returned net self st st1 _ _ Hs Hd)
          as (r & st' & Hc & He & Hr & _).
        exists r, st'. split; [exact Hc|].
        pose proof (Hret root) as Hp.
        destruct (_parse_entity self root) as [ent | e0] eqn:Hparse; [| discriminate].
        destruct (Hnamed root ent Hparse) as [Hw Hsource].
        destruct (well_named_valid prefix ent Hw) as (_ & _ & Hv).
        assert (Hvalid : valid ent = true).
        { apply Hv. rewrite Hsource. by apply PyProps.truthy_ne. }
        exists ent. split; [reflexivity|].
        rewrite He, Hr. unfold accepted, rejected, _process_data, parse_step.
        rewrite Hparse. cbn [yielded List.filter map]. rewrite Hvalid. split; reflexivity.
      * destruct (crawl_fetch_failed net self st st1 _ _ Hs Hd) as (r & st' & Hc & He & Hr & _).
        exists r, st'. split; [exact Hc|]. split; [exact He | exact Hr].
    + destruct (crawl_fetch_failed net self st st1 _ _ Hs Hd) as (r & st' & Hc & He & Hr & _).
      exists r, st'. split; [exact Hc|]. split; [exact He | exact Hr].
    + destruct (crawl_fetch_signalled net self st st1 _ _ Hs Hd) as (r & st' & Hc & He & Hr & _).
      exists r, st'. split; [exact Hc|]. split; [exact He | exact Hr].
  - destruct (crawl_session_failed net self st st1 e Hs) as (r & st' & Hc & He & Hr & _).
    exists r, st'. split; [exact Hc|]. split; [exact He | exact Hr].
Qed.

(** The three XML crawlers hand the root of the fetched document to
    [_parse_entity] as one record.  With a source that is not empty, a
    crawl for which the session is there, the text of the list arrives
    (over the network for the EU crawler, from the network or the mock
    file for the OFAC and the UN crawler) and the library parses it
    ends with exactly one entity, the one [_parse_entity] makes of the
    root of that document, and no error.  A crawl for which the session
    cannot be opened, the text cannot be had or cannot be parsed ends
    with no entity and the one error of that exception, raised again
    by the fetch under the crawler's own message. *)
Theorem xml_crawl_parses_the_root_alone (st : crawler_state)
    (Hsrc : Py.truthy (Models.config_source cfg) = true) :
  root_crawl net lib (Fetch.EUSanctionsCrawler net lib cfg)
    "Failed to parse EU sanctions XML: " "Failed to fetch EU sanctions data: "
    (Fetch.request_content net cfg) st /\
  root_crawl net lib (Fetch.OFACCrawler net lib cfg)
    "Failed to parse OFAC XML: " "Failed to fetch OFAC data: "
    (Fetch.mock_or_request_content net lib cfg) st /\
  root_crawl net lib (Fetch.UNSanctionsCrawler net lib cfg)
    "Failed to parse UN sanctions XML: " "Failed to fetch UN sanctions data: "
    (Fetch.mock_or_request_content net lib cfg) st.
Proof.
  split; [| split].
  - eapply (xml_crawl (Fetch.EUSanctionsCrawler net lib cfg) "eu-");
      [reflexivity | apply eu_parse_well_named | reflexivity | exact Hsrc].
  - eapply (xml_crawl (Fetch.OFACCrawler net lib cfg) "ofac-");
      [reflexivity | apply ofac_parse_well_named | reflexivity | exact Hsrc].
  - eapply (xml_crawl (Fetch.UNSanctionsCrawler net lib cfg) "un-");
      [reflexivity | apply un_parse_well_named | reflexivity | exact Hsrc].
Qed.

(** With [mock_file] set, the OFAC and the UN crawler read the list
    from that file and ask the network for nothing: a crawl makes no
    request, whatever the file holds, and, with a source that is not
    empty, it ends as the file has it: with the one entity parsed from
    the root of the document in the file, or with the one error of the
    file that cannot be read or parsed. *)
Theorem mock_file_crawl_makes_no_request (path : string) (st : crawler_state)
    (Hmock : Fetch.mock_file cfg = Some path) :
  count_gets (trace (snd (crawl net (Fetch.OFACCrawler net lib cfg) st)))
    = count_gets (trace st) /\
  count_gets (trace (snd (crawl net (Fetch.UNSanctionsCrawler net lib cfg) st)))
    = count_gets (trace st) /\
  (Py.truthy (Models.config_source cfg) = true ->
   root_crawl net lib (Fetch.OFACCrawler net lib cfg)
     "Failed to parse OFAC XML: " "Failed to fetch OFAC data: "
     (file_content lib path) st /\
   root_crawl net lib (Fetch.UNSanctionsCrawler net lib cfg)
     "Failed to parse UN sanctions XML: " "Failed to fetch UN sanctions data: "
     (file_content lib path) st).
Proof.
  assert (Hfile : forall pm fm fetched s0,
            Fetch.fetch_xml lib pm fm fetched (Fetch.mock_or_request_content net lib cfg) s0 =
            Fetch.fetch_xml lib pm fm fetched (file_content lib path) s0).
  { intros pm fm fetched s0. unfold Fetch.fetch_xml, Fetch.mock_or_request_content.
    rewrite Hmock. reflexivity. }
  assert (H : forall pm fm fetched s0,
            count_gets (trace (snd (Fetch.fetch_xml lib pm fm fetched
                                      (Fetch.mock_or_request_content net lib cfg) s0)))
            = count_gets (trace s0)).
  { intros pm fm fetched s0. rewrite Hfile. unfold Fetch.fetch_xml, file_content.
    destruct (Fetch.read_file lib path) as [text | e]; [| reflexivity].
    cbn [lift]. destruct (Fetch.fromstring lib text); cbn [snd]; [| reflexivity].
    unfold log. rewrite count_gets_emit. lia. }
  split; [apply crawl_gets; intros s0; apply H|].
  split; [apply crawl_gets; intros s0; apply H|].
  intros Hsrc. split.
  - eapply (xml_crawl (Fetch.OFACCrawler net lib cfg) "ofac-");
      [intros s0; apply Hfile | apply ofac_parse_well_named | reflexivity | exact Hsrc].
  - eapply (xml_crawl (Fetch.UNSanctionsCrawler net lib cfg) "un-");
      [intros s0; apply Hfile | apply un_parse_well_named | reflexivity | exact Hsrc].
Qed.

Lemma request_content_exhausted (st : crawler_state) (s : Session) :
  session st = Some s ->
  (forall i, (i < 3)%nat ->
     transient (session_get net (count_gets (trace st) + i) (Models.base_url cfg))) ->
  exists (e : exn) st',
    Fetch.request_content net cfg st = (Raise (RetryError e), st') /\
    attempt_outcome (Models.base_url cfg)
      (session_get net (count_gets (trace st) + 2) (Models.base_url cfg)) = Raise e /\
    count_gets (trace st') = (count_gets (trace st) + 3)%nat.
Proof.
  intros Hs T.
  destruct (make_request_exhausted net cfg _ st s Hs T) as (e & st' & H & A & C).
  exists e, st'. unfold Fetch.request_content. rewrite H. auto.
Qed.

Lemma failed_crawl_of_fetch {Raw : Type} (self : Crawler Raw) (now : float) (msg : string) :
  config self = cfg ->
  client_session net 0 = None ->
  (forall i, (i < 3)%nat -> transient (session_get net i (Models.base_url cfg))) ->
  (forall st (e : exn) st',
     Fetch.request_content net cfg st = (Raise (RetryError e), st') ->
     _fetch_data self st = (Raise (Exn CrawlerError (msg ++ str (RetryError e))), st')) ->
  exists e : exn,
    attempt_outcome (Models.base_url cfg) (session_get net 2 (Models.base_url cfg)) = Raise e /\
    failed_crawl net self now (Exn CrawlerError (msg ++ str (RetryError e))) 3.
Proof.
  intros Hcfg Hopen T Hfetch.
  destruct (fresh_session net self now Hopen) as (s & st1 & He & Hs & Hg).
  destruct (request_content_exhausted st1 s Hs) as (e & st2 & Hr & A & C).
  { rewrite Hg. exact T. }
  rewrite Hg in A, C. exists e. split; [exact A|].
  destruct (crawl_fetch_failed net self (init now) st1 st2 _ He (Hfetch _ _ _ Hr))
    as (r & st' & Hc & Hen & Her & Hcount).
  exists r, st'. rewrite Hcount, C. auto.
Qed.

(** A list that cannot be fetched: when the session opens and the
    first three requests each get a status of 400 or above or a client
    error, the crawl of a fresh EU or UK crawler makes exactly these
    three requests and returns a result with no entity and one error,
    the crawler's fetch failure around the [RetryError] of the third
    attempt.  The OFAC and the UN crawler do the same when no
    [mock_file] is set. *)
Theorem unreachable_list_gives_one_error (now : float)
    (Hopen : client_session net 0 = None)
    (Hdown : forall i, (i < 3)%nat -> transient (session_get net i (Models.base_url cfg))) :
  exists e : exn,
    attempt_outcome (Models.base_url cfg) (session_get net 2 (Models.base_url cfg)) = Raise e /\
    let cause := str (RetryError e) in
    failed_crawl net (Fetch.EUSanctionsCrawler net lib cfg) now
      (Exn CrawlerError ("Failed to fetch EU sanctions data: " ++ cause)) 3 /\
    failed_crawl net (Fetch.UKTreasuryCrawler net lib cfg) now
      (Exn CrawlerError ("Failed to fetch UK Treasury data: " ++ cause)) 3 /\
    (Fetch.mock_file cfg = None ->
     failed_crawl net (Fetch.OFACCrawler net lib cfg) now
       (Exn CrawlerError ("Failed to fetch OFAC data: " ++ cause)) 3 /\
     failed_crawl net (Fetch.UNSanctionsCrawler net lib cfg) now
       (Exn CrawlerError ("Failed to fetch UN sanctions data: " ++ cause)) 3).
Proof.
  assert (Hxml : forall pm fm fetched st (e : exn) st',
            Fetch.request_content net cfg st = (Raise (RetryError e), st') ->
            Fetch.fetch_xml lib pm fm fetched (Fetch.request_content net cfg) st =
              (Raise (Exn CrawlerError (fm ++ str (RetryError e))), st')).
  { intros pm fm fetched st e st' H. unfold Fetch.fetch_xml. rewrite H. reflexivity. }
  destruct (failed_crawl_of_fetch (Fetch.EUSanctionsCrawler net lib cfg) now
              "Failed to fetch EU sanctions data: " eq_refl Hopen Hdown)
    as (e & A & Heu); [intros; by apply Hxml|].
  exists e. split; [exact A|]. cbv zeta.
  assert (Hsame : forall {Raw : Type} (self : Crawler Raw) msg,
            config self = cfg ->
            (forall st (e : exn) st',
               Fetch.request_content net cfg st = (Raise (RetryError e), st') ->
               _fetch_data self st = (Raise (Exn CrawlerError (msg ++ str (RetryError e))), st')) ->
            failed_crawl net self now (Exn CrawlerError (msg ++ str (RetryError e))) 3).
  { intros Raw self msg Hcfg Hf.
    destruct (failed_crawl_of_fetch self now msg Hcfg Hopen Hdown Hf) as (e' & A' & H).
    rewrite A in A'. injection A' as <-. exact H. }
  split; [exact Heu|]. split.
  - apply Hsame; [reflexivity|]. intros st e0 st' H.
    cbn [_fetch_data Fetch.UKTreasuryCrawler Crawlers.UKTreasuryCrawler].
    unfold Fetch.UK_fetch_data. rewrite H. reflexivity.
  - intros Hmock. split; (apply Hsame; [reflexivity|]); intros st e0 st' H;
      cbn [_fetch_data Fetch.OFACCrawler Crawlers.OFACCrawler
           Fetch.UNSanctionsCrawler Crawlers.UNSanctionsCrawler];
      unfold Fetch.OFAC_fetch_data, Fetch.UN_fetch_data, Fetch.fetch_xml,
        Fetch.mock_or_request_content; rewrite Hmock, H; reflexivity.
Qed.

End Fetch.

Lemma xml_crawl_parses_the_root_alone_witness :
  let net := Samples.serving "<sdnList/>" in
  let self := Fetch.EUSanctionsCrawler net Samples.library EU.DEFAULT_CONFIG in
  Py.truthy (Models.config_source EU.DEFAULT_CONFIG) = true /\
  exists result st' e,
    crawl net self (init 0) = (Return result, st') /\
    _parse_entity self (ET.mkElement "sdnList" ∅ None []) = Return e /\
    Models.entities result = [e] /\ Models.errors result = [].
Proof.
  cbv zeta. split; [reflexivity|].
  destruct (xml_crawl_parses_the_root_alone (Samples.serving "<sdnList/>") Samples.library
              EU.DEFAULT_CONFIG (init 0) eq_refl) as ((result & st' & Hc & H) & _).
  vm_compute in H. destruct H as (e & Hp & He & Hr).
  exists result, st', e. split; [exact Hc|]. split; [exact Hp|]. split; [exact He | exact Hr].
Defined.

Lemma mock_file_crawl_makes_no_request_witness :
  let net := Tests.always 200 in
  let self := Fetch.OFACCrawler net Samples.library Samples.mock_config in
  Fetch.mock_file Samples.mock_config = Some "mock.xml" /\
  count_gets (trace (snd (crawl net self (init 0)))) = 0%nat /\
  exists result st' e,
    crawl net self (init 0) = (Return result, st') /\
    _parse_entity self (ET.mkElement "sdnList" ∅ None []) = Return e /\
    Models.entities result = [e] /\ Models.errors result = [].
Proof.
  cbv zeta. split; [reflexivity|].
  destruct (mock_file_crawl_makes_no_request (Tests.always 200) Samples.library
              Samples.mock_config "mock.xml" (init 0) eq_refl) as (Hg & _ & H).
  split; [exact Hg|].
  destruct (H eq_refl) as ((result & st' & Hc & H') & _).
  vm_compute in H'. destruct H' as (e & Hp & He & Hr).
  exists result, st', e. split; [exact Hc|]. split; [exact Hp|]. split; [exact He | exact Hr].
Defined.

Lemma unreachable_list_gives_one_error_witness :
  let net := Tests.always 503 in
  client_session net 0 = None /\
  exists e : exn,
    attempt_outcome (Models.base_url UK.DEFAULT_CONFIG)
      (session_get net 2 (Models.base_url UK.DEFAULT_CONFIG)) = Raise e /\
    failed_crawl net (Fetch.UKTreasuryCrawler net Samples.library UK.DEFAULT_CONFIG) 0
      (Exn CrawlerError ("Failed to fetch UK Treasury data: " ++ str (RetryError e))) 3.
Proof.
  cbv zeta. split; [reflexivity|].
  destruct (unreachable_list_gives_one_error (Tests.always 503) Samples.library
              UK.DEFAULT_CONFIG 0) as (e & A & _ & H & _).
  - reflexivity.
  - intros i _. cbn. lia.
  - exists e. split; [exact A | exact H].
Defined.

End RunProps.

Module RowProps.
Import Exceptions Base Obs Effects BaseProps ParserProps RunProps.

(** *** UK rows *)

Lemma get_strip_returns (row : UK.Row) (k : string) :
  returns (UK.get_strip row k) = true <-> row !! k <> Some None.
Proof.
  unfold UK.get_strip, UK.get_or_empty.
  destruct (row !! k) as [[s |] |]; cbn; split; congruence.
Qed.

Lemma determine_entity_type_returns (row : UK.Row) :
  returns (UK._determine_entity_type row) = true <-> row !! "GroupType" <> Some None.
Proof.
  unfold UK._determine_entity_type, UK.get_or_empty.
  destruct (row !! "GroupType") as [[s |] |]; cbn [returns];
    [| split; congruence |];
    (split; [congruence | intros _]);
    repeat match goal with
           | |- context [if ?b then _ else _] => destruct b
           | |- context [match ?x with _ => _ end] => destruct x
           end; reflexivity.
Qed.

Lemma uk_parse_returns (source : string) (row : UK.Row) :
  returns (UK._parse_entity source row) = true <->
  Forall (fun column => row !! column <> Some None) uk_required_columns.
Proof.
  unfold uk_required_columns. rewrite !Forall_cons, Forall_nil.
  rewrite <- determine_entity_type_returns, <- !get_strip_returns.
  unfold UK._parse_entity, try_except, obind.
  destruct (UK.get_strip row "GroupID"); cbn [returns]; [| intuition congruence].
  destruct (UK.get_strip row "Name1"); cbn [returns]; [| intuition congruence].
  destruct (UK.get_strip row "Name2"); cbn [returns]; [| intuition congruence].
  destruct (UK.get_strip row "Name3"); cbn [returns]; [| intuition congruence].
  destruct (UK.get_strip row "Name4"); cbn [returns]; [| intuition congruence].
  destruct (UK.get_strip row "Name5"); cbn [returns]; [| intuition congruence].
  destruct (UK.get_strip row "Name6"); cbn [returns]; [| intuition congruence].
  destruct (UK._determine_entity_type row); cbn [returns]; intuition congruence.
Qed.

Lemma uk_complete_spec (row : UK.Row) :
  uk_complete row = true <->
  Forall (fun column => row !! column <> Some None) uk_required_columns.
Proof.
  unfold uk_complete. rewrite forallb_forall, Forall_forall.
  split; intros H c Hc.
  - apply list_elem_of_In in Hc. specialize (H c Hc).
    destruct (row !! c) as [[s |] |]; congruence.
  - apply list_elem_of_In in Hc. specialize (H c Hc).
    destruct (row !! c) as [[s |] |]; congruence.
Qed.

(** A UK row is parsed into an entity exactly when none of the eight
    columns read by the body of [_parse_entity] (the id, the six names
    and the group type) is [None], as [csv.DictReader] leaves a column
    that a short row does not reach; a column that is absent altogether
    counts as empty, and [None] in any other column is absorbed by the
    helper that reads it.  A row that is not parsed raises a
    [DataValidationError]. *)
Theorem uk_row_parsed_iff_required_columns (source : string) (row : UK.Row) :
  (returns (UK._parse_entity source row) = true <->
   Forall (fun column => row !! column <> Some None) uk_required_columns) /\
  (forall e, UK._parse_entity source row = Raise e -> class_of e = DataValidationError).
Proof.
  split; [apply uk_parse_returns|].
  intros e. unfold UK._parse_entity, try_except.
  match goal with |- match ?m with _ => _ end = _ -> _ => destruct m end;
    intros H; [discriminate|]. injection H as <-. reflexivity.
Qed.

(** *** A crawl of the UK list *)

Lemma yielded_parse_steps {Raw : Type} (self : Crawler Raw) (m : string) (items : list Raw) :
  yielded (map (parse_step self m) items) = parsed self items.
Proof.
  induction items as [|x items IH]; [reflexivity|].
  cbn [map yielded parsed flat_map]. unfold parse_step at 1.
  destruct (_parse_entity self x); cbn [yielded app]; unfold parsed in IH; by rewrite IH.
Qed.

Lemma filter_all {A : Type} (f : A -> bool) (l : list A) :
  (forall x, In x l -> f x = true) -> List.filter f l = l.
Proof.
  induction l as [|a l IH]; intros H; [reflexivity|]. cbn.
  rewrite (H a) by (by left). rewrite IH; [reflexivity|]. intros x Hx. apply H. by right.
Qed.

Lemma filter_negb_all {A : Type} (f : A -> bool) (l : list A) :
  (forall x, In x l -> f x = true) -> List.filter (fun x => negb (f x)) l = [].
Proof.
  induction l as [|a l IH]; intros H; [reflexivity|]. cbn.
  rewrite (H a) by (by left). cbn. apply IH. intros x Hx. apply H. by right.
Qed.

Lemma uk_parsed_count (self : Crawler UK.Row) (source : string) (rows : list UK.Row) :
  (forall row, _parse_entity self row = UK._parse_entity source row) ->
  length (parsed self rows) = length (List.filter uk_complete rows).
Proof.
  intros Hself. induction rows as [|row rows IH]; [reflexivity|].
  cbn [parsed flat_map List.filter]. fold (parsed self rows).
  rewrite List.length_app, IH, Hself.
  pose proof (uk_parse_returns source row) as Hp.
  rewrite <- uk_complete_spec in Hp.
  destruct (UK._parse_entity source row); destruct (uk_complete row); cbn in *;
    try reflexivity; destruct Hp; intuition congruence.
Qed.

Lemma uk_parsed_valid (self : Crawler UK.Row) (rows : list UK.Row) (e : Models.SanctionEntity) :
  (forall row, _parse_entity self row =
               UK._parse_entity (Models.config_source (config self)) row) ->
  Py.truthy (Models.config_source (config self)) = true ->
  In e (parsed self rows) -> valid e = true.
Proof.
  intros Hself Hsrc Hin. unfold parsed in Hin. apply in_flat_map in Hin as (row & _ & Hin).
  rewrite Hself in Hin.
  destruct (UK._parse_entity _ row) as [e' |] eqn:Hp; [| destruct Hin].
  destruct Hin as [<- | []].
  destruct (uk_parse_well_named _ _ _ Hp) as [Hw Hs].
  destruct (well_named_valid "uk-" e' Hw) as (_ & _ & Hv).
  apply Hv. rewrite Hs. by apply PyProps.truthy_ne.
Qed.

Section UKCrawl.

Context (net : Transport) (lib : Fetch.Library) (cfg : Models.CrawlerConfig).

(** A crawl of the UK list, made with an open session and a source that
    is not empty, once the list has been fetched and read as rows:
    every row that is parsed is accepted, so the result holds one
    entity for each row whose required columns are all there, in the
    order of the rows, and no error at all; the rows that are not
    parsed are counted nowhere in the result. *)
Theorem uk_crawl_counts_complete_rows (st st2 : crawler_state) (s : Session)
    (rows : list UK.Row)
    (Hsrc : Py.truthy (Models.config_source cfg) = true)
    (Hs : session st = Some s)
    (Hfetch : Fetch.UK_fetch_data net lib cfg (log INFO "Starting crawl" st)
              = (Return (RawList rows), st2)) :
  let self := Fetch.UKTreasuryCrawler net lib cfg in
  exists result st',
    crawl net self st = (Return result, st') /\
    Models.entities result = parsed self rows /\
    Models.errors result = [] /\
    Models.total_entities result = Z.of_nat (length (List.filter uk_complete rows)) /\
    Models.error_count result = 0%Z.
Proof.
  cbv zeta. set (self := Fetch.UKTreasuryCrawler net lib cfg).
  assert (He : ensure_session net self (log INFO "Starting crawl" st)
               = (Return tt, log INFO "Starting crawl" st)).
  { unfold ensure_session. cbn [log emit session]. by rewrite Hs. }
  destruct (crawl_fetch_returned net self st _ st2 (RawList rows) He Hfetch)
    as (r & st' & Hc & Hen & Her & Ht & Hec & _).
  assert (Hvalid : forall e, In e (parsed self rows) -> valid e = true).
  { intros e. by apply uk_parsed_valid. }
  assert (Ha : accepted (_process_data self (RawList rows)) = parsed self rows).
  { unfold accepted, _process_data. rewrite yielded_parse_steps. by apply filter_all. }
  assert (Hr : rejected (_process_data self (RawList rows)) = []).
  { unfold rejected, _process_data. rewrite yielded_parse_steps.
    by rewrite filter_negb_all. }
  exists r, st'. rewrite Hen, Her, Ht, Hec, Ha, Hr.
  rewrite (uk_parsed_count self (Models.config_source cfg)) by reflexivity.
  split; [exact Hc|]. repeat split; reflexivity.
Qed.

End UKCrawl.

Lemma uk_crawl_counts_complete_rows_witness :
  let net := Tests.always 200 in
  let self := Fetch.UKTreasuryCrawler net Samples.library UK.DEFAULT_CONFIG in
  exists result st',
    crawl net self (Tests.opened net) = (Return result, st') /\
    Models.entities result =
      parsed self (Tests.uk_rows_before ++ Tests.uk_short_row "2" :: Tests.uk_rows_after) /\
    Models.errors result = [] /\
    Models.total_entities result = 2%Z /\
    Models.error_count result = 0%Z.
Proof.
  cbv zeta.
  eapply (uk_crawl_counts_complete_rows (Tests.always 200) Samples.library
            UK.DEFAULT_CONFIG (Tests.opened (Tests.always 200))).
  - reflexivity.
  - reflexivity.
  - vm_compute. reflexivity.
Defined.

End RowProps.

Module PipelineProps.
Import Processors Obs Effects ProcessorProps EnrichProps.

(** *** Strings *)

Lemma rstrip_idempotent (s : string) : Py.rstrip (Py.rstrip s) = Py.rstrip s.
Proof.
  induction s as [|c r IH]; [reflexivity|]. cbn [Py.rstrip].
  destruct (Py.isspace c && negb (Py.truthy (Py.rstrip r))) eqn:E; [reflexivity|].
  cbn [Py.rstrip]. rewrite IH, E. reflexivity.
Qed.

Lemma lstrip_head (s : string) :
  match Py.lstrip s with
  | EmptyString => True
  | String c _ => Py.isspace c = false
  end.
Proof.
  induction s as [|c r IH]; [exact I|]. cbn [Py.lstrip].
  destruct (Py.isspace c) eqn:E; [exact IH | exact E].
Qed.

Lemma strip_idempotent (s : string) : Py.strip (Py.strip s) = Py.strip s.
Proof.
  unfold Py.strip. pose proof (lstrip_head s) as H.
  destruct (Py.lstrip s) as [|c r]; [reflexivity|].
  cbn [Py.rstrip]. rewrite H. cbn [andb Py.lstrip]. rewrite H.
  change (Py.rstrip (String c (Py.rstrip r))) with
    (if Py.isspace c && negb (Py.truthy (Py.rstrip (Py.rstrip r)))
     then EmptyString else String c (Py.rstrip (Py.rstrip r))).
  rewrite H, rstrip_idempotent. reflexivity.
Qed.

(** No [':'] in [a] and none in [b]: the text before the first [':']
    of [a:x] and [b:y] is [a] and [b]. *)
Lemma colon_split (a b x y : string) :
  colon_free a -> colon_free b ->
  a ++ ":" ++ x = b ++ ":" ++ y -> a = b /\ x = y.
Proof.
  unfold colon_free. revert b.
  induction a as [|c a IH]; intros [|d b] Ha Hb H.
  - change (String ":" x = String ":" y) in H. injection H as ->. by split.
  - change (String ":" x = String d (b ++ ":" ++ y)) in H.
    injection H as <- _. destruct b; cbn in Hb; discriminate.
  - change (String c (a ++ ":" ++ x) = String ":" y) in H.
    injection H as -> _. destruct a; cbn in Ha; discriminate.
  - change (String c (a ++ ":" ++ x) = String d (b ++ ":" ++ y)) in H.
    injection H as -> H.
    assert (Ha' : Py.contains ":" a = false).
    { cbn in Ha. apply orb_false_iff in Ha. tauto. }
    assert (Hb' : Py.contains ":" b = false).
    { cbn in Hb. apply orb_false_iff in Hb. tauto. }
    destruct (IH b Ha' Hb' H) as [-> ->]. by split.
Qed.

(** *** Deduplication and enrichment *)

(** The key of [deduplicate_entities] stands for the pair of the source
    and the name without its letter case, as long as no source holds a
    [':']: two entities with sources free of it have the same key
    exactly when they have the same source and names that differ in
    letter case at most. *)
Theorem dedup_key_is_source_and_lowered_name (e1 e2 : Models.SanctionEntity)
    (H1 : colon_free (Models.source e1)) (H2 : colon_free (Models.source e2)) :
  key e1 = key e2 <->
  Models.source e1 = Models.source e2 /\
  Py.lower (Models.name e1) = Py.lower (Models.name e2).
Proof.
  unfold key. split.
  - by apply colon_split.
  - by intros [-> ->].
Qed.

Lemma dedup_key_is_source_and_lowered_name_witness :
  let e1 := Tests.entity_of "uk-1" "Jane Doe" "uk-treasury" in
  let e2 := Tests.entity_of "uk-9" "JANE DOE" "uk-treasury" in
  key e1 = key e2 <->
  Models.source e1 = Models.source e2 /\
  Py.lower (Models.name e1) = Py.lower (Models.name e2).
Proof.
  cbv zeta.
  apply (dedup_key_is_source_and_lowered_name
           (Tests.entity_of "uk-1" "Jane Doe" "uk-treasury")
           (Tests.entity_of "uk-9" "JANE DOE" "uk-treasury")); reflexivity.
Defined.

Lemma enrich_key (e : Models.SanctionEntity) : key (enrich_entity e) = key e.
Proof.
  unfold enrich_entity, key.
  destruct (nonempty (Models.sanctions_programs e)); reflexivity.
Qed.

Lemma dedup_loop_map (f : Models.SanctionEntity -> Models.SanctionEntity)
    (es : list Models.SanctionEntity) :
  (forall e, key (f e) = key e) ->
  forall seen seen' : gmap string Models.SanctionEntity,
    (forall k, seen' !! k = None <-> seen !! k = None) ->
    dedup_loop (map f es) seen' [] = map f (dedup_loop es seen []).
Proof.
  intros Hkey. induction es as [|e es IH]; intros seen seen' Hdom; [reflexivity|].
  cbn [map]. rewrite !dedup_loop_cons, Hkey.
  pose proof (Hdom (key e)) as Hk.
  destruct (seen !! key e) eqn:E, (seen' !! key e) eqn:E'.
  - by apply IH.
  - destruct Hk as [Hk _]. by specialize (Hk eq_refl).
  - destruct Hk as [_ Hk]. by specialize (Hk eq_refl).
  - cbn [map]. f_equal. apply IH. intros k.
    destruct (decide (key e = k)) as [<- | Hne].
    + rewrite !lookup_insert_eq. split; discriminate.
    + rewrite !lookup_insert_ne by done. apply Hdom.
Qed.

(** Enrichment and deduplication can be run in either order:
    enrichment changes neither the source nor the name of an entity, so
    the same entities are dropped, and those that stay are enriched the
    same way.  Enriching twice is enriching once. *)
Theorem deduplicate_and_enrich_commute (xs : list Models.SanctionEntity) :
  deduplicate_entities (enrich_entities xs) = enrich_entities (deduplicate_entities xs) /\
  map key (enrich_entities xs) = map key xs /\
  enrich_entities (enrich_entities xs) = enrich_entities xs.
Proof.
  unfold deduplicate_entities, enrich_entities. split; [| split].
  - by apply dedup_loop_map; [apply enrich_key|].
  - rewrite map_map. apply map_ext. apply enrich_key.
  - rewrite map_map. apply map_ext. apply enrich_entity_idempotent.
Qed.

(** *** Normalization *)

Lemma normalize_entity_idempotent (a : Normalizer.Annotated) :
  Normalizer.normalize_entity (Normalizer.normalize_entity a) =
  Normalizer.normalize_entity a.
Proof.
  destruct a as [e ad].
  destruct e as [id name alt et src sid stat progs reasons addrs idents dates nat cit occ pos refs dqs].
  unfold Normalizer.normalize_entity, Normalizer.set_names.
  cbn [Normalizer.entity Normalizer.additional_data
       Models.name Models.alternative_names Models.entity_type Models.id Models.source
       Models.source_id Models.sanction_status Models.sanctions_programs
       Models.sanctions_reasons Models.addresses Models.identifiers Models.dates
       Models.nationality Models.citizenship Models.occupation Models.position
       Models.references Models.data_quality_score].
  rewrite lookup_insert_eq, !insert_insert_eq, strip_idempotent, map_map.
  rewrite (map_ext (fun x => Py.strip (Py.strip x)) Py.strip strip_idempotent).
  reflexivity.
Qed.

(** [normalize_entities] trims the name and every alternative name and
    touches nothing else of the entity: the list keeps its length and
    its order, and every other field of every entity is what it was,
    the id, the source, the type, the status, the programs, the
    reasons, the addresses, the identifiers, the dates, the personal
    details, the references and the score.  In [additional_data] the
    lower-cased type is written under [normalized], next to what that
    mapping held, and every other key is left alone.  The key under
    which deduplication files an entity afterwards is made of the
    trimmed name; and normalizing a second time changes nothing, the
    [additional_data] included. *)
Theorem normalize_entities_trims_names_once (xs : list Normalizer.Annotated) :
  let ys := Normalizer.normalize_entities xs in
  Normalizer.normalize_entities ys = ys /\
  length ys = length xs /\
  (forall i a, xs !! i = Some a ->
     exists b,
       ys !! i = Some b /\
       Models.name (Normalizer.entity b) = Py.strip (Models.name (Normalizer.entity a)) /\
       Models.alternative_names (Normalizer.entity b)
         = map Py.strip (Models.alternative_names (Normalizer.entity a)) /\
       Models.id (Normalizer.entity b) = Models.id (Normalizer.entity a) /\
       Models.source (Normalizer.entity b) = Models.source (Normalizer.entity a) /\
       Models.entity_type (Normalizer.entity b) = Models.entity_type (Normalizer.entity a) /\
       key (Normalizer.entity b) = normalized_key (Normalizer.entity a) /\
       Py.strip (Models.name (Normalizer.entity b)) = Models.name (Normalizer.entity b) /\
       Normalizer.entity b =
         {| Models.id := Models.id (Normalizer.entity a);
            Models.name := Py.strip (Models.name (Normalizer.entity a));
            Models.alternative_names :=
              map Py.strip (Models.alternative_names (Normalizer.entity a));
            Models.entity_type := Models.entity_type (Normalizer.entity a);
            Models.source := Models.source (Normalizer.entity a);
            Models.source_id := Models.source_id (Normalizer.entity a);
            Models.sanction_status := Models.sanction_status (Normalizer.entity a);
            Models.sanctions_programs := Models.sanctions_programs (Normalizer.entity a);
            Models.sanctions_reasons := Models.sanctions_reasons (Normalizer.entity a);
            Models.addresses := Models.addresses (Normalizer.entity a);
            Models.identifiers := Models.identifiers (Normalizer.entity a);
            Models.dates := Models.dates (Normalizer.entity a);
            Models.nationality := Models.nationality (Normalizer.entity a);
            Models.citizenship := Models.citizenship (Normalizer.entity a);
            Models.occupation := Models.occupation (Normalizer.entity a);
            Models.position := Models.position (Normalizer.entity a);
            Models.references := Models.references (Normalizer.entity a);
            Models.data_quality_score := Models.data_quality_score (Normalizer.entity a) |} /\
       (forall k, k <> "normalized" ->
          Normalizer.additional_data b !! k = Normalizer.additional_data a !! k) /\
       Normalizer.additional_data b !! "normalized" =
         Some (<["entity_type" :=
                   Py.lower (Normalizer.str_entity_type
                               (Models.entity_type (Normalizer.entity a)))]>
                 (default ∅ (Normalizer.additional_data a !! "normalized")))).
Proof.
  cbv zeta. unfold Normalizer.normalize_entities. split; [| split].
  - rewrite map_map. apply map_ext. apply normalize_entity_idempotent.
  - apply length_map.
  - intros i a Hi. exists (Normalizer.normalize_entity a).
    split; [by rewrite list_lookup_fmap, Hi|].
    unfold Normalizer.normalize_entity, Normalizer.set_names, key, normalized_key.
    cbn [Normalizer.entity Normalizer.additional_data Models.name
         Models.alternative_names Models.id Models.source Models.entity_type].
    do 6 (split; [reflexivity|]). split; [apply strip_idempotent|].
    split; [reflexivity|]. split.
    + intros k Hk. by rewrite lookup_insert_ne.
    + rewrite lookup_insert_eq. by destruct (Normalizer.additional_data a !! "normalized").
Qed.

End PipelineProps.

Module CliProps.
Import Exceptions Base Obs Effects Cli CrawlProps.

(** What every result of [crawl] has, whatever happened. *)
Lemma crawl_result_fields (net : Transport) {R : Type} (self : Crawler R)
    (st : crawler_state) :
  exists result st',
    crawl net self st = (Return result, st') /\
    Models.result_source result = Models.config_source (config self) /\
    Models.total_entities result = Z.of_nat (length (Models.entities result)) /\
    Models.error_count result = Z.of_nat (length (Models.errors result)).
Proof.
  unfold crawl.
  destruct (crawl_try net self (log INFO "Starting crawl" st)) as [[[entities errors] exc] st1].
  destruct exc; eexists _, _; (split; [reflexivity|]); cbn; auto.
Qed.

(** *** Dictionaries *)

Lemma keys_dict_set {V : Type} (k : string) (v : V) (d : list (string * V)) (s : string) :
  In s (keys (dict_set k v d)) <-> s = k \/ In s (keys d).
Proof.
  unfold keys. induction d as [|[k' v'] d IH]; cbn.
  - intuition.
  - destruct (String.eqb_spec k k') as [-> | Hne]; cbn; [intuition|].
    rewrite IH. intuition.
Qed.

Lemma dict_get_dict_set {V : Type} (k : string) (v : V) (d : list (string * V))
    (s : string) :
  dict_get s (dict_set k v d) = if String.eqb s k then Some v else dict_get s d.
Proof.
  induction d as [|[k' v'] d IH]; cbn.
  - reflexivity.
  - destruct (String.eqb_spec k k') as [-> | Hne]; cbn.
    + destruct (String.eqb s k'); reflexivity.
    + rewrite IH. destruct (String.eqb_spec s k') as [-> | Hs]; [| reflexivity].
      destruct (String.eqb_spec k' k) as [-> | Hk]; [contradiction | reflexivity].
Qed.

Lemma dict_get_keys {V : Type} (d : list (string * V)) (s : string) :
  In s (keys d) <-> dict_get s d <> None.
Proof.
  unfold keys. induction d as [|[k v] d IH]; cbn; [intuition|].
  destruct (String.eqb_spec s k) as [-> | Hne]; [intuition congruence|].
  rewrite <- IH. intuition congruence.
Qed.

Lemma dict_get_in {V : Type} (d : list (string * V)) (s : string) (v : V) :
  dict_get s d = Some v -> In (s, v) d.
Proof.
  induction d as [|[k v'] d IH]; cbn; [discriminate|].
  destruct (String.eqb_spec s k) as [-> | Hne]; intros H.
  - injection H as ->. by left.
  - right. auto.
Qed.

Lemma Forall_dict_set {V : Type} (P : string * V -> Prop) (k : string) (v : V)
    (d : list (string * V)) :
  P (k, v) -> List.Forall P d -> List.Forall P (dict_set k v d).
Proof.
  intros Hk. induction 1 as [|[k' v'] d Hx Hd IH]; cbn.
  - by constructor.
  - destruct (String.eqb k k'); constructor; auto.
Qed.

Section Cli.

Context (nets : string -> Transport) (lib : Fetch.Library).

(** The registry maps each name to the class whose source it is. *)
Lemma registry_entry (s : string) (class : CrawlerClass) (cfg : Models.CrawlerConfig) :
  dict_get s (CRAWLERS nets lib) = Some class ->
  Models.config_source (DEFAULT_CONFIG class) = s /\
  transport (construct class cfg) = nets s /\
  config (instance (construct class cfg)) = cfg.
Proof.
  unfold CRAWLERS. cbn [dict_get].
  repeat match goal with
         | |- context [String.eqb s ?k] =>
             destruct (String.eqb_spec s k) as [-> | ?];
             [intros H; injection H as <-; by repeat split|]
         end.
  discriminate.
Qed.

Lemma run_source_spec (s : string) (class : CrawlerClass) (rate_limit : float) (timeout : Z)
    (results : list (string * Models.CrawlResult)) (now : float) :
  dict_get s (CRAWLERS nets lib) = Some class ->
  (client_session (nets s) 0 = None ->
   exists r, fst (run_source s class rate_limit timeout results now) = dict_set s r results /\
             well_formed (s, r)) /\
  (client_session (nets s) 0 <> None ->
   fst (run_source s class rate_limit timeout results now) = results).
Proof.
  intros Hclass. unfold run_source.
  set (cfg := user_config (DEFAULT_CONFIG class) rate_limit timeout).
  destruct (registry_entry s class cfg Hclass) as (Hsrc & Hnet & Hcfg).
  rewrite Hnet. unfold async_with, __aenter__, _create_session.
  cbn [init trace count_created List.filter length].
  destruct (client_session (nets s) 0) as [e |].
  - split; [discriminate | reflexivity].
  - split; [intros _ | congruence].
    match goal with |- context [crawl (nets s) ?c ?st0] =>
      destruct (crawl_result_fields (nets s) c st0) as (r & st' & -> & Hr & Ht & He)
    end.
    exists r. split; [reflexivity|]. unfold well_formed. cbn [fst snd].
    rewrite Hr, Hcfg. subst cfg. cbn [user_config Models.config_source]. auto.
Qed.

Lemma run_sources_spec (rate_limit : float) (timeout : Z) (sources : list string) :
  forall results now,
    List.Forall (fun s => In s (keys (CRAWLERS nets lib))) sources ->
    List.Forall well_formed results ->
    exists results',
      run_sources nets lib sources rate_limit timeout results now = Return results' /\
      List.Forall well_formed results' /\
      forall s, In s (keys results') <->
                In s (keys results) \/ (In s sources /\ client_session (nets s) 0 = None).
Proof.
  induction sources as [|s sources IH]; intros results now Hreg Hwf.
  - exists results. split; [reflexivity|]. split; [exact Hwf|]. cbn. intuition.
  - inversion Hreg as [|? ? Hs Hreg']; subst.
    cbn [run_sources]. apply dict_get_keys in Hs.
    destruct (dict_get s (CRAWLERS nets lib)) as [class |] eqn:Hclass; [| congruence].
    destruct (run_source_spec s class rate_limit timeout results now Hclass) as [Hopen Hshut].
    destruct (run_source s class rate_limit timeout results now) as [results1 st].
    cbn [fst] in *.
    destruct (client_session (nets s) 0) as [e |] eqn:Hc.
    + rewrite Hshut by discriminate.
      destruct (IH results (clock st) Hreg' Hwf) as (results' & -> & Hwf' & Hkeys).
      exists results'. split; [reflexivity|]. split; [exact Hwf'|].
      intros s'. rewrite Hkeys. cbn [In]. split.
      * intros [H | [H1 H2]]; auto.
      * intros [H | [[<- | H1] H2]]; auto. congruence.
    + destruct (Hopen eq_refl) as (r & -> & Hr).
      destruct (IH (dict_set s r results) (clock st) Hreg'
                  (Forall_dict_set well_formed s r results Hr Hwf))
        as (results' & -> & Hwf' & Hkeys).
      exists results'. split; [reflexivity|]. split; [exact Hwf'|].
      intros s'. rewrite Hkeys, keys_dict_set. cbn [In]. split.
      * intros [[-> | H] | [H1 H2]]; auto.
      * intros [H | [[<- | H1] H2]]; auto.
Qed.

(** [_run_crawl] on names of the registry returns a dictionary that
    has an entry for exactly those of the sources whose session could
    be opened: whatever else goes wrong for a source ends up inside its
    result, and a source whose session cannot be opened is left out
    without a word in the dictionary.  Every entry is filed under the
    source its result names, with counts that agree with its lists.  A
    name outside the registry makes [_run_crawl] raise. *)
Theorem run_crawl_reports_sources_that_open (sources : list string)
    (rate_limit : float) (timeout : Z) (now : float) :
  (List.Forall (fun s => In s (keys (CRAWLERS nets lib))) sources ->
   exists results,
     _run_crawl nets lib sources rate_limit timeout now = Return results /\
     (forall s, In s (keys results) <->
                In s sources /\ client_session (nets s) 0 = None) /\
     (forall s r, dict_get s results = Some r -> well_formed (s, r))) /\
  (~ List.Forall (fun s => In s (keys (CRAWLERS nets lib))) sources ->
   returns (_run_crawl nets lib sources rate_limit timeout now) = false).
Proof.
  unfold _run_crawl. split.
  - intros Hreg.
    destruct (run_sources_spec rate_limit timeout sources [] now Hreg (List.Forall_nil _))
      as (results & Hrun & Hwf & Hkeys).
    exists results. split; [exact Hrun|]. split.
    + intros s. rewrite Hkeys. cbn. intuition.
    + intros s r Hget. apply dict_get_in in Hget.
      rewrite List.Forall_forall in Hwf. by apply Hwf in Hget.
  - generalize (@nil (string * Models.CrawlResult)) as results. revert now.
    induction sources as [|s sources IH]; intros now results Hbad.
    + destruct Hbad. constructor.
    + cbn [run_sources].
      destruct (dict_get s (CRAWLERS nets lib)) as [class |] eqn:Hclass; [| reflexivity].
      destruct (run_source s class rate_limit timeout results now) as [results1 st].
      apply IH. intros Hrest. apply Hbad. constructor; [| exact Hrest].
      apply dict_get_keys. congruence.
Qed.

Lemma run_sources_well_formed (rate_limit : float) (timeout : Z) (sources : list string) :
  forall results now results',
    run_sources nets lib sources rate_limit timeout results now = Return results' ->
    List.Forall well_formed results -> List.Forall well_formed results'.
Proof.
  induction sources as [|s sources IH]; intros results now results' Hrun Hwf.
  - cbn in Hrun. by injection Hrun as <-.
  - cbn [run_sources] in Hrun.
    destruct (dict_get s (CRAWLERS nets lib)) as [class |] eqn:Hclass; [| discriminate].
    destruct (run_source_spec s class rate_limit timeout results now Hclass) as [Hopen Hshut].
    destruct (run_source s class rate_limit timeout results now) as [results1 st].
    cbn [fst] in *. apply (IH _ _ _ Hrun).
    destruct (client_session (nets s) 0) as [e |].
    + rewrite Hshut by discriminate. exact Hwf.
    + destruct (Hopen eq_refl) as (r & -> & Hr). by apply Forall_dict_set.
Qed.

Lemma health_rows_spec (names : list string) :
  match health_rows nets lib names with
  | Return rows =>
      map (fun row => fst (fst (fst row))) rows = names /\
      List.Forall (fun row =>
                let '(source_name, ready, base_url, rate_limit) := row in
                ready = false /\
                exists class,
                  dict_get source_name (CRAWLERS nets lib) = Some class /\
                  base_url = Models.base_url (DEFAULT_CONFIG class) /\
                  rate_limit = Models.rate_limit_seconds (DEFAULT_CONFIG class))
        rows
  | Raise _ => exists s, In s names /\ ~ In s (keys (CRAWLERS nets lib))
  end.
Proof.
  induction names as [|s names IH]; cbn [health_rows].
  - split; [reflexivity | constructor].
  - destruct (dict_get s (CRAWLERS nets lib)) as [class |] eqn:Hclass.
    + destruct (health_rows nets lib names) as [rows | e].
      * destruct IH as [Hnames Hrows]. cbn [map fst health_row]. split; [by rewrite Hnames|].
        constructor; [| exact Hrows]. unfold health_row. split; [reflexivity|].
        exists class. by repeat split.
      * destruct IH as (s' & Hin & Hout). exists s'. split; [by right | exact Hout].
    + exists s. split; [by left|]. rewrite dict_get_keys. congruence.
Qed.

(** The [health] command never reports a crawler as ready: it asks a
    crawler it has just built, which has no session yet.  For a source
    of the registry, or for ['all'], it lists the sources asked for, in
    order, each not ready, with the base URL and the rate limit of the
    default configuration of its class; for any other name it raises. *)
Theorem health_never_reports_ready (source : string) :
  match health nets lib source with
  | Return rows =>
      map (fun row => fst (fst (fst row))) rows
        = (if String.eqb source "all" then keys (CRAWLERS nets lib) else [source]) /\
      List.Forall (fun row =>
                let '(source_name, ready, base_url, rate_limit) := row in
                ready = false /\
                exists class,
                  dict_get source_name (CRAWLERS nets lib) = Some class /\
                  base_url = Models.base_url (DEFAULT_CONFIG class) /\
                  rate_limit = Models.rate_limit_seconds (DEFAULT_CONFIG class))
        rows
  | Raise _ => source <> "all" /\ ~ In source (keys (CRAWLERS nets lib))
  end.
Proof.
  unfold health.
  pose proof (health_rows_spec
                (if String.eqb source "all" then keys (CRAWLERS nets lib) else [source])) as H.
  destruct (health_rows nets lib _) as [rows | e]; [exact H|].
  destruct H as (s & Hin & Hout).
  destruct (String.eqb_spec source "all") as [-> | Hne]; [contradiction|].
  destruct Hin as [<- | []]. by split.
Qed.

End Cli.

(** *** The summary and the exports *)

Lemma display_totals (results : list (string * Models.CrawlResult)) :
  List.Forall well_formed results ->
  forall a b,
    fold_left (fun '(total_entities, total_errors) '(_, result) =>
                 ((total_entities + Models.total_entities result)%Z,
                  (total_errors + Models.error_count result)%Z))
      results (a, b) =
    ((a + Z.of_nat (length (flat_map (fun '(_, result) => Models.entities result) results)))%Z,
     (b + Z.of_nat (length (flat_map (fun '(_, result) => Models.errors result) results)))%Z).
Proof.
  induction 1 as [|[s r] results (_ & Ht & He) _ IH]; intros a b; cbn [fold_left flat_map].
  - f_equal; cbn; lia.
  - rewrite IH. cbn [snd] in Ht, He. rewrite Ht, He, !List.length_app. f_equal; lia.
Qed.

Lemma csv_records_length (results : list (string * Models.CrawlResult)) :
  length (flat_map (fun '(source_name, result) =>
                      map (csv_record source_name) (Models.entities result)) results) =
  length (flat_map (fun '(_, result) => Models.entities result) results).
Proof.
  induction results as [|[s r] results IH]; [reflexivity|].
  cbn [flat_map]. by rewrite !List.length_app, length_map, IH.
Qed.

Lemma no_error_rows (results : list (string * Models.CrawlResult)) :
  List.Forall well_formed results ->
  length (flat_map (fun '(_, result) => Models.errors result) results) = 0%nat <->
  List.Forall (fun row => row_success row = true) (map summary_row results).
Proof.
  induction 1 as [|[s r] results (_ & _ & He) _ IH]; cbn [flat_map map].
  - split; [constructor | reflexivity].
  - rewrite List.length_app, List.Forall_cons_iff, <- IH.
    cbn [summary_row row_success]. cbn [snd] in He. rewrite He, Z.eqb_eq. lia.
Qed.

(** What the [crawl] command shows and what it saves agree.  For the
    results of [_run_crawl], the TOTAL of the summary table is the
    number of entities of the JSON export, which is the number it
    states as [total_entities], and the number of records of the CSV
    export; the sources of the export are those of the table, in its
    order; the total of the errors is zero exactly when every row says
    success; and a format other than the two writes nothing. *)
Theorem summary_and_exports_agree (nets : string -> Transport) (lib : Fetch.Library)
    (sources : list string) (rate_limit : float) (timeout : Z) (now : float)
    (results : list (string * Models.CrawlResult))
    (Hrun : _run_crawl nets lib sources rate_limit timeout now = Return results) :
  let rows := fst (fst (_display_results results)) in
  let total_entities := snd (fst (_display_results results)) in
  let total_errors := snd (_display_results results) in
  map row_source rows = keys results /\
  (exists entities,
     _save_results results "json" = Json total_entities (keys results) entities /\
     Z.of_nat (length entities) = total_entities) /\
  (exists records,
     _save_results results "csv" = Csv records /\
     Z.of_nat (length records) = total_entities) /\
  (total_errors = 0%Z <-> List.Forall (fun row => row_success row = true) rows) /\
  (forall format, format <> "json" -> format <> "csv" ->
                  _save_results results format = Nothing).
Proof.
  assert (Hwf : List.Forall well_formed results).
  { eapply run_sources_well_formed; [exact Hrun | constructor]. }
  cbv zeta. unfold _display_results. rewrite (display_totals results Hwf).
  cbn [fst snd]. rewrite !Z.add_0_l.
  split; [| split; [| split; [| split]]].
  - unfold keys. rewrite map_map. apply map_ext. by intros [s r].
  - eexists. split; reflexivity.
  - eexists. split; [reflexivity|]. by rewrite csv_records_length.
  - rewrite <- (no_error_rows results Hwf). lia.
  - intros format Hj Hc. unfold _save_results.
    destruct (String.eqb_spec format "json"); [contradiction|].
    destruct (String.eqb_spec format "csv"); [contradiction | reflexivity].
Qed.

Lemma summary_and_exports_agree_witness :
  let nets := fun _ : string => Tests.always 200 in
  exists results,
    _run_crawl nets Samples.library ["uk-treasury"; "ofac"] 2 60 0 = Return results /\
    keys results = ["uk-treasury"; "ofac"] /\
    snd (fst (_display_results results)) = 2%Z /\
    exists records,
      _save_results results "csv" = Csv records /\
      Z.of_nat (length records) = snd (fst (_display_results results)).
Proof.
  cbv zeta.
  destruct (_run_crawl (fun _ : string => Tests.always 200) Samples.library
              ["uk-treasury"; "ofac"] 2 60 0) as [results | e] eqn:Hrun;
    [| vm_compute in Hrun; discriminate].
  exists results. split; [reflexivity|].
  pose proof (summary_and_exports_agree _ _ _ _ _ _ results Hrun) as H.
  cbv zeta in H. destruct H as (_ & _ & Hcsv & _).
  vm_compute in Hrun. injection Hrun as <-.
  split; [reflexivity|]. split; [vm_compute; reflexivity | exact Hcsv].
Defined.

End CliProps.

Module DateFormatProps.
Import Exceptions Strptime DateText.

Local Open Scope Z_scope.

(** *** Digits and numbers *)

Lemma in_range (lo hi a : Z) : lo <= a <= hi -> In a (range lo hi).
Proof.
  intros H. unfold range. apply in_map_iff. exists (Z.to_nat (a - lo)).
  split; [lia | apply in_seq; lia].
Qed.

(** The cases of a number between two bounds. *)
Ltac enumerate H :=
  apply in_range in H; cbv in H;
  repeat (destruct H as [<- | H]); [.. | destruct H].

Lemma digit_digit_char (d : Z) : 0 <= d <= 9 -> digit (digit_char d) = Some d.
Proof. intros H. enumerate H; reflexivity. Qed.

Lemma isspace_digit_char (d : Z) : 0 <= d <= 9 -> Py.isspace (digit_char d) = false.
Proof. intros H. enumerate H; reflexivity. Qed.

Lemma pad4_app (y : Z) (rest : string) :
  (pad4 y ++ rest)%string =
  String (digit_char (y / 1000))
    (String (digit_char (y / 100 mod 10))
       (String (digit_char (y / 10 mod 10))
          (String (digit_char (y mod 10)) rest))).
Proof. reflexivity. Qed.

Lemma pad2_app (n : Z) (rest : string) :
  (pad2 n ++ rest)%string =
  String (digit_char (n / 10)) (String (digit_char (n mod 10)) rest).
Proof. reflexivity. Qed.

Lemma slashed_eq (a b y : Z) :
  slashed a b y =
  (pad2 a ++ String "/" (pad2 b ++ String "/" (pad4 y ++ "")))%string.
Proof. reflexivity. Qed.

Lemma days_in_month_le (y m : Z) : days_in_month y m <= 31.
Proof.
  unfold days_in_month.
  repeat match goal with |- context [if ?c then _ else _] => destruct c end; lia.
Qed.

(** *** The directives on a padded number *)

Lemma alts_Y_pad4 (y : Z) (rest : string) :
  0 <= y <= 9999 -> alts_Y (pad4 y ++ rest) = [(y, rest)].
Proof.
  intros H. rewrite pad4_app. unfold alts_Y.
  rewrite !digit_digit_char by (Z.div_mod_to_equations; lia).
  do 3 f_equal. Z.div_mod_to_equations. lia.
Qed.

Lemma alts_d_pad2 (a : Z) (rest : string) :
  1 <= a <= 31 -> hd_error (alts_d (pad2 a ++ rest)) = Some (a, rest).
Proof. intros H. enumerate H; reflexivity. Qed.

Lemma alts_m_pad2 (b : Z) (rest : string) :
  1 <= b <= 12 -> hd_error (alts_m (pad2 b ++ rest)) = Some (b, rest).
Proof. intros H. enumerate H; reflexivity. Qed.

Lemma first_some_head {A B : Type} (f : A -> option B) (l : list A) (x : A) (y : B) :
  hd_error l = Some x -> f x = Some y -> first_some f l = Some y.
Proof.
  destruct l as [|a l]; [discriminate|]. cbn. intros H. injection H as ->.
  by intros ->.
Qed.

(** *** The format with slashes *)

Lemma match_number_slash_number_slash_year (first second : directive) (a b y : Z)
    (f : fields) (set1 set2 : fields -> Z -> fields)
    (alts1 alts2 : string -> list (Z * string)) :
  0 <= y <= 9999 ->
  (forall rest, hd_error (alts1 (pad2 a ++ rest)) = Some (a, rest)) ->
  (forall rest, hd_error (alts2 (pad2 b ++ rest)) = Some (b, rest)) ->
  (forall ds s g,
     match_prefix (first :: ds) s g =
     first_some (fun '(v, r) => match_prefix ds r (set1 g v)) (alts1 s)) ->
  (forall ds s g,
     match_prefix (second :: ds) s g =
     first_some (fun '(v, r) => match_prefix ds r (set2 g v)) (alts2 s)) ->
  match_prefix [first; Dlit "/"; second; Dlit "/"; DY] (slashed a b y) f =
  Some ({| f_year := y; f_month := f_month (set2 (set1 f a) b);
           f_day := f_day (set2 (set1 f a) b) |}, EmptyString).
Proof.
  intros Hy H1 H2 E1 E2. rewrite slashed_eq, E1.
  erewrite first_some_head; [reflexivity | apply H1 |]. cbv beta iota.
  change (match_prefix (Dlit "/" :: ?ds) (String "/" ?s) ?g) with (match_prefix ds s g).
  rewrite E2.
  erewrite first_some_head; [reflexivity | apply H2 |]. cbv beta iota.
  change (match_prefix (Dlit "/" :: ?ds) (String "/" ?s) ?g) with (match_prefix ds s g).
  cbn [match_prefix]. rewrite alts_Y_pad4 by exact Hy. reflexivity.
Qed.

Lemma strptime_day_first (a b y : Z) :
  1 <= y <= 9999 -> 1 <= b <= 12 -> 1 <= a <= days_in_month y b ->
  strptime (slashed a b y) "%d/%m/%Y" = Return (Datetime.mk_datetime y b a).
Proof.
  intros Hy Hb Ha. pose proof (days_in_month_le y b) as Hle. unfold strptime.
  change (compile "%d/%m/%Y") with (Some [Dd; Dlit "/"; Dm; Dlit "/"; DY]).
  cbv beta iota.
  rewrite (match_number_slash_number_slash_year Dd Dm a b y defaults
             (fun g v => {| f_year := f_year g; f_month := f_month g; f_day := v |})
             (fun g v => {| f_year := f_year g; f_month := v; f_day := f_day g |})
             alts_d alts_m);
    [| lia | intros; apply alts_d_pad2; lia | intros; by apply alts_m_pad2
     | reflexivity | reflexivity].
  cbn [f_year f_month f_day defaults].
  rewrite !(proj2 (Z.leb_le _ _)) by lia. reflexivity.
Qed.

Lemma strptime_month_first (a b y : Z) :
  1 <= y <= 9999 -> 1 <= a <= 12 -> 1 <= b <= days_in_month y a ->
  strptime (slashed a b y) "%m/%d/%Y" = Return (Datetime.mk_datetime y a b).
Proof.
  intros Hy Ha Hb. pose proof (days_in_month_le y a) as Hle. unfold strptime.
  change (compile "%m/%d/%Y") with (Some [Dm; Dlit "/"; Dd; Dlit "/"; DY]).
  cbv beta iota.
  rewrite (match_number_slash_number_slash_year Dm Dd a b y defaults
             (fun g v => {| f_year := f_year g; f_month := v; f_day := f_day g |})
             (fun g v => {| f_year := f_year g; f_month := f_month g; f_day := v |})
             alts_m alts_d);
    [| lia | intros; by apply alts_m_pad2 | intros; apply alts_d_pad2; lia
     | reflexivity | reflexivity].
  cbn [f_year f_month f_day defaults].
  rewrite !(proj2 (Z.leb_le _ _)) by lia. reflexivity.
Qed.

(** *** The formats that do not fit *)

(** No format without slashes fits a text that starts with two numbers
    and slashes, whatever follows them. *)
Lemma other_formats_reject (rest : string) :
  forallb (fun a =>
    forallb (fun b =>
      forallb (rejects (pad2 a ++ "/" ++ pad2 b ++ "/" ++ rest))
        ["%Y-%m-%d"; "%d.%m.%Y"; "%d-%m-%Y"; "%d %b %Y"; "%b %Y"; "%Y"])
      (range 1 31))
    (range 1 31) = true.
Proof. vm_compute. reflexivity. Qed.

(** The format with the day first does not fit when the second number
    is no month. *)
Lemma day_first_rejects (rest : string) :
  forallb (fun a =>
    forallb (fun b => rejects (pad2 a ++ "/" ++ pad2 b ++ "/" ++ rest) "%d/%m/%Y")
      (range 13 31))
    (range 1 31) = true.
Proof. vm_compute. reflexivity. Qed.

Lemma rejects_other (a b y : Z) (fmt : string) :
  1 <= a <= 31 -> 1 <= b <= 31 ->
  In fmt ["%Y-%m-%d"; "%d.%m.%Y"; "%d-%m-%Y"; "%d %b %Y"; "%b %Y"; "%Y"]%string ->
  rejects (slashed a b y) fmt = true.
Proof.
  intros Ha Hb Hf. pose proof (other_formats_reject (pad4 y)) as H.
  rewrite forallb_forall in H. specialize (H a (in_range _ _ _ Ha)).
  rewrite forallb_forall in H. specialize (H b (in_range _ _ _ Hb)).
  rewrite forallb_forall in H. exact (H fmt Hf).
Qed.

Lemma rejects_day_first (a b y : Z) :
  1 <= a <= 31 -> 13 <= b <= 31 -> rejects (slashed a b y) "%d/%m/%Y" = true.
Proof.
  intros Ha Hb. pose proof (day_first_rejects (pad4 y)) as H.
  rewrite forallb_forall in H. specialize (H a (in_range _ _ _ Ha)).
  rewrite forallb_forall in H. exact (H b (in_range _ _ _ Hb)).
Qed.

Lemma try_formats_rejected (s fmt : string) (rest : list string) :
  rejects s fmt = true -> try_formats s (fmt :: rest) = try_formats s rest.
Proof.
  unfold rejects. cbn [try_formats]. destruct (strptime s fmt) as [d | e]; [discriminate|].
  by intros ->.
Qed.

Lemma try_formats_accepted (s fmt : string) (rest : list string) (d : Datetime.datetime) :
  strptime s fmt = Return d -> try_formats s (fmt :: rest) = Some d.
Proof. cbn [try_formats]. by intros ->. Qed.

(** *** Trimming and the UK placeholder *)

Lemma lstrip_no_space (s : string) : Py.any_char Py.isspace s = false -> Py.lstrip s = s.
Proof.
  destruct s as [|c r]; [reflexivity|]. cbn [Py.any_char Py.lstrip].
  intros H. apply orb_false_iff in H as [-> _]. reflexivity.
Qed.

Lemma rstrip_no_space (s : string) : Py.any_char Py.isspace s = false -> Py.rstrip s = s.
Proof.
  induction s as [|c r IH]; [reflexivity|]. cbn [Py.any_char Py.rstrip].
  intros H. apply orb_false_iff in H as [-> Hr]. by rewrite IH.
Qed.

Lemma strip_no_space (s : string) : Py.any_char Py.isspace s = false -> Py.strip s = s.
Proof.
  intros H. unfold Py.strip. rewrite lstrip_no_space by exact H. by apply rstrip_no_space.
Qed.

Lemma slashed_no_space (a b y : Z) :
  0 <= a <= 99 -> 0 <= b <= 99 -> 0 <= y <= 9999 ->
  Py.any_char Py.isspace (slashed a b y) = false.
Proof.
  intros Ha Hb Hy. rewrite slashed_eq, !pad2_app, pad4_app. cbn [Py.any_char].
  rewrite !isspace_digit_char by (Z.div_mod_to_equations; lia). reflexivity.
Qed.

Lemma strip_slashed (a b y : Z) :
  0 <= a <= 99 -> 0 <= b <= 99 -> 0 <= y <= 9999 ->
  Py.strip (slashed a b y) = slashed a b y.
Proof. intros. by apply strip_no_space, slashed_no_space. Qed.

Lemma prefix_short (p s : string) :
  (String.length s < String.length p)%nat -> String.prefix p s = false.
Proof.
  revert p. induction s as [|c s IH]; intros [|d p] H; cbn in *; try lia; try reflexivity.
  destruct (ascii_dec d c); [apply IH; lia | reflexivity].
Qed.

Lemma replace_short (old new s : string) :
  (String.length s < String.length old)%nat -> Py.replace_from old new 0 s = s.
Proof.
  induction s as [|c s IH]; intros H; [reflexivity|].
  cbn [Py.replace_from]. rewrite prefix_short by exact H.
  rewrite IH; [reflexivity | cbn in H; lia].
Qed.

(** The placeholder of the UK list is looked for in a text whose two
    numbers are not both zero in vain. *)
Lemma replace_slashed_head (a b : Z) (rest : string) :
  0 <= a <= 31 -> 1 <= b <= 31 ->
  Py.replace "00/00/" "01/01/" (pad2 a ++ "/" ++ pad2 b ++ "/" ++ rest) =
  (pad2 a ++ "/" ++ pad2 b ++ "/" ++ Py.replace "00/00/" "01/01/" rest)%string.
Proof. intros Ha Hb. enumerate Ha; enumerate Hb; reflexivity. Qed.

Lemma replace_slashed (a b y : Z) :
  0 <= a <= 31 -> 1 <= b <= 31 ->
  Py.replace "00/00/" "01/01/" (slashed a b y) = slashed a b y.
Proof.
  intros Ha Hb. unfold slashed. rewrite replace_slashed_head by assumption.
  unfold Py.replace. rewrite replace_short; [reflexivity | cbn; lia].
Qed.

(** *** Dates with slashes *)

Ltac next_format :=
  first [ rewrite try_formats_rejected by (first [apply rejects_other; [lia | lia | cbn; tauto]
                                                 | apply rejects_day_first; lia])
        | erewrite try_formats_accepted; [reflexivity|] ].

(** A date written as two numbers and a year with slashes, whose second
    number can be a month, is read with the day first by the EU, the
    OFAC and the UK parser: [dd/mm/yyyy], also when the first number
    could be a month as well.  The UN parser has no format with slashes
    and reads no such date. *)
Theorem slashed_date_is_read_day_first (a b y : Z)
    (Hy : 1 <= y <= 9999) (Hb : 1 <= b <= 12) (Ha : 1 <= a <= days_in_month y b) :
  EU._parse_date (slashed a b y) = Some (Datetime.mk_datetime y b a) /\
  OFAC._parse_date (slashed a b y) = Some (Datetime.mk_datetime y b a) /\
  UK._parse_date (slashed a b y) = Some (Datetime.mk_datetime y b a) /\
  UN._parse_date (slashed a b y) = None.
Proof.
  pose proof (days_in_month_le y b) as Hle.
  pose proof (strptime_day_first a b y Hy Hb Ha) as Hfit.
  unfold EU._parse_date, OFAC._parse_date, UK._parse_date, UN._parse_date.
  change (Py.truthy (slashed a b y)) with true. cbn [negb]. cbv zeta.
  rewrite strip_slashed, replace_slashed by lia.
  split; [| split; [| split]].
  - do 1 next_format. erewrite try_formats_accepted; [reflexivity | exact Hfit].
  - do 2 next_format. erewrite try_formats_accepted; [reflexivity | exact Hfit].
  - erewrite try_formats_accepted; [reflexivity | exact Hfit].
  - do 3 next_format. reflexivity.
Qed.

Lemma slashed_date_is_read_day_first_witness :
  EU._parse_date "03/04/2020" = Some (Datetime.mk_datetime 2020 4 3) /\
  OFAC._parse_date "03/04/2020" = Some (Datetime.mk_datetime 2020 4 3) /\
  UK._parse_date "03/04/2020" = Some (Datetime.mk_datetime 2020 4 3) /\
  UN._parse_date "03/04/2020" = None.
Proof.
  apply (slashed_date_is_read_day_first 3 4 2020); [lia | lia | vm_compute; split; discriminate].
Defined.

(** The OFAC parser reads a date with the month first only when the
    day-first reading is impossible: [mm/dd/yyyy] with a second number
    above 12.  The EU and the UK parser read no such date. *)
Theorem month_first_date_is_a_fallback (a b y : Z)
    (Hy : 1 <= y <= 9999) (Ha : 1 <= a <= 12) (Hb : 13 <= b <= days_in_month y a) :
  OFAC._parse_date (slashed a b y) = Some (Datetime.mk_datetime y a b) /\
  EU._parse_date (slashed a b y) = None /\
  UK._parse_date (slashed a b y) = None.
Proof.
  pose proof (days_in_month_le y a) as Hle.
  assert (Hfit : strptime (slashed a b y) "%m/%d/%Y" = Return (Datetime.mk_datetime y a b))
    by (apply strptime_month_first; lia).
  unfold EU._parse_date, OFAC._parse_date, UK._parse_date.
  change (Py.truthy (slashed a b y)) with true. cbn [negb]. cbv zeta.
  rewrite strip_slashed, replace_slashed by lia.
  split; [| split].
  - do 3 next_format. erewrite try_formats_accepted; [reflexivity | exact Hfit].
  - do 4 next_format. reflexivity.
  - do 6 next_format. reflexivity.
Qed.

Lemma month_first_date_is_a_fallback_witness :
  OFAC._parse_date "04/25/2020" = Some (Datetime.mk_datetime 2020 4 25) /\
  EU._parse_date "04/25/2020" = None /\
  UK._parse_date "04/25/2020" = None.
Proof.
  apply (month_first_date_is_a_fallback 4 25 2020); [lia | lia | vm_compute; split; discriminate].
Defined.

(** *** A year alone *)

Lemma strptime_year (y : Z) :
  1 <= y <= 9999 -> strptime (pad4 y) "%Y" = Return (Datetime.mk_datetime y 1 1).
Proof.
  intros Hy. unfold strptime. change (compile "%Y") with (Some [DY]). cbv beta iota.
  cbn [match_prefix]. change (pad4 y) with (pad4 y ++ "")%string.
  rewrite alts_Y_pad4 by lia. cbn [first_some match_prefix f_year f_month f_day defaults].
  rewrite (proj2 (Z.leb_le 1 y)) by lia. reflexivity.
Qed.

Lemma year_rejects_iso (y : Z) : 0 <= y <= 9999 -> rejects (pad4 y) "%Y-%m-%d" = true.
Proof.
  intros Hy. unfold rejects, strptime.
  change (compile "%Y-%m-%d") with (Some [DY; Dlit "-"; Dm; Dlit "-"; Dd]). cbv beta iota.
  cbn [match_prefix]. change (pad4 y) with (pad4 y ++ "")%string.
  rewrite alts_Y_pad4 by lia. reflexivity.
Qed.

(** No format that starts with a day or a month fits a text that starts
    with three digits. *)
Lemma three_digits_reject (rest : string) :
  forallb (fun d1 =>
    forallb (fun d2 =>
      forallb (fun d3 =>
        forallb (rejects (String (digit_char d1)
                            (String (digit_char d2) (String (digit_char d3) rest))))
          ["%d/%m/%Y"; "%d.%m.%Y"; "%d-%m-%Y"; "%m/%d/%Y"; "%d %b %Y"; "%b %Y"])
        (range 0 9))
      (range 0 9))
    (range 0 9) = true.
Proof. vm_compute. reflexivity. Qed.

Lemma year_prefix_rejects (y : Z) (rest fmt : string) :
  0 <= y <= 9999 ->
  In fmt ["%d/%m/%Y"; "%d.%m.%Y"; "%d-%m-%Y"; "%m/%d/%Y"; "%d %b %Y"; "%b %Y"]%string ->
  rejects (pad4 y ++ rest) fmt = true.
Proof.
  intros Hy Hf.
  assert (H1 : 0 <= y / 1000 <= 9) by (Z.div_mod_to_equations; lia).
  assert (H2 : 0 <= y / 100 mod 10 <= 9) by (Z.div_mod_to_equations; lia).
  assert (H3 : 0 <= y / 10 mod 10 <= 9) by (Z.div_mod_to_equations; lia).
  pose proof (three_digits_reject (String (digit_char (y mod 10)) rest)) as H.
  rewrite forallb_forall in H. specialize (H _ (in_range _ _ _ H1)).
  rewrite forallb_forall in H. specialize (H _ (in_range _ _ _ H2)).
  rewrite forallb_forall in H. specialize (H _ (in_range _ _ _ H3)).
  rewrite forallb_forall in H. exact (H fmt Hf).
Qed.

Lemma year_rejects (y : Z) (fmt : string) :
  0 <= y <= 9999 ->
  In fmt ["%d/%m/%Y"; "%d.%m.%Y"; "%d-%m-%Y"; "%m/%d/%Y"; "%d %b %Y"; "%b %Y"]%string ->
  rejects (pad4 y) fmt = true.
Proof. intros Hy Hf. exact (year_prefix_rejects y "" fmt Hy Hf). Qed.

Lemma pad4_no_space (y : Z) : 0 <= y <= 9999 -> Py.any_char Py.isspace (pad4 y) = false.
Proof.
  intros Hy. unfold pad4. cbn [Py.any_char].
  rewrite !isspace_digit_char by (Z.div_mod_to_equations; lia). reflexivity.
Qed.

Ltac next_year_format :=
  rewrite try_formats_rejected
    by (first [apply year_rejects_iso; lia | apply year_rejects; [lia | cbn; tauto]]).

(** A year alone, any year of the calendar, written with four digits,
    is read by each of the four parsers as the first of January of that
    year: no other format of any list fits four digits. *)
Theorem year_alone_is_first_of_january (y : Z) (Hy : 1 <= y <= 9999) :
  EU._parse_date (pad4 y) = Some (Datetime.mk_datetime y 1 1) /\
  OFAC._parse_date (pad4 y) = Some (Datetime.mk_datetime y 1 1) /\
  UN._parse_date (pad4 y) = Some (Datetime.mk_datetime y 1 1) /\
  UK._parse_date (pad4 y) = Some (Datetime.mk_datetime y 1 1).
Proof.
  pose proof (strptime_year y Hy) as Hfit.
  unfold EU._parse_date, OFAC._parse_date, UK._parse_date, UN._parse_date.
  change (Py.truthy (pad4 y)) with true. cbn [negb]. cbv zeta.
  rewrite (strip_no_space (pad4 y)) by (apply pad4_no_space; lia).
  unfold Py.replace. rewrite replace_short by (cbn; lia).
  split; [| split; [| split]].
  - do 3 next_year_format. by erewrite try_formats_accepted.
  - do 4 next_year_format. by erewrite try_formats_accepted.
  - do 2 next_year_format. by erewrite try_formats_accepted.
  - do 5 next_year_format. by erewrite try_formats_accepted.
Qed.

Lemma year_alone_is_first_of_january_witness :
  EU._parse_date "1987" = Some (Datetime.mk_datetime 1987 1 1) /\
  OFAC._parse_date "1987" = Some (Datetime.mk_datetime 1987 1 1) /\
  UN._parse_date "1987" = Some (Datetime.mk_datetime 1987 1 1) /\
  UK._parse_date "1987" = Some (Datetime.mk_datetime 1987 1 1).
Proof. apply (year_alone_is_first_of_january 1987). lia. Defined.

(** *** The placeholder of the UK list *)

Lemma placeholder_replaced (y : Z) :
  Py.replace "00/00/" "01/01/" ("00/00/" ++ pad4 y) = slashed 1 1 y.
Proof.
  unfold Py.replace.
  change (Py.replace_from "00/00/" "01/01/" 0 ("00/00/" ++ pad4 y))
    with ("01/01/" ++ Py.replace_from "00/00/" "01/01/" 0 (pad4 y))%string.
  rewrite replace_short by (cbn; lia). reflexivity.
Qed.

(** No format of the UK list fits a date whose day is [00]. *)
Lemma day_zero_rejects (rest : string) :
  forallb (fun b =>
    forallb (rejects ("00/" ++ pad2 b ++ "/" ++ rest))
      ["%d/%m/%Y"; "%d-%m-%Y"; "%Y-%m-%d"; "%d %b %Y"; "%b %Y"; "%Y"])
    (range 1 12) = true.
Proof. vm_compute. reflexivity. Qed.

(** The UK parser reads the placeholder [00/00/yyyy] of a date of which
    only the year is known as the first of January of that year.  A
    date with a known month and the day [00] is not read at all. *)
Theorem uk_placeholder_is_first_of_january (y : Z) (Hy : 1 <= y <= 9999) :
  UK._parse_date ("00/00/" ++ pad4 y) = Some (Datetime.mk_datetime y 1 1) /\
  forall b, 1 <= b <= 12 -> UK._parse_date (slashed 0 b y) = None.
Proof.
  split.
  - unfold UK._parse_date. change (Py.truthy ("00/00/" ++ pad4 y)) with true.
    cbn [negb]. cbv zeta.
    rewrite (strip_no_space ("00/00/" ++ pad4 y)).
    + rewrite placeholder_replaced. erewrite try_formats_accepted; [reflexivity|].
      apply strptime_day_first; [lia | lia | vm_compute; split; discriminate].
    + change ("00/00/" ++ pad4 y)%string with (slashed 0 0 y).
      apply slashed_no_space; lia.
  - intros b Hb. unfold UK._parse_date. change (Py.truthy (slashed 0 b y)) with true.
    cbn [negb]. cbv zeta. rewrite strip_slashed, replace_slashed by lia.
    pose proof (day_zero_rejects (pad4 y)) as H.
    rewrite forallb_forall in H. specialize (H b (in_range _ _ _ Hb)).
    rewrite forallb_forall in H.
    change ("00/" ++ pad2 b ++ "/" ++ pad4 y)%string with (slashed 0 b y) in H.
    do 6 (rewrite try_formats_rejected by (apply H; cbn; tauto)). reflexivity.
Qed.

Lemma uk_placeholder_is_first_of_january_witness :
  UK._parse_date "00/00/1960" = Some (Datetime.mk_datetime 1960 1 1) /\
  forall b, 1 <= b <= 12 -> UK._parse_date (slashed 0 b 1960) = None.
Proof. apply (uk_placeholder_is_first_of_january 1960). lia. Defined.

(** *** ISO dates *)

Lemma iso_eq (y m d : Z) :
  iso y m d = (pad4 y ++ String "-" (pad2 m ++ String "-" (pad2 d ++ "")))%string.
Proof. reflexivity. Qed.

Lemma strptime_iso (y m d : Z) :
  1 <= y <= 9999 -> 1 <= m <= 12 -> 1 <= d <= days_in_month y m ->
  strptime (iso y m d) "%Y-%m-%d" = Return (Datetime.mk_datetime y m d).
Proof.
  intros Hy Hm Hd. pose proof (days_in_month_le y m) as Hle. unfold strptime.
  change (compile "%Y-%m-%d") with (Some [DY; Dlit "-"; Dm; Dlit "-"; Dd]).
  cbv beta iota. rewrite iso_eq.
  assert (Hmatch :
    match_prefix [DY; Dlit "-"; Dm; Dlit "-"; Dd]
      (pad4 y ++ String "-" (pad2 m ++ String "-" (pad2 d ++ ""))) defaults =
    Some ({| f_year := y; f_month := m; f_day := d |}, EmptyString)).
  { change (match_prefix (DY :: ?ds) ?s ?g)
      with (first_some (fun '(v, r) =>
              match_prefix ds r {| f_year := v; f_month := f_month g; f_day := f_day g |})
              (alts_Y s)).
    rewrite alts_Y_pad4 by lia. cbn [first_some].
    change (match_prefix (Dlit "-" :: ?ds) (String "-" ?s) ?g) with (match_prefix ds s g).
    change (match_prefix (Dm :: ?ds) ?s ?g)
      with (first_some (fun '(v, r) =>
              match_prefix ds r {| f_year := f_year g; f_month := v; f_day := f_day g |})
              (alts_m s)).
    erewrite first_some_head; [reflexivity | by apply alts_m_pad2 |]. cbv beta iota.
    change (match_prefix (Dlit "-" :: ?ds) (String "-" ?s) ?g) with (match_prefix ds s g).
    change (match_prefix (Dd :: ?ds) ?s ?g)
      with (first_some (fun '(v, r) =>
              match_prefix ds r {| f_year := f_year g; f_month := f_month g; f_day := v |})
              (alts_d s)).
    erewrite first_some_head; [reflexivity | apply alts_d_pad2; lia |]. reflexivity. }
  rewrite Hmatch. cbn [f_year f_month f_day].
  rewrite !(proj2 (Z.leb_le _ _)) by lia. reflexivity.
Qed.

Lemma slash_digit_char (d : Z) : 0 <= d <= 9 -> Ascii.eqb "/" (digit_char d) = false.
Proof. intros H. enumerate H; reflexivity. Qed.

Lemma iso_no_space (y m d : Z) :
  0 <= y <= 9999 -> 0 <= m <= 99 -> 0 <= d <= 99 ->
  Py.any_char Py.isspace (iso y m d) = false.
Proof.
  intros Hy Hm Hd. rewrite iso_eq, !pad2_app, pad4_app. cbn [Py.any_char].
  rewrite !isspace_digit_char by (Z.div_mod_to_equations; lia). reflexivity.
Qed.

Lemma iso_no_slash (y m d : Z) :
  0 <= y <= 9999 -> 0 <= m <= 99 -> 0 <= d <= 99 ->
  Py.any_char (Ascii.eqb "/") (iso y m d) = false.
Proof.
  intros Hy Hm Hd. rewrite iso_eq, !pad2_app, pad4_app. cbn [Py.any_char].
  rewrite !slash_digit_char by (Z.div_mod_to_equations; lia). reflexivity.
Qed.

Lemma placeholder_needs_slash (s : string) :
  String.prefix "00/00/" s = true -> Py.any_char (Ascii.eqb "/") s = true.
Proof.
  destruct s as [|c1 [|c2 [|c3 r]]]; cbn [String.prefix]; try discriminate.
  - destruct (ascii_dec "0" c1); discriminate.
  - destruct (ascii_dec "0" c1); [| discriminate].
    destruct (ascii_dec "0" c2); discriminate.
  - destruct (ascii_dec "0" c1); [| discriminate].
    destruct (ascii_dec "0" c2); [| discriminate].
    destruct (ascii_dec "/" c3) as [<- |]; [| discriminate].
    intros _. cbn [Py.any_char]. by rewrite !orb_true_r.
Qed.

Lemma replace_no_slash (new s : string) :
  Py.any_char (Ascii.eqb "/") s = false -> Py.replace "00/00/" new s = s.
Proof.
  unfold Py.replace. induction s as [|c r IH]; intros H; [reflexivity|].
  cbn [Py.replace_from].
  destruct (String.prefix "00/00/" (String c r)) eqn:E.
  - apply placeholder_needs_slash in E. congruence.
  - rewrite IH; [reflexivity|]. cbn [Py.any_char] in H.
    apply orb_false_iff in H. tauto.
Qed.

(** A date written as ISO 8601 writes it, [yyyy-mm-dd], is read as that
    day by each of the four parsers: the formats that the OFAC and the
    UK parser try before the ISO format do not fit it. *)
Theorem iso_date_is_read_by_every_parser (y m d : Z)
    (Hy : 1 <= y <= 9999) (Hm : 1 <= m <= 12) (Hd : 1 <= d <= days_in_month y m) :
  EU._parse_date (iso y m d) = Some (Datetime.mk_datetime y m d) /\
  OFAC._parse_date (iso y m d) = Some (Datetime.mk_datetime y m d) /\
  UN._parse_date (iso y m d) = Some (Datetime.mk_datetime y m d) /\
  UK._parse_date (iso y m d) = Some (Datetime.mk_datetime y m d).
Proof.
  pose proof (days_in_month_le y m) as Hle.
  pose proof (strptime_iso y m d Hy Hm Hd) as Hfit.
  assert (Hrej : forall fmt,
            In fmt ["%d/%m/%Y"; "%d.%m.%Y"; "%d-%m-%Y"; "%m/%d/%Y"; "%d %b %Y"; "%b %Y"]%string ->
            rejects (iso y m d) fmt = true).
  { intros fmt Hf. apply (year_prefix_rejects y _ fmt); [lia | exact Hf]. }
  unfold EU._parse_date, OFAC._parse_date, UK._parse_date, UN._parse_date.
  change (Py.truthy (iso y m d)) with true. cbn [negb]. cbv zeta.
  rewrite (strip_no_space (iso y m d)) by (apply iso_no_space; lia).
  rewrite (replace_no_slash _ (iso y m d)) by (apply iso_no_slash; lia).
  split; [| split; [| split]].
  - by erewrite try_formats_accepted.
  - rewrite try_formats_rejected by (apply Hrej; cbn; tauto).
    by erewrite try_formats_accepted.
  - by erewrite try_formats_accepted.
  - do 2 (rewrite try_formats_rejected by (apply Hrej; cbn; tauto)).
    by erewrite try_formats_accepted.
Qed.

Lemma iso_date_is_read_by_every_parser_witness :
  EU._parse_date "1975-02-28" = Some (Datetime.mk_datetime 1975 2 28) /\
  OFAC._parse_date "1975-02-28" = Some (Datetime.mk_datetime 1975 2 28) /\
  UN._parse_date "1975-02-28" = Some (Datetime.mk_datetime 1975 2 28) /\
  UK._parse_date "1975-02-28" = Some (Datetime.mk_datetime 1975 2 28).
Proof.
  apply (iso_date_is_read_by_every_parser 1975 2 28);
    [lia | lia | vm_compute; split; discriminate].
Defined.

End DateFormatProps.

Module NameProps.
Import Exceptions Obs Effects ParserProps.

(** *** Names listed once *)

Lemma in_list_false (x : string) (l : list string) :
  Py.in_list x l = false -> ~ In x l.
Proof.
  unfold Py.in_list. intros H Hin.
  assert (Ht : existsb (String.eqb x) l = true).
  { apply existsb_exists. exists x. split; [exact Hin | apply String.eqb_refl]. }
  congruence.
Qed.

Lemma NoDup_snoc (x : string) (l : list string) :
  List.NoDup l -> ~ In x l -> List.NoDup (l ++ [x]).
Proof.
  intros Hl Hx. apply List.NoDup_app; [exact Hl | repeat constructor; intros [] |].
  intros y Hy [<- | []]. contradiction.
Qed.

Lemma fold_left_NoDup {A : Type} (step : list string -> A -> list string) (l : list A) :
  (forall names x, List.NoDup names -> List.NoDup (step names x)) ->
  forall names, List.NoDup names -> List.NoDup (fold_left step l names).
Proof.
  intros Hstep. induction l as [|x l IH]; intros names Hn; [exact Hn|].
  cbn [fold_left]. apply IH. by apply Hstep.
Qed.

Lemma ofac_aliases_NoDup (el : ET.Element) : List.NoDup (OFAC._extract_aliases el).
Proof.
  unfold OFAC._extract_aliases. apply fold_left_NoDup; [| constructor].
  intros names x Hn. unfold OFAC.alias_step.
  destruct (OFAC._get_xml_text x "firstName") as [f |]; [| exact Hn].
  destruct (OFAC._get_xml_text x "lastName") as [l |]; [| exact Hn].
  destruct (Py.truthy f && Py.truthy l); [| exact Hn].
  destruct (Py.in_list _ names) eqn:E; [exact Hn|].
  apply NoDup_snoc; [exact Hn | by apply in_list_false].
Qed.

Lemma un_names_NoDup (el : ET.Element) : List.NoDup (UN.entity_names el).
Proof.
  assert (H : List.NoDup (UN._extract_names el)).
  { unfold UN._extract_names. apply fold_left_NoDup.
    - intros names x Hn. unfold UN.alias_step.
      destruct (UN.field_values x _); [exact Hn|].
      destruct (Py.truthy _); cbn [andb]; [| exact Hn].
      destruct (Py.in_list _ names) eqn:E; cbn [negb]; [exact Hn|].
      apply NoDup_snoc; [exact Hn | by apply in_list_false].
    - destruct (UN.field_values el _); [constructor|].
      destruct (Py.truthy _); repeat constructor; intros []. }
  unfold UN.entity_names. destruct (UN._extract_names el); [| exact H].
  cbn [List.filter]. destruct (Py.truthy _); repeat constructor. intros [].
Qed.

(** The name and the alternative names of an entity. *)
Lemma fold_left_names {A : Type} (f : Models.SanctionEntity -> A -> Models.SanctionEntity)
    (l : list A) :
  (forall e x, all_names (f e x) = all_names e) ->
  forall e, all_names (fold_left f l e) = all_names e.
Proof.
  intros Hf. induction l as [|x l IH]; intros e; [reflexivity|].
  cbn [fold_left]. rewrite IH. apply Hf.
Qed.

Lemma ofac_helpers_names (el : ET.Element) (e : Models.SanctionEntity) :
  all_names (OFAC._extract_personal_info el (OFAC._extract_sanctions_info el
         (OFAC._extract_dates el (OFAC._extract_identifiers el
            (OFAC._extract_addresses el e))))) = all_names e.
Proof.
  assert (H1 : forall e, all_names (OFAC._extract_addresses el e) = all_names e).
  { apply fold_left_names. unfold OFAC.address_step. keeps_core. }
  assert (H2 : forall e, all_names (OFAC._extract_identifiers el e) = all_names e).
  { apply fold_left_names. unfold OFAC.identifier_step. keeps_core. }
  assert (H3 : forall e, all_names (OFAC._extract_dates el e) = all_names e) by reflexivity.
  assert (H4 : forall e, all_names (OFAC._extract_sanctions_info el e) = all_names e).
  { apply fold_left_names. unfold OFAC.program_step. keeps_core. }
  assert (H5 : forall e, all_names (OFAC._extract_personal_info el e) = all_names e).
  { unfold OFAC._extract_personal_info. keeps_core. }
  by rewrite H5, H4, H3, H2, H1.
Qed.

Lemma un_helpers_names (el : ET.Element) (e : Models.SanctionEntity) :
  all_names (UN._extract_personal_info el (UN._extract_sanctions_info el
         (UN._extract_dates el (UN._extract_identifiers el
            (UN._extract_addresses el e))))) = all_names e.
Proof.
  assert (H1 : forall e, all_names (UN._extract_addresses el e) = all_names e).
  { apply fold_left_names. unfold UN.address_step. keeps_core. }
  assert (H2 : forall e, all_names (UN._extract_identifiers el e) = all_names e).
  { apply fold_left_names. unfold UN.identifier_step. keeps_core. }
  assert (H3 : forall e, all_names (UN._extract_dates el e) = all_names e).
  { unfold UN._extract_dates. keeps_core. }
  assert (H4 : forall e, all_names (UN._extract_sanctions_info el e) = all_names e).
  { unfold UN._extract_sanctions_info. keeps_core. }
  assert (H5 : forall e, all_names (UN._extract_personal_info el e) = all_names e).
  { unfold UN._extract_personal_info. keeps_core. }
  by rewrite H5, H4, H3, H2, H1.
Qed.

(** An entity of the UN list carries each of its names once: no
    alternative name repeats the primary name or another alternative
    name.  An entity of the OFAC list carries each alias once; the
    primary name is not compared with them. *)
Theorem names_are_listed_once (source : string) (el : ET.Element)
    (e : Models.SanctionEntity) :
  (UN._parse_entity source el = Return e ->
   List.NoDup (Models.name e :: Models.alternative_names e)) /\
  (OFAC._parse_entity source el = Return e ->
   List.NoDup (Models.alternative_names e)).
Proof.
  split.
  - unfold UN._parse_entity. cbv zeta. intros H. injection H as <-.
    pose proof (un_helpers_names el) as Hc.
    match goal with |- context [UN._extract_addresses el ?b] =>
      specialize (Hc b); set (base := b) in * end.
    unfold all_names in Hc. injection Hc as -> ->. subst base.
    cbn [Models.new_entity Models.name Models.alternative_names].
    pose proof (un_names_NoDup el) as Hn.
    destruct (UN.entity_names el); [repeat constructor; intros [] | exact Hn].
  - unfold OFAC._parse_entity. cbv zeta. intros H. injection H as <-.
    pose proof (ofac_helpers_names el) as Hc.
    match goal with |- context [OFAC._extract_addresses el ?b] =>
      specialize (Hc b); set (base := b) in * end.
    unfold all_names in Hc. injection Hc as _ ->. subst base.
    cbn [Models.new_entity Models.alternative_names].
    apply ofac_aliases_NoDup.
Qed.

End NameProps.

Module DetailProps.
Import Exceptions Obs Effects Util.

(** *** What a UK row can carry *)

(** Every branch of a helper ends in field updates that add a bounded
    number of items. *)
Ltac bounded :=
  intros; unfold grows_by, sizes;
  repeat (cbv beta;
    match goal with
    | |- context [match ?x with _ => _ end] =>
        lazymatch x with
        | context [match _ with _ => _ end] => fail
        | _ => destruct x
        end
    end);
  cbn; rewrite ?List.length_app; cbn; lia.

Lemma grows_by_trans (a i p r a' i' p' r' : nat) (e1 e2 e3 : Models.SanctionEntity) :
  grows_by a i p r e1 e2 -> grows_by a' i' p' r' e2 e3 ->
  grows_by (a + a') (i + i') (p + p') (r + r') e1 e3.
Proof. unfold grows_by, sizes. lia. Qed.

Lemma uk_addresses_grow (row : UK.Row) (e : Models.SanctionEntity) :
  grows_by 1 0 0 0 e (UK._extract_addresses row e).
Proof. unfold UK._extract_addresses, UK.guarded, obind. bounded. Qed.

Lemma uk_identifiers_grow (row : UK.Row) (e : Models.SanctionEntity) :
  grows_by 0 2 0 0 e (UK._extract_identifiers row e).
Proof. unfold UK._extract_identifiers, UK.guarded, obind. bounded. Qed.

Lemma uk_dates_grow (row : UK.Row) (e : Models.SanctionEntity) :
  grows_by 0 0 0 0 e (UK._extract_dates row e).
Proof. unfold UK._extract_dates, UK.guarded, obind. bounded. Qed.

Lemma uk_sanctions_grow (row : UK.Row) (e : Models.SanctionEntity) :
  grows_by 0 0 1 1 e (UK._extract_sanctions_info row e).
Proof. unfold UK._extract_sanctions_info, UK.guarded, obind. bounded. Qed.

Lemma uk_personal_grow (row : UK.Row) (e : Models.SanctionEntity) :
  grows_by 0 0 0 0 e (UK._extract_personal_info row e).
Proof. unfold UK._extract_personal_info, UK.guarded, obind. bounded. Qed.

(** A row of the UK list gives an entity with one address at most (the
    six address columns are joined into it), two identifiers at most
    (one passport and one national id), one program and one reference
    at most. *)
Theorem uk_entity_details_are_bounded (source : string) (row : UK.Row)
    (e : Models.SanctionEntity) :
  UK._parse_entity source row = Return e ->
  (length (Models.addresses e) <= 1)%nat /\
  (length (Models.identifiers e) <= 2)%nat /\
  (length (Models.sanctions_programs e) <= 1)%nat /\
  (length (Models.references e) <= 1)%nat.
Proof.
  unfold UK._parse_entity, try_except, obind.
  repeat match goal with
         | |- context [match UK.get_strip row ?k with _ => _ end] =>
             destruct (UK.get_strip row k); [| discriminate]
         end.
  destruct (UK._determine_entity_type row) as [t |]; [| discriminate].
  cbv zeta. intros H. injection H as <-.
  match goal with |- context [UK._extract_addresses row ?b] => set (base := b) end.
  pose proof (uk_addresses_grow row base) as H1.
  pose proof (uk_identifiers_grow row (UK._extract_addresses row base)) as H2.
  pose proof (uk_dates_grow row (UK._extract_identifiers row (UK._extract_addresses row base)))
    as H3.
  pose proof (grows_by_trans _ _ _ _ _ _ _ _ _ _ _ H1 H2) as H12.
  pose proof (grows_by_trans _ _ _ _ _ _ _ _ _ _ _ H12 H3) as H123.
  pose proof (grows_by_trans _ _ _ _ _ _ _ _ _ _ _ H123 (uk_sanctions_grow row _)) as H1234.
  pose proof (grows_by_trans _ _ _ _ _ _ _ _ _ _ _ H1234 (uk_personal_grow row _)) as H.
  unfold grows_by, sizes in H. subst base.
  cbn [Models.new_entity Models.addresses Models.identifiers Models.sanctions_programs
       Models.references length] in H.
  lia.
Qed.

Lemma uk_entity_details_are_bounded_witness :
  exists e,
    UK._parse_entity "uk-treasury" Samples.uk_full_row = Return e /\
    sizes e = (1, 2, 1, 1)%nat /\
    (length (Models.addresses e) <= 1)%nat /\
    (length (Models.identifiers e) <= 2)%nat /\
    (length (Models.sanctions_programs e) <= 1)%nat /\
    (length (Models.references e) <= 1)%nat.
Proof.
  destruct (UK._parse_entity "uk-treasury" Samples.uk_full_row) as [e | x] eqn:Hp;
    [| vm_compute in Hp; discriminate].
  exists e. split; [reflexivity|].
  split; [vm_compute in Hp; injection Hp as <-; reflexivity|].
  exact (uk_entity_details_are_bounded "uk-treasury" Samples.uk_full_row e Hp).
Defined.

(** *** Identifier types *)

Lemma lookup_keyword_other (mapping : list (string * IdentifierType.t)) (s : string) :
  List.Forall (fun entry => snd entry <> IdentifierType.OTHER) mapping ->
  lookup_keyword mapping s = IdentifierType.OTHER <->
  List.Forall (fun entry => Py.contains (fst entry) s = false) mapping.
Proof.
  induction 1 as [|[k t] mapping Ht _ IH]; cbn [lookup_keyword].
  - split; [constructor | reflexivity].
  - rewrite List.Forall_cons_iff. cbn [fst snd] in *.
    destruct (Py.contains k s); [| rewrite IH; intuition].
    split; [contradiction | intros [? _]; discriminate].
Qed.

(** The type of an identification document is read from its
    description without regard to letter case, by the first keyword of
    the crawler's list that occurs in it.  A description that is
    missing or empty gives [OTHER]; one that holds [passport] gives
    [PASSPORT] with each of the three XML crawlers; and a description
    is left as [OTHER] only when none of the crawler's keywords occurs
    in it. *)
Theorem identifier_type_follows_keywords (description : string) :
  EU._map_identifier_type None = IdentifierType.OTHER /\
  OFAC._map_identifier_type None = IdentifierType.OTHER /\
  UN._map_identifier_type None = IdentifierType.OTHER /\
  EU._map_identifier_type (Some "") = IdentifierType.OTHER /\
  OFAC._map_identifier_type (Some "") = IdentifierType.OTHER /\
  UN._map_identifier_type (Some "") = IdentifierType.OTHER /\
  (Py.contains "passport" (Py.lower description) = true ->
   EU._map_identifier_type (Some description) = IdentifierType.PASSPORT /\
   OFAC._map_identifier_type (Some description) = IdentifierType.PASSPORT /\
   UN._map_identifier_type (Some description) = IdentifierType.PASSPORT) /\
  (description <> "" ->
   (EU._map_identifier_type (Some description) = IdentifierType.OTHER <->
    List.Forall (fun k => Py.contains k (Py.lower description) = false)
      ["passport"; "national"; "tax"; "registration"; "id"]) /\
   (OFAC._map_identifier_type (Some description) = IdentifierType.OTHER <->
    List.Forall (fun k => Py.contains k (Py.lower description) = false)
      ["passport"; "national"; "tax"; "registration"; "swift"; "imo"; "call sign"]) /\
   (UN._map_identifier_type (Some description) = IdentifierType.OTHER <->
    List.Forall (fun k => Py.contains k (Py.lower description) = false)
      ["passport"; "national"; "identity"; "tax"; "registration"])).
Proof.
  do 6 (split; [reflexivity|]). split.
  - intros H. unfold EU._map_identifier_type, OFAC._map_identifier_type,
      UN._map_identifier_type.
    destruct description as [|c r]; [discriminate|].
    cbn [Py.otruthy Py.truthy negb Py.fmt_opt lookup_keyword]. rewrite H. auto.
  - intros Hne. unfold EU._map_identifier_type, OFAC._map_identifier_type,
      UN._map_identifier_type.
    destruct description as [|c r]; [contradiction|].
    cbn [Py.otruthy Py.truthy negb Py.fmt_opt].
    rewrite !lookup_keyword_other by (repeat constructor; discriminate).
    cbn [fst]. rewrite !List.Forall_cons_iff. cbn [fst]. intuition.
Qed.

End DetailProps.
